(** * connect-evm: the EIP-1193 adapter over the multichain SDK

    A shallow embedding of [packages/connect-evm/src/connect.ts] (class
    [MetamaskConnectEVM]), of [utils/type-guards.ts] and [utils/caip.ts], and
    of the two [EIP1193Provider] classes of the repository: the one whose
    accessors are plain reads and writes of its private fields, and the one
    of [packages/connect-evm/src/provider.ts], whose accessors go through
    [core.storage.adapter] and whose getters return promises.  The
    properties of the specification follow the definitions; after them come
    further properties of the code: what the handlers do with whatever
    arrives, invariants of the selected chain and of the store, [connect]
    and [disconnect] in full, the requests that the interceptor handles, and
    construction without a session to recover.

    JavaScript values are modelled dynamically ([jsval]): inbound messages,
    request parameters and the values handed to the setters are unchecked at
    run time, and several properties depend on what the code does with
    [undefined], [0], the empty string or a [Promise].

    An operation is a function from the state of the adapter to an outcome
    that is a result or an exception, each with the state reached.  The
    state carries a trace of what the adapter did to its collaborators (the
    SDK core, its transport and store, the provider's listeners, the
    caller's handlers), in order.  An [await] takes the events that arrive
    while the caller is suspended and the way the awaited promise settles. *)

From Stdlib Require Import ZArith NArith String Ascii List Bool Lia HexString.
From Stdlib Require DecimalString DecimalPos DecimalFacts.
From stdpp Require Import base option gmap strings list.

Set Warnings "-register-all".

Open Scope string_scope.
Open Scope list_scope.

(* ================================================================== *)
(** ** JavaScript values *)
(* ================================================================== *)

(** A JS [number], a double: [NaN], an integer, an infinity, or the
    fraction [m / 2^e] with [m] odd.  An integer beyond [2^53] that no double
    holds reads as the double nearest to it, as its literal does.  The two
    zeros are one value: no operation of the adapter tells them apart. *)
Inductive jsnum : Type :=
| NaN
| Num (z : Z)
| Inf (negative : bool)
| Frac (m : Z) (e : positive).

Inductive jsval : Type :=
| JUndefined
| JNull
| JBool (b : bool)
| JNum (n : jsnum)
| JStr (s : string)     (* its characters are the code units, all below 256 *)
| JArr (items : list jsval)
| JObj (fields : list (string * jsval))
| JPromise (settled : jsval).   (* a Promise object and the value it settles to *)

(** Errors that the code throws (or that a rejected promise carries). *)
Inductive js_error : Type :=
| Error (message : string)
| TypeError (message : string)
| AssertionError (message : string)
| Rejection (reason : jsval).

(** [!v] is [negb (truthy v)]. *)
Definition truthy (v : jsval) : bool :=
  match v with
  | JUndefined | JNull => false
  | JBool b => b
  | JNum NaN => false
  | JNum (Num z) => negb (z =? 0)%Z
  | JNum (Inf _) | JNum (Frac _ _) => true
  | JStr s => negb (String.eqb s "")
  | JArr _ | JObj _ | JPromise _ => true
  end.

(** [typeof v === 'number'] and [typeof v === 'string']. *)
Definition is_number (v : jsval) : bool :=
  match v with JNum _ => true | _ => false end.

Definition is_string (v : jsval) : bool :=
  match v with JStr _ => true | _ => false end.

(** [v === 'literal']: strict equality against a string literal. *)
Definition strict_eq_str (v : jsval) (lit : string) : bool :=
  match v with JStr s => String.eqb s lit | _ => false end.

(** [v === n]: strict equality against an integer literal. *)
Definition strict_eq_int (v : jsval) (lit : Z) : bool :=
  match v with JNum (Num z) => (z =? lit)%Z | _ => false end.

(** [a ?? b]. *)
Definition nullish (v : jsval) : bool :=
  match v with JUndefined | JNull => true | _ => false end.

Definition coalesce (a b : jsval) : jsval := if nullish a then b else a.

Fixpoint assoc (k : string) (fields : list (string * jsval)) : jsval :=
  match fields with
  | [] => JUndefined
  | (k', v) :: rest => if String.eqb k k' then v else assoc k rest
  end.

(** [v?.k]: [undefined] on a nullish receiver; own named properties of plain
    objects only (the code reads no [length] and no prototype property). *)
Definition opt_prop (v : jsval) (k : string) : jsval :=
  match v with
  | JObj fields => assoc k fields
  | _ => JUndefined
  end.

(** [v.k]: a [TypeError] on a nullish receiver. *)
Definition prop (v : jsval) (k : string) : js_error + jsval :=
  if nullish v then inl (TypeError ("Cannot read properties of nullish value (reading '" +:+ k +:+ "')"))
  else inr (opt_prop v k).

(** The decimal digits of an integer, with its sign. *)
Definition Z_to_string (z : Z) : string :=
  DecimalString.NilZero.string_of_int (Z.to_int z).

(** [v[i]] for a literal index [i]: a [TypeError] on a nullish receiver, the
    element of an array, the character of a string, the property named by
    the digits of [i] of an object. *)
Definition index (v : jsval) (i : nat) : js_error + jsval :=
  match v with
  | JUndefined | JNull => inl (TypeError "Cannot read properties of nullish value (reading index)")
  | JArr items => inr (nth i items JUndefined)
  | JStr s => inr (match String.get i s with
                   | Some c => JStr (String c EmptyString)
                   | None => JUndefined
                   end)
  | JObj fields => inr (assoc (Z_to_string (Z.of_nat i)) fields)
  | JBool _ | JNum _ | JPromise _ => inr JUndefined
  end.

Definition MAX_SAFE_INTEGER : Z := 2 ^ 53 - 1.

(* ------------------------------------------------------------------ *)
(** *** Doubles *)

(** A positive rational [n / d], with [0 < n] and [0 < d]. *)
Definition ratio : Type := Z * Z.

(** [x * b^k], for any integer [k]. *)
Definition times_pow (b : Z) (x : ratio) (k : Z) : ratio :=
  if (0 <=? k)%Z then (fst x * b ^ k, snd x)%Z else (fst x, snd x * b ^ (- k))%Z.

Definition same_ratio (x y : ratio) : bool := (fst x * snd y =? fst y * snd x)%Z.

(** The integer nearest to [x], the even one of two. *)
Definition round_half_even (x : ratio) : Z :=
  let q := (fst x / snd x)%Z in
  let r := (fst x mod snd x)%Z in
  if (snd x <? 2 * r)%Z || ((snd x =? 2 * r)%Z && Z.odd q) then (q + 1)%Z else q.

(** The [b] with [2^b <= x < 2^(b+1)]. *)
Definition binade (x : ratio) : Z :=
  let b := (Z.log2 (fst x) - Z.log2 (snd x))%Z in
  let y := times_pow 2 x (- b) in
  if (fst y <? snd y)%Z then (b - 1)%Z else b.

(** The double nearest to [x], ties to even: 53 bits from the binade of
    [x] down, fewer below [2^-1022], where the doubles are [2^-1074] apart.
    The result is not bounded: [overflows] tells when it is no double. *)
Definition nearest_double (x : ratio) : ratio :=
  let e := Z.max (binade x - 52) (- 1074) in
  times_pow 2 (round_half_even (times_pow 2 x (- e)), 1%Z) e.

Definition overflows (x : ratio) : bool := (2 ^ 1024 * snd x <=? fst x)%Z.

(** The number that the positive rational [x] rounds to, with its sign. *)
Definition to_number (negative : bool) (x : ratio) : jsnum :=
  let '(n, d) := nearest_double x in
  if (n =? 0)%Z then Num 0
  else if overflows (n, d) then Inf negative
  else
    let g := Z.gcd n d in
    let n' := (if negative then - (n / g) else n / g)%Z in
    match (d / g)%Z with
    | Zpos 1 => Num n'
    | Zpos p => Frac n' (Pos.of_nat (Z.to_nat (Z.log2 (Zpos p))))
    | _ => NaN
    end.

(** The number that an integer reads as ([parseInt], an integer literal):
    itself when it is safe, else the double nearest to it. *)
Definition of_integer (z : Z) : jsnum :=
  if (Z.abs z <=? MAX_SAFE_INTEGER)%Z then Num z
  else to_number (z <? 0)%Z (Z.abs z, 1%Z).

(* ------------------------------------------------------------------ *)
(** *** [Number::toString] *)

Fixpoint zeros (n : nat) : string :=
  match n with O => "" | S n' => String "0" (zeros n') end.

Fixpoint strip_zeros (rev_digits : list ascii) : list ascii :=
  match rev_digits with
  | "0"%char :: r => strip_zeros r
  | _ => rev_digits
  end.

(** The [n] with [10^(n-1) <= x < 10^n], for [x < 1] and for any [x]. *)
Fixpoint magnitude_below (fuel : nat) (x : ratio) : Z :=
  match fuel with
  | O => 0
  | S f => let y := times_pow 10 x 1 in
           if (snd y <=? fst y)%Z then 0%Z else (magnitude_below f y - 1)%Z
  end.

Definition magnitude (x : ratio) : Z :=
  if (snd x <=? fst x)%Z
  then Z.of_nat (String.length (Z_to_string (fst x / snd x)))
  else magnitude_below 400 x.

(** An integer [s] of [k] digits for which [s * 10^(n-k)] rounds to the
    double [v]: of the two around [v * 10^(k-n)], the one that does, and the
    nearer (then the even) one when both do. *)
Definition digits_for (v : ratio) (n k : Z) : option Z :=
  let t := times_pow 10 v (k - n) in
  let lo := (fst t / snd t)%Z in
  let hi := (lo + 1)%Z in
  let reads s := same_ratio (nearest_double (times_pow 10 (s, 1%Z) (n - k))) v in
  match reads lo, reads hi with
  | true, true => Some (if (snd t <? 2 * (fst t mod snd t))%Z then hi
                        else if (snd t =? 2 * (fst t mod snd t))%Z
                             then (if Z.even lo then lo else hi)
                             else lo)
  | true, false => Some lo
  | false, true => Some hi
  | false, false => None
  end.

(** The least [k] from [k] on that has such an [s]; 17 digits always do. *)
Fixpoint shortest (fuel : nat) (v : ratio) (n k : Z) : Z * Z :=
  match fuel with
  | O => (0, k)%Z
  | S f => match digits_for v n k with
           | Some s => (s, k)
           | None => shortest f v n (k + 1)%Z
           end
  end.

(** [Number::toString] of a positive finite double [v]: the digits [D] of
    the shortest [s], [k] of them, with [n] digits before the point; plain
    notation for [-6 < n <= 21], exponent notation beyond. *)
Definition render (v : ratio) : string :=
  let n0 := magnitude v in
  let '(s, k0) := shortest 17 v n0 1%Z in
  let all := list_ascii_of_string (Z_to_string s) in
  let n := (n0 - k0 + Z.of_nat (length all))%Z in
  let digits := rev (strip_zeros (rev all)) in
  let k := Z.of_nat (length digits) in
  let D := string_of_list_ascii digits in
  if (k <=? n)%Z && (n <=? 21)%Z then D +:+ zeros (Z.to_nat (n - k))
  else if (0 <? n)%Z && (n <=? 21)%Z
       then string_of_list_ascii (firstn (Z.to_nat n) digits) +:+ "."
            +:+ string_of_list_ascii (skipn (Z.to_nat n) digits)
  else if (-6 <? n)%Z && (n <=? 0)%Z then "0." +:+ zeros (Z.to_nat (- n)) +:+ D
  else
    let e := (n - 1)%Z in
    string_of_list_ascii (firstn 1 digits)
    +:+ (if (1 <? k)%Z then "." +:+ string_of_list_ascii (skipn 1 digits) else "")
    +:+ "e" +:+ (if (0 <=? e)%Z then "+" else "-") +:+ Z_to_string (Z.abs e).

(** [String(x)] of a number.  A safe integer prints as its decimal digits
    (the digits that [render] gives it). *)
Definition Number_toString (x : jsnum) : string :=
  match x with
  | NaN => "NaN"
  | Inf negative => if negative then "-Infinity" else "Infinity"
  | Num z =>
      if (Z.abs z <=? MAX_SAFE_INTEGER)%Z then Z_to_string z
      else if overflows (nearest_double (Z.abs z, 1%Z))
           then (if (z <? 0)%Z then "-Infinity" else "Infinity")
           else (if (z <? 0)%Z then "-" else "") +:+ render (nearest_double (Z.abs z, 1%Z))
  | Frac m e =>
      (if (m <? 0)%Z then "-" else "") +:+ render (nearest_double (Z.abs m, (2 ^ Zpos e)%Z))
  end.

Definition join_comma (parts : list string) : string :=
  match parts with
  | [] => ""
  | p :: rest => fold_left (fun acc q => acc +:+ "," +:+ q) rest p
  end.

(** [String(v)], the conversion behind template literals and [parseInt]. *)
Fixpoint ToString (v : jsval) : string :=
  match v with
  | JUndefined => "undefined"
  | JNull => "null"
  | JBool true => "true"
  | JBool false => "false"
  | JNum n => Number_toString n
  | JStr s => s
  | JArr items =>
      join_comma
        ((fix elems (l : list jsval) : list string :=
            match l with
            | [] => []
            | x :: l' => (if nullish x then "" else ToString x) :: elems l'
            end) items)
  | JObj _ => "[object Object]"
  | JPromise _ => "[object Promise]"
  end.

(* ------------------------------------------------------------------ *)
(** *** Number parsing *)

(** White space and line ends among the characters below 256: a character
    of a model string is one code unit of the JS string. *)
Definition is_ws (c : ascii) : bool :=
  let n := nat_of_ascii c in
  (n =? 32)%nat || ((9 <=? n)%nat && (n <=? 13)%nat) || (n =? 160)%nat.

Fixpoint skip_ws (s : string) : string :=
  match s with
  | String c s' => if is_ws c then skip_ws s' else s
  | EmptyString => s
  end.

Definition rev_string (s : string) : string :=
  string_of_list_ascii (rev (list_ascii_of_string s)).

Definition trim (s : string) : string :=
  rev_string (skip_ws (rev_string (skip_ws s))).

Definition digit_in (radix : N) (c : ascii) : option N :=
  match HexString.ascii_to_digit c with
  | Some d => if (d <? radix)%N then Some d else None
  | None => None
  end.

(** All of [s] as digits of [radix]; [None] when a character is not one. *)
Fixpoint digits_value (radix : N) (s : string) (acc : N) : option N :=
  match s with
  | EmptyString => Some acc
  | String c s' =>
      match digit_in radix c with
      | Some d => digits_value radix s' (d + radix * acc)%N
      | None => None
      end
  end.

Definition literal_value (radix : N) (s : string) : jsnum :=
  match s with
  | EmptyString => NaN
  | _ => match digits_value radix s 0%N with
         | Some n => of_integer (Z.of_N n)
         | None => NaN
         end
  end.

Definition is_char (c : ascii) (lower upper : string) : bool :=
  String.eqb (String c EmptyString) lower || String.eqb (String c EmptyString) upper.

(** The decimal digits that [s] starts with, and what follows them. *)
Fixpoint leading_digits (s : string) : string * string :=
  match s with
  | String c r =>
      match digit_in 10 c with
      | Some _ => let '(d, rest) := leading_digits r in (String c d, rest)
      | None => ("", s)
      end
  | EmptyString => ("", "")
  end.

(** [ExponentPart], or nothing, up to the end of the literal. *)
Definition exponent_part (s : string) : option Z :=
  match s with
  | EmptyString => Some 0%Z
  | String c r =>
      if is_char c "e" "E" then
        let '(negative, d) := match r with
                              | String "-" d => (true, d)
                              | String "+" d => (false, d)
                              | _ => (false, r)
                              end in
        match d with
        | EmptyString => None
        | _ => (fun n => if negative then (- Z.of_N n)%Z else Z.of_N n)
                 <$> digits_value 10 d 0%N
        end
      else None
  end.

(** The number nearest to [m * 10^e].  Far beyond the range of the doubles
    the power is not computed. *)
Definition decimal_number (negative : bool) (m : N) (e : Z) : jsnum :=
  if (m =? 0)%N then Num 0
  else
    let n := (e + Z.of_nat (String.length (Z_to_string (Z.of_N m))))%Z in
    if (400 <? n)%Z then Inf negative
    else if (n <? -400)%Z then Num 0
    else to_number negative (times_pow 10 (Z.of_N m, 1%Z) e).

(** [StrUnsignedDecimalLiteral]: [Infinity], or digits with an optional
    fraction and an optional exponent, one digit at least before or after
    the point. *)
Definition decimal_literal (negative : bool) (s : string) : jsnum :=
  if String.eqb s "Infinity" then Inf negative
  else
    let '(whole, r) := leading_digits s in
    let '(fraction, r') := match r with
                           | String "." r1 => leading_digits r1
                           | _ => ("", r)
                           end in
    if String.eqb whole "" && String.eqb fraction "" then NaN
    else
      match digits_value 10 (whole +:+ fraction) 0%N, exponent_part r' with
      | Some m, Some e => decimal_number negative m (e - Z.of_nat (String.length fraction))
      | _, _ => NaN
      end.

(** [Number(s)] on a string ([StringNumericLiteral]): white space trimmed,
    the empty string is [0], a [0x], [0o] or [0b] literal, which takes no
    sign, or a decimal literal with an optional sign.  Every other string is
    [NaN]. *)
Definition StringToNumber (s : string) : jsnum :=
  match trim s with
  | EmptyString => Num 0
  | String "0" (String c r) as t =>
      if is_char c "x" "X" then literal_value 16 r
      else if is_char c "o" "O" then literal_value 8 r
      else if is_char c "b" "B" then literal_value 2 r
      else decimal_literal false t
  | String "-" r => decimal_literal true r
  | String "+" r => decimal_literal false r
  | t => decimal_literal false t
  end.

(** [Number(v)]. *)
Definition Number (v : jsval) : jsnum :=
  match v with
  | JUndefined => NaN
  | JNull => Num 0
  | JBool b => Num (if b then 1 else 0)
  | JNum n => n
  | JStr s => StringToNumber s
  | JArr [] => Num 0
  | JArr [x] => if nullish x then Num 0 else StringToNumber (ToString x)
  | JArr _ => NaN
  | JObj _ | JPromise _ => NaN
  end.

(** The longest prefix of hexadecimal digits, as [parseInt] reads it. *)
Fixpoint parse_hex_prefix (s : string) (acc : N) : N :=
  match s with
  | EmptyString => acc
  | String c s' =>
      match HexString.ascii_to_digit c with
      | Some d => parse_hex_prefix s' (d + 16 * acc)%N
      | None => acc
      end
  end.

Definition starts_with_hex_digit (s : string) : bool :=
  match s with
  | String c _ => match HexString.ascii_to_digit c with Some _ => true | None => false end
  | EmptyString => false
  end.

Definition strip_0x (s : string) : string :=
  match s with
  | String "0" (String c r) => if is_char c "x" "X" then r else s
  | _ => s
  end.

(** [parseInt(v, 16)]. *)
Definition parseInt16 (v : jsval) : jsnum :=
  let s := skip_ws (ToString v) in
  let '(neg, s) := match s with
                   | String "-" r => (true, r)
                   | String "+" r => (false, r)
                   | _ => (false, s)
                   end in
  let s := strip_0x s in
  if starts_with_hex_digit s
  then let n := Z.of_N (parse_hex_prefix s 0%N) in of_integer (if neg then - n else n)%Z
  else NaN.

(* ------------------------------------------------------------------ *)
(** *** The functions of [@metamask/utils] that the adapter calls *)

Definition isSafeInteger (n : jsnum) : bool :=
  match n with
  | Num z => (- MAX_SAFE_INTEGER <=? z)%Z && (z <=? MAX_SAFE_INTEGER)%Z
  | NaN | Inf _ | Frac _ _ => false
  end.

(** [numberToHex(value)]: three assertions, then [add0x(value.toString(16))]. *)
Definition numberToHex (value : jsval) : js_error + string :=
  match value with
  | JNum n =>
      match n with
      | NaN => inl (AssertionError "Value must be a non-negative number.")
      | Num z =>
          if (z <? 0)%Z then inl (AssertionError "Value must be a non-negative number.")
          else if isSafeInteger n then inr (HexString.of_N (Z.to_N z))
          else inl (AssertionError "Value is not a safe integer. Use `bigIntToHex` instead.")
      | Inf negative =>
          if negative then inl (AssertionError "Value must be a non-negative number.")
          else inl (AssertionError "Value is not a safe integer. Use `bigIntToHex` instead.")
      | Frac m _ =>
          if (m <? 0)%Z then inl (AssertionError "Value must be a non-negative number.")
          else inl (AssertionError "Value is not a safe integer. Use `bigIntToHex` instead.")
      end
  | _ => inl (AssertionError "Value must be a number.")
  end.

Fixpoint all_hex_digits (s : string) : bool :=
  match s with
  | EmptyString => true
  | String c s' =>
      match HexString.ascii_to_digit c with
      | Some _ => all_hex_digits s'
      | None => false
      end
  end.

Definition hex_digits1 (s : string) : bool :=
  match s with
  | EmptyString => false
  | _ => all_hex_digits s
  end.

(** [isHexString(value)]: a string matching [/^(?:0x)?[0-9a-f]+$/iu]. *)
Definition isHex (value : jsval) : bool :=
  match value with
  | JStr s =>
      match s with
      | String "0" (String c r) => if is_char c "x" "X" then hex_digits1 r else hex_digits1 s
      | _ => hex_digits1 s
      end
  | _ => false
  end.

(** [hexToNumber(value)]: [assertIsHexString], [parseInt(value, 16)], and the
    assertion that the result is a safe integer. *)
Definition hexToNumber (value : jsval) : js_error + Z :=
  if isHex value then
    match parseInt16 value with
    | Num z => if isSafeInteger (Num z) then inr z
               else inl (AssertionError "Value is not a safe integer. Use `hexToBigInt` instead.")
    | NaN | Inf _ | Frac _ _ =>
        inl (AssertionError "Value is not a safe integer. Use `hexToBigInt` instead.")
    end
  else inl (AssertionError "Value must be a hexadecimal string.").

Definition is_lower_hex_digit (c : ascii) : bool :=
  let n := nat_of_ascii c in
  ((48 <=? n)%nat && (n <=? 57)%nat) || ((97 <=? n)%nat && (n <=? 102)%nat).

(** [isHexAddress(value)]: a string matching [/^0x[0-9a-f]{40}$/u]. *)
Definition isHexAddress (value : jsval) : bool :=
  match value with
  | JStr (String "0" (String "x" r)) =>
      (String.length r =? 40)%nat && forallb is_lower_hex_digit (list_ascii_of_string r)
  | _ => false
  end.

(* ================================================================== *)
(** ** The state of one adapter instance and of its collaborators *)
(* ================================================================== *)

(** Which [EIP1193Provider] class the manager instantiates: the one whose
    accessors read and write its private fields, or the one of
    [packages/connect-evm/src/provider.ts], whose accessors go through
    [core.storage.adapter] and whose getters return promises. *)
Inductive provider_impl : Type :=
| InMemory
| StorageBacked.

(** [EIP1193ProviderEvents]. *)
Inductive provider_event : Type :=
| connect_event (chainId : string)          (* [{ chainId }] *)
| disconnect_event
| accountsChanged_event (accounts : jsval)
| chainChanged_event (chainId : string).

(** What the adapter does that is visible outside the two objects, in the
    order in which it does it.  The two assignments to the provider's
    accessors are recorded as well, so that the order of a handler's steps
    can be read off the trace. *)
Inductive effect : Type :=
| SetAccounts (accounts : jsval)            (* [provider.accounts = accounts] *)
| SetSelectedChainId (chainId : jsval)      (* [provider.selectedChainId = chainId] *)
| Emit (ev : provider_event)                (* [provider.emit(...)] *)
| Callback (ev : provider_event)            (* [eventHandlers?.x?.(...)] *)
| CoreConnect (scopes accountIds : list string)
| CoreDisconnect
| SendEip1193Message (method : string) (params : list jsval)
| InvokeMethod (scope method : string) (params : jsval)
| StorageSet (key : string) (value : jsval).

(** The listeners registered on [window] for ['message']. *)
Inductive window_listener : Type :=
| MetamaskProviderHandler
| RecoverSession.

(** The function objects around [#sessionChangedHandler]: the handler
    itself, and the new function that [.bind(this)] returns. *)
Inductive session_listener : Type :=
| SessionChangedHandler
| BoundSessionChangedHandler.

Global Instance window_listener_eq_dec : EqDecision window_listener.
Proof. solve_decision. Defined.

Global Instance session_listener_eq_dec : EqDecision session_listener.
Proof. solve_decision. Defined.

(** [EventHandlers], all optional: which ones the caller supplied. *)
Record EventHandlers : Type := {
  on_connect : bool;
  on_disconnect : bool;
  on_accountsChanged : bool;
  on_chainChanged : bool;
}.

Record state : Type := {
  (* EIP1193Provider *)
  impl : provider_impl;
  p_accounts : jsval;                      (* [#accounts] *)
  p_selectedChainId : jsval;               (* [#selectedChainId] *)
  (* MetamaskConnectEVM *)
  sessionScopes : jsval;                   (* [#sessionScopes] *)
  latestChainConfiguration : jsval;        (* [#latestChainConfiguration] *)
  eventHandlers : option EventHandlers;    (* [#eventHandlers] *)
  (* the collaborators *)
  storage : gmap string jsval;             (* [core.storage.adapter] *)
  window_listeners : list window_listener; (* [window]'s 'message' listeners *)
  session_listeners : list session_listener; (* [core]'s 'wallet_sessionChanged' listeners *)
  notification_callbacks : nat;            (* [core.transport.onNotification] registrations *)
  trace : list effect;
}.

Definition with_accounts (v : jsval) (s : state) : state :=
  {| impl := impl s; p_accounts := v; p_selectedChainId := p_selectedChainId s;
     sessionScopes := sessionScopes s; latestChainConfiguration := latestChainConfiguration s;
     eventHandlers := eventHandlers s; storage := storage s;
     window_listeners := window_listeners s; session_listeners := session_listeners s;
     notification_callbacks := notification_callbacks s; trace := trace s |}.

Definition with_selectedChainId (v : jsval) (s : state) : state :=
  {| impl := impl s; p_accounts := p_accounts s; p_selectedChainId := v;
     sessionScopes := sessionScopes s; latestChainConfiguration := latestChainConfiguration s;
     eventHandlers := eventHandlers s; storage := storage s;
     window_listeners := window_listeners s; session_listeners := session_listeners s;
     notification_callbacks := notification_callbacks s; trace := trace s |}.

Definition with_sessionScopes (v : jsval) (s : state) : state :=
  {| impl := impl s; p_accounts := p_accounts s; p_selectedChainId := p_selectedChainId s;
     sessionScopes := v; latestChainConfiguration := latestChainConfiguration s;
     eventHandlers := eventHandlers s; storage := storage s;
     window_listeners := window_listeners s; session_listeners := session_listeners s;
     notification_callbacks := notification_callbacks s; trace := trace s |}.

Definition with_latestChainConfiguration (v : jsval) (s : state) : state :=
  {| impl := impl s; p_accounts := p_accounts s; p_selectedChainId := p_selectedChainId s;
     sessionScopes := sessionScopes s; latestChainConfiguration := v;
     eventHandlers := eventHandlers s; storage := storage s;
     window_listeners := window_listeners s; session_listeners := session_listeners s;
     notification_callbacks := notification_callbacks s; trace := trace s |}.

Definition with_storage (m : gmap string jsval) (s : state) : state :=
  {| impl := impl s; p_accounts := p_accounts s; p_selectedChainId := p_selectedChainId s;
     sessionScopes := sessionScopes s; latestChainConfiguration := latestChainConfiguration s;
     eventHandlers := eventHandlers s; storage := m;
     window_listeners := window_listeners s; session_listeners := session_listeners s;
     notification_callbacks := notification_callbacks s; trace := trace s |}.

Definition with_window_listeners (l : list window_listener) (s : state) : state :=
  {| impl := impl s; p_accounts := p_accounts s; p_selectedChainId := p_selectedChainId s;
     sessionScopes := sessionScopes s; latestChainConfiguration := latestChainConfiguration s;
     eventHandlers := eventHandlers s; storage := storage s;
     window_listeners := l; session_listeners := session_listeners s;
     notification_callbacks := notification_callbacks s; trace := trace s |}.

Definition with_session_listeners (l : list session_listener) (s : state) : state :=
  {| impl := impl s; p_accounts := p_accounts s; p_selectedChainId := p_selectedChainId s;
     sessionScopes := sessionScopes s; latestChainConfiguration := latestChainConfiguration s;
     eventHandlers := eventHandlers s; storage := storage s;
     window_listeners := window_listeners s; session_listeners := l;
     notification_callbacks := notification_callbacks s; trace := trace s |}.

Definition with_notification_callbacks (n : nat) (s : state) : state :=
  {| impl := impl s; p_accounts := p_accounts s; p_selectedChainId := p_selectedChainId s;
     sessionScopes := sessionScopes s; latestChainConfiguration := latestChainConfiguration s;
     eventHandlers := eventHandlers s; storage := storage s;
     window_listeners := window_listeners s; session_listeners := session_listeners s;
     notification_callbacks := n; trace := trace s |}.

Definition with_trace (t : list effect) (s : state) : state :=
  {| impl := impl s; p_accounts := p_accounts s; p_selectedChainId := p_selectedChainId s;
     sessionScopes := sessionScopes s; latestChainConfiguration := latestChainConfiguration s;
     eventHandlers := eventHandlers s; storage := storage s;
     window_listeners := window_listeners s; session_listeners := session_listeners s;
     notification_callbacks := notification_callbacks s; trace := t |}.

(* ------------------------------------------------------------------ *)
(** *** Computations: state passing, with exceptions that keep the state *)

(** A call either returns or throws; in both cases the mutations made up to
    that point stay. *)
Inductive outcome (A : Type) : Type :=
| Ok (a : A) (s : state)
| Throw (e : js_error) (s : state).

Arguments Ok {A} a s.
Arguments Throw {A} e s.

Definition M (A : Type) : Type := state -> outcome A.

Definition ret {A : Type} (a : A) : M A := fun s => Ok a s.

Definition bind {A B : Type} (m : M A) (k : A -> M B) : M B :=
  fun s => match m s with
           | Ok a s' => k a s'
           | Throw e s' => Throw e s'
           end.

Definition throw {A : Type} (e : js_error) : M A := fun s => Throw e s.

Definition lift {A : Type} (r : js_error + A) : M A :=
  fun s => match r with inl e => Throw e s | inr a => Ok a s end.

Definition gets {A : Type} (f : state -> A) : M A := fun s => Ok (f s) s.

Definition modify (f : state -> state) : M unit := fun s => Ok tt (f s).

Definition log (e : effect) : M unit := modify (fun s => with_trace (trace s ++ [e]) s).

Definition when (b : bool) (m : M unit) : M unit := if b then m else ret tt.

Definition final {A : Type} (o : outcome A) : state :=
  match o with Ok _ s => s | Throw _ s => s end.

Global Instance M_ret : MRet M := @ret.
Global Instance M_bind : MBind M := fun A B k m => bind m k.

(* ------------------------------------------------------------------ *)
(** *** What the adapter takes from outside its own source files *)

(** [constants.ts] is not among the source files: the two method lists are
    parameters.  [_getPermittedEthChainIds] is the function of
    [@metamask/chain-agnostic-permission] that [utils/caip.ts] wraps, and
    [location_origin] is the browser's [location.origin]. *)
Class Externals : Type := {
  INTERCEPTABLE_METHODS : list string;
  IGNORED_METHODS : list string;
  _getPermittedEthChainIds : jsval -> jsval -> list string;
  location_origin : string;
}.

(** [list.includes(x)] on a list of strings. *)
Definition includes (l : list string) (x : string) : bool :=
  existsb (String.eqb x) l.

(** A window ['message'] event. *)
Record MessageEvent : Type := {
  origin : string;
  data : jsval;
}.

(** What can arrive from outside between two steps of the adapter. *)
Inductive inbound : Type :=
| WindowMessage (event : MessageEvent)      (* a 'message' event on [window] *)
| TransportNotification (notification : jsval) (* [core.transport] notifies its callbacks *)
| SessionChanged (session : jsval).         (* [core] emits 'wallet_sessionChanged' *)

(** How an awaited call of the SDK ends. *)
Inductive settlement : Type :=
| Resolves (value : jsval)
| Rejects (reason : jsval).

(** An [await]: what arrives while the caller is suspended, and how the
    awaited promise settles. *)
Record awaited : Type := {
  during : list inbound;
  settles : settlement;
}.

Section Adapter.

Context `{Externals}.

(* ================================================================== *)
(** ** [EIP1193Provider]: the accessors *)
(* ================================================================== *)

(** [set accounts(accounts)].  The storage-backed class first writes
    [JSON.stringify(accounts)] under ['accounts']; the store is modelled as
    holding the value that [JSON.parse] gives back. *)
Definition set_accounts (accounts : jsval) : M unit :=
  log (SetAccounts accounts) ;;
  impl_ ← gets impl;
  when (match impl_ with StorageBacked => true | InMemory => false end)
       (log (StorageSet "accounts" accounts) ;;
        modify (fun s => with_storage (<["accounts" := accounts]> (storage s)) s)) ;;
  modify (with_accounts accounts).

(** [get accounts()]: the field, or a promise of what the store holds. *)
Definition get_accounts (s : state) : jsval :=
  match impl s with
  | InMemory => p_accounts s
  | StorageBacked =>
      JPromise (match storage s !! "accounts" with
                | Some v => v
                | None => JUndefined
                end)
  end.

(** [get selectedChainId()]. *)
Definition get_selectedChainId (s : state) : jsval :=
  match impl s with
  | InMemory => p_selectedChainId s
  | StorageBacked =>
      JPromise (match storage s !! "selectedChainId" with
                | Some v => v
                | None => JNull
                end)
  end.

(** [v?.[i]]: [undefined] on a nullish receiver. *)
Definition opt_index (v : jsval) (i : nat) : jsval :=
  match index v i with
  | inr x => x
  | inl _ => JUndefined
  end.

(** [get selectedAccount()].  The in-memory class reads [this.accounts[0]].
    The storage-backed class returns a promise: of [undefined] when the
    store holds nothing under ['accounts'], and of [parsedAccounts?.[0]]
    otherwise (the store is modelled as holding the parsed value, as for
    [get accounts()]).  [getAccount()] and the manager's own
    [selectedAccount] return what this getter returns. *)
Definition get_selectedAccount (s : state) : js_error + jsval :=
  match impl s with
  | InMemory => index (p_accounts s) 0
  | StorageBacked =>
      inr (JPromise (match storage s !! "accounts" with
                     | Some v => opt_index v 0
                     | None => JUndefined
                     end))
  end.

(** [set selectedChainId(chainId)]. *)
Definition set_selectedChainId (chainId : jsval) : M unit :=
  log (SetSelectedChainId chainId) ;;
  hexChainId ← lift (if truthy chainId && is_number chainId
                      then match numberToHex chainId with
                           | inr h => inr (JStr h)
                           | inl e => inl e
                           end
                      else inr chainId);
  impl_ ← gets impl;
  match impl_ with
  | InMemory =>
      (* Don't overwrite the selected chain ID with an undefined value *)
      if negb (truthy hexChainId) then ret tt
      else modify (with_selectedChainId hexChainId)
  | StorageBacked =>
      if negb (truthy hexChainId) || negb (is_string hexChainId) then ret tt
      else
        log (StorageSet "selectedChainId" hexChainId) ;;
        modify (fun s => with_storage (<["selectedChainId" := hexChainId]> (storage s)) s) ;;
        modify (with_selectedChainId hexChainId)
  end.

(** [provider.emit(ev)]: the listeners are the dapp's. *)
Definition emit (ev : provider_event) : M unit := log (Emit ev).

(* ------------------------------------------------------------------ *)
(** *** Registration of listeners *)

(** [window.addEventListener]: a listener already present is not added again. *)
Definition addEventListener (l : window_listener) : M unit :=
  modify (fun s => if bool_decide (l ∈ window_listeners s) then s
                   else with_window_listeners (window_listeners s ++ [l]) s).

Definition removeEventListener (l : window_listener) : M unit :=
  modify (fun s => with_window_listeners (remove window_listener_eq_dec l (window_listeners s)) s).

(** [core.on] and [core.off] for 'wallet_sessionChanged': listeners are
    compared by identity. *)
Definition core_on (l : session_listener) : M unit :=
  modify (fun s => with_session_listeners (session_listeners s ++ [l]) s).

Definition core_off (l : session_listener) : M unit :=
  modify (fun s => with_session_listeners (remove session_listener_eq_dec l (session_listeners s)) s).

(* ================================================================== *)
(** ** [MetamaskConnectEVM]: the synchronous part *)
(* ================================================================== *)

(** [this.#eventHandlers?.x?.(...)]. *)
Definition callback (supplied : EventHandlers -> bool) (ev : provider_event) : M unit :=
  handlers ← gets eventHandlers;
  match handlers with
  | Some h => when (supplied h) (log (Callback ev))
  | None => ret tt
  end.

(** [isHex(chainId) ? chainId : numberToHex(chainId)]. *)
Definition to_hexChainId (chainId : jsval) : js_error + string :=
  match chainId with
  | JStr s => if isHex chainId then inr s else numberToHex chainId
  | _ => numberToHex chainId
  end.

(** [#request(request)]: [core.transport.sendEip1193Message(request)]. *)
Definition request_ (method : string) (params : list jsval) : M unit :=
  log (SendEip1193Message method params).

Definition onChainChanged (chainId : jsval) : M unit :=
  hexChainId ← lift (to_hexChainId chainId);
  set_selectedChainId chainId ;;
  callback on_chainChanged (chainChanged_event hexChainId) ;;
  emit (chainChanged_event hexChainId).

Definition onAccountsChanged (accounts : jsval) : M unit :=
  set_accounts accounts ;;
  emit (accountsChanged_event accounts) ;;
  callback on_accountsChanged (accountsChanged_event accounts).

Definition onConnect (chainId : jsval) : M unit :=
  hexChainId ← lift (to_hexChainId chainId);
  emit (connect_event hexChainId) ;;
  callback on_connect (connect_event hexChainId) ;;
  onChainChanged chainId.

Definition onDisconnect : M unit :=
  emit disconnect_event ;;
  callback on_disconnect disconnect_event ;;
  onAccountsChanged (JArr []).

Definition clearConnectionState : M unit :=
  set_accounts (JArr []) ;;
  set_selectedChainId JUndefined.

Definition addEthereumChain (chainConfiguration : jsval) : M unit :=
  latest ← gets latestChainConfiguration;
  let config := coalesce chainConfiguration latest in
  if negb (truthy config) then throw (Error "No chain configuration found.")
  else request_ "wallet_addEthereumChain" [config].

(** [utils/caip.ts]. *)
Definition getPermittedEthChainIds (scopes : jsval) : list string :=
  if negb (truthy scopes) then []
  else _getPermittedEthChainIds scopes scopes.

Definition switchChain (chainId chainConfiguration : jsval) : M unit :=
  hexChainId ← lift (to_hexChainId chainId);
  selected ← gets get_selectedChainId;
  if strict_eq_str selected hexChainId then ret tt
  else
    scopes ← gets sessionScopes;
    if includes (getPermittedEthChainIds scopes) hexChainId
    then onChainChanged (JStr hexChainId)
    else
      modify (with_latestChainConfiguration chainConfiguration) ;;
      request_ "wallet_switchEthereumChain" [JObj [("chainId", JStr hexChainId)]].

Definition isMetamaskProviderEvent (event : MessageEvent) : bool :=
  strict_eq_str (opt_prop (opt_prop (data event) "data") "name") "metamask-provider"
  && String.eqb (origin event) location_origin.

(** [event?.data?.data?.data]. *)
Definition payload (event : MessageEvent) : jsval :=
  opt_prop (opt_prop (data event) "data") "data".

Definition metamaskProviderHandler (event : MessageEvent) : M unit :=
  when (isMetamaskProviderEvent event)
    (let data := payload event in
     when (strict_eq_str (opt_prop data "method") "metamask_accountsChanged")
          (onAccountsChanged (opt_prop data "params")) ;;
     when (strict_eq_str (opt_prop data "method") "metamask_chainChanged")
          (chainId ← lift (prop (opt_prop data "params") "chainId");
           onChainChanged (JNum (Number chainId))) ;;
     when (strict_eq_int (opt_prop (opt_prop data "error") "code") 4902)
          (addEthereumChain JUndefined)).

Definition sessionChangedHandler (session : jsval) : M unit :=
  modify (with_sessionScopes (coalesce (opt_prop session "sessionScopes") (JObj []))).

(** The one-shot listener that [#attemptSessionRecovery] installs. *)
Definition recoverSession (event : MessageEvent) : M unit :=
  when (isMetamaskProviderEvent event)
    (let data := payload event in
     result ← lift (prop data "result");
     match result with
     | JArr items =>
         when (forallb isHexAddress items)
              (onAccountsChanged result ;;
               removeEventListener RecoverSession)
     | _ => ret tt
     end).

(** The callback that [connect] hands to [core.transport.onNotification]. *)
Definition notificationCallback (notification : jsval) : M unit :=
  when (strict_eq_str (opt_prop notification "method") "metamask_accountsChanged")
       (onAccountsChanged (opt_prop notification "params")) ;;
  when (strict_eq_str (opt_prop notification "method") "metamask_chainChanged")
       (onChainChanged (JNum (Number (opt_prop (opt_prop notification "params") "chainId")))).

(* ------------------------------------------------------------------ *)
(** *** Delivery of inbound events to the registered listeners *)

(** The host calls a listener and reports what it throws; the mutations it
    made stay and the next listener runs.  (For [window] this is the DOM's
    dispatch; the transport and the core's emitter are taken to call their
    callbacks in the same way.) *)
Definition run_listener (m : M unit) : M unit :=
  fun s => Ok tt (final (m s)).

Definition window_listener_body (l : window_listener) : MessageEvent -> M unit :=
  match l with
  | MetamaskProviderHandler => metamaskProviderHandler
  | RecoverSession => recoverSession
  end.

(** The listeners present when the event is dispatched run in registration
    order; one that was removed in the meantime is skipped. *)
Fixpoint dispatch_window (ls : list window_listener) (event : MessageEvent) : M unit :=
  match ls with
  | [] => ret tt
  | l :: ls' =>
      current ← gets window_listeners;
      when (bool_decide (l ∈ current)) (run_listener (window_listener_body l event)) ;;
      dispatch_window ls' event
  end.

Fixpoint repeat_m (n : nat) (m : M unit) : M unit :=
  match n with
  | O => ret tt
  | S n' => m ;; repeat_m n' m
  end.

Definition deliver (i : inbound) : M unit :=
  match i with
  | WindowMessage event =>
      ls ← gets window_listeners;
      dispatch_window ls event
  | TransportNotification notification =>
      n ← gets notification_callbacks;
      repeat_m n (run_listener (notificationCallback notification))
  | SessionChanged session =>
      ls ← gets session_listeners;
      repeat_m (length ls) (run_listener (sessionChangedHandler session))
  end.

Fixpoint deliver_all (is_ : list inbound) : M unit :=
  match is_ with
  | [] => ret tt
  | i :: rest => deliver i ;; deliver_all rest
  end.

(** [await call]: the call is made, the caller is suspended while inbound
    events are delivered, and resumes with the value or the rejection. *)
Definition await (call : effect) (w : awaited) : M jsval :=
  log call ;;
  deliver_all (during w) ;;
  match settles w with
  | Resolves v => ret v
  | Rejects reason => throw (Rejection reason)
  end.

(* ================================================================== *)
(** ** [MetamaskConnectEVM]: the public operations *)
(* ================================================================== *)

(** The two arrays that [connect] builds for [core.connect]. *)
Definition caipChainId (chainId : jsval) : list string :=
  if truthy chainId then ["eip155:" +:+ ToString chainId] else [].

Definition caipAccountId (chainId account : jsval) : list string :=
  if truthy chainId && truthy account
  then ["eip155:" +:+ ToString chainId +:+ ":" +:+ ToString account] else [].

(** [connect({ chainId, account } = { chainId: 1 })]. *)
Definition connect (arg : option (jsval * jsval)) (w : awaited) : M jsval :=
  let '(chainId, account) :=
    match arg with
    | Some a => a
    | None => (JNum (Num 1), JUndefined)
    end in
  await (CoreConnect (caipChainId chainId) (caipAccountId chainId account)) w ;;
  hexChainId ← lift (numberToHex chainId);
  set_selectedChainId (JStr hexChainId) ;;
  modify (fun s => with_notification_callbacks (S (notification_callbacks s)) s) ;;
  selected ← gets get_selectedChainId;
  onConnect selected ;;
  accounts ← gets get_accounts;
  selected' ← gets get_selectedChainId;
  n ← lift (hexToNumber selected');
  ret (JObj [("accounts", accounts); ("chainId", JNum (Num n))]).

Definition disconnect (w : awaited) : M jsval :=
  await CoreDisconnect w ;;
  onDisconnect ;;
  clearConnectionState ;;
  removeEventListener MetamaskProviderHandler ;;
  core_off SessionChangedHandler ;;
  ret JUndefined.

(** [terminate()], the deprecated alias. *)
Definition terminate (w : awaited) : M jsval := disconnect w.

(** [ProviderRequest]: the method is a string, the parameters are unchecked. *)
Record ProviderRequest : Type := {
  method : string;
  params : jsval;
}.

(** [utils/type-guards.ts]. *)
Definition isConnectRequest (req : ProviderRequest) : bool :=
  String.eqb (method req) "wallet_requestPermissions"
  || String.eqb (method req) "eth_requestAccounts".

Definition isSwitchChainRequest (req : ProviderRequest) : bool :=
  String.eqb (method req) "wallet_switchEthereumChain".

Definition isAddChainRequest (req : ProviderRequest) : bool :=
  String.eqb (method req) "wallet_addEthereumChain".

Definition isAccountsRequest (req : ProviderRequest) : bool :=
  String.eqb (method req) "eth_accounts" || String.eqb (method req) "eth_coinbase".

Definition requestInterceptor (request : ProviderRequest) (w : awaited) : M jsval :=
  if includes IGNORED_METHODS (method request) then
    throw (Error ("Method: " +:+ method request +:+ " is not supported by Metamask Connect/EVM"))
  else if String.eqb (method request) "wallet_revokePermissions" then
    disconnect w
  else if isConnectRequest request then
    p0 ← lift (index (params request) 0);
    p1 ← lift (index (params request) 1);
    connect (Some (coalesce p0 (JNum (Num 1)), p1)) w
  else if isSwitchChainRequest request then
    p0 ← lift (index (params request) 0);
    chainId ← lift (prop p0 "chainId");
    switchChain (JNum (parseInt16 chainId)) JUndefined ;;
    ret JUndefined
  else if isAddChainRequest request then
    p0 ← lift (index (params request) 0);
    addEthereumChain p0 ;;
    ret JUndefined
  else if isAccountsRequest request then
    gets get_accounts
  else
    ret JUndefined.

(** [EIP1193Provider.request]. *)
Definition request (req : ProviderRequest) (w : awaited) : M jsval :=
  if includes INTERCEPTABLE_METHODS (method req) then
    requestInterceptor req w
  else
    selected ← gets p_selectedChainId;
    if negb (truthy selected) then throw (Error "No chain ID selected")
    else
      chainId ← lift (hexToNumber selected);
      await (InvokeMethod ("eip155:" +:+ ToString (JNum (Num chainId))) (method req) (params req)) w.

(** [events?.some(n => n.method === 'wallet_sessionChanged')]. *)
Fixpoint some_sessionChanged (events : list jsval) : js_error + bool :=
  match events with
  | [] => inr false
  | n :: rest =>
      match prop n "method" with
      | inl e => inl e
      | inr m => if strict_eq_str m "wallet_sessionChanged" then inr true
                 else some_sessionChanged rest
      end
  end.

Definition attemptSessionRecovery (events : option (list jsval)) : M unit :=
  found ← lift (match events with
                | Some l => some_sessionChanged l
                | None => inr false
                end);
  when found
       (addEventListener RecoverSession ;;
        request_ "eth_accounts" []).

(** The two objects as the constructors leave their fields. *)
Definition fresh (impl_ : provider_impl) (handlers : option EventHandlers)
    (store : gmap string jsval) : state :=
  {| impl := impl_; p_accounts := JArr []; p_selectedChainId := JUndefined;
     sessionScopes := JObj []; latestChainConfiguration := JUndefined;
     eventHandlers := handlers; storage := store;
     window_listeners := []; session_listeners := [];
     notification_callbacks := 0; trace := [] |}.

(** [new MetamaskConnectEVM({ core, eventHandlers, notificationQueue })]. *)
Definition constructor (impl_ : provider_impl) (handlers : option EventHandlers)
    (store : gmap string jsval) (notificationQueue : option (list jsval)) : outcome unit :=
  (addEventListener MetamaskProviderHandler ;;
   core_on BoundSessionChangedHandler ;;
   attemptSessionRecovery notificationQueue) (fresh impl_ handlers store).

(** [createMetamaskConnectEVM(options)].  While [createMetamaskConnect] is
    awaited, the transport option pushes every notification on a new queue;
    when the SDK core has been created, the adapter is constructed with the
    caller's handlers and that queue.  An error of either step is logged and
    thrown again.  The result is the error, or the adapter in the state in
    which its constructor left it. *)
Definition createMetamaskConnectEVM (impl_ : provider_impl) (handlers : option EventHandlers)
    (store : gmap string jsval) (notifications : list jsval) (created : settlement)
    : js_error + state :=
  match created with
  | Rejects reason => inl (Rejection reason)
  | Resolves _ =>
      match constructor impl_ handlers store (Some notifications) with
      | Ok _ s => inr s
      | Throw e _ => inl e
      end
  end.

(* ------------------------------------------------------------------ *)
(** *** Runs of the adapter *)

(** What a dapp and the environment can do with a constructed adapter. *)
Inductive operation : Type :=
| Connect (arg : option (jsval * jsval)) (w : awaited)
| Disconnect (w : awaited)
| SwitchChain (chainId chainConfiguration : jsval)
| Request (req : ProviderRequest) (w : awaited)
| Inbound (i : inbound).

Definition run (op : operation) : M jsval :=
  match op with
  | Connect arg w => connect arg w
  | Disconnect w => disconnect w
  | SwitchChain chainId chainConfiguration =>
      switchChain chainId chainConfiguration ;; ret JUndefined
  | Request req w => request req w
  | Inbound i => deliver i ;; ret JUndefined
  end.

(** A rejected call leaves the adapter in the state it had reached. *)
Definition run_all (ops : list operation) (s : state) : state :=
  fold_left (fun s' op => final (run op s')) ops s.

End Adapter.

(* ================================================================== *)
(** ** The vocabulary of the properties *)
(* ================================================================== *)

(** [m] keeps [I], whether it returns or throws. *)
Definition preserves {A : Type} (I : state -> Prop) (m : M A) : Prop :=
  forall s, I s -> I (final (m s)).

(** The effects of the trace selected by [counted] are the ones in [k]. *)
Definition selected_are (counted : effect -> bool) (k : list effect) (s : state) : Prop :=
  List.filter counted (trace s) = k.

(** The trace only grows: [pre] stays its prefix. *)
Definition extends (pre : list effect) (s : state) : Prop :=
  exists t, trace s = pre ++ t.

Definition is_invoke (e : effect) : bool :=
  match e with InvokeMethod _ _ _ => true | _ => false end.

(** The calls of [core.invokeMethod] made so far. *)
Definition invocations (s : state) : list effect := List.filter is_invoke (trace s).

(** [m] returns, and what it adds to the trace is [t], which may depend on
    the provider class and on the handlers the caller supplied. *)
Definition appends (m : M unit)
    (t : provider_impl -> option EventHandlers -> list effect) : Prop :=
  forall s, exists s',
    m s = Ok tt s'
    /\ trace s' = trace s ++ t (impl s) (eventHandlers s)
    /\ impl s' = impl s
    /\ eventHandlers s' = eventHandlers s
    /\ window_listeners s' = window_listeners s.

(** The caller-supplied handler, when there is one. *)
Definition callback_trace (handlers : option EventHandlers)
    (supplied : EventHandlers -> bool) (ev : provider_event) : list effect :=
  match handlers with
  | Some h => if supplied h then [Callback ev] else []
  | None => []
  end.

(** The assignment [provider.accounts = a]. *)
Definition accounts_write (i : provider_impl) (a : jsval) : list effect :=
  SetAccounts a :: match i with
                   | StorageBacked => [StorageSet "accounts" a]
                   | InMemory => []
                   end.

(** The assignment [provider.selectedChainId = c], where [h] is the
    hexadecimal form of [c]. *)
Definition chain_write (i : provider_impl) (c : jsval) (h : string) : list effect :=
  SetSelectedChainId c :: match i with
                          | StorageBacked =>
                              if truthy c then [StorageSet "selectedChainId" (JStr h)] else []
                          | InMemory => []
                          end.

(** The store differs from [store0] at most under the two keys that the
    provider writes. *)
Definition other_keys_as (store0 : gmap string jsval) (s : state) : Prop :=
  forall k, k <> "accounts" -> k <> "selectedChainId" -> storage s !! k = store0 !! k.

Definition is_set_accounts (e : effect) : bool :=
  match e with SetAccounts _ => true | _ => false end.

(** The assignments to [provider.accounts] made so far. *)
Definition accounts_assignments (s : state) : list effect :=
  List.filter is_set_accounts (trace s).

(** Since the state in which the assignments were [k] and the cached
    accounts were [a0], either an assignment was made or the cached accounts
    are still [a0]. *)
Definition accounts_since (k : list effect) (a0 : jsval) (s : state) : Prop :=
  exists t, accounts_assignments s = k ++ t /\ (t = [] -> p_accounts s = a0).

Definition is_accounts_emission (e : effect) : bool :=
  match e with Emit (accountsChanged_event _) => true | _ => false end.

(** The [accountsChanged] events emitted so far. *)
Definition accounts_emissions (s : state) : list effect :=
  List.filter is_accounts_emission (trace s).

Definition is_sessionChanged_record (n : jsval) : bool :=
  strict_eq_str (opt_prop n "method") "wallet_sessionChanged".

Section RecoveryVocabulary.

Context `{Externals}.

(** A provider message that is itself a [metamask_accountsChanged]
    notification (which the main handler turns into an event). *)
Definition notifies_accounts (event : MessageEvent) : bool :=
  isMetamaskProviderEvent event
  && strict_eq_str (opt_prop (payload event) "method") "metamask_accountsChanged".

(** The result that a provider message carries, when it is an array whose
    entries are all syntactically valid addresses. *)
Definition valid_accounts_result (event : MessageEvent) : option jsval :=
  if isMetamaskProviderEvent event then
    match opt_prop (payload event) "result" with
    | JArr items => if forallb isHexAddress items then Some (JArr items) else None
    | _ => None
    end
  else None.

(** The first such result in a stream of messages. *)
Fixpoint first_valid_result (events : list MessageEvent) : option jsval :=
  match events with
  | [] => None
  | event :: rest =>
      match valid_accounts_result event with
      | Some r => Some r
      | None => first_valid_result rest
      end
  end.

(** What the main handler emits for a message: the accounts of a
    [metamask_accountsChanged] notification. *)
Definition notified_accounts (event : MessageEvent) : list effect :=
  if notifies_accounts event
  then [Emit (accountsChanged_event (opt_prop (payload event) "params"))]
  else [].

(** The [accountsChanged] events that a stream of messages is expected to
    cause: the ones of the notifications in it, and, while the one-shot
    listener is [armed], one for the first valid result. *)
Fixpoint expected_emissions (armed : bool) (events : list MessageEvent) : list effect :=
  match events with
  | [] => []
  | event :: rest =>
      notified_accounts event
      ++ (if armed then
            match valid_accounts_result event with
            | Some r => Emit (accountsChanged_event r) :: expected_emissions false rest
            | None => expected_emissions true rest
            end
          else expected_emissions false rest)
  end.

End RecoveryVocabulary.

Definition emissions_and_listeners (k : list effect) (l : list window_listener)
    (s : state) : Prop :=
  accounts_emissions s = k /\ window_listeners s = l.

(** A value that [JSON.parse(JSON.stringify(v))] gives back as it was:
    [null], booleans, finite numbers, strings, and arrays and objects of
    such values. *)
Fixpoint json_stable (v : jsval) : bool :=
  match v with
  | JNull | JBool _ | JStr _ | JNum (Frac _ _) => true
  | JNum (Num z) => negb (overflows (nearest_double (Z.abs z, 1%Z)))
  | JUndefined | JNum NaN | JNum (Inf _) | JPromise _ => false
  | JArr items => forallb json_stable items
  | JObj fields => forallb (fun kv => json_stable (snd kv)) fields
  end.

(** The accounts [a] are read back from the provider as they were assigned.
    The storage-backed provider keeps their JSON text: this holds for the
    values that survive JSON, and for [undefined] and [null] (for which
    both of its getters settle to what the model's store gives). *)
Definition kept_by_store (i : provider_impl) (a : jsval) : bool :=
  match i with
  | InMemory => true
  | StorageBacked => json_stable a || nullish a
  end.

(** The selected chain is [undefined] or a hexadecimal string. *)
Definition undefined_or_hex (v : jsval) : bool :=
  match v with
  | JUndefined => true
  | JStr _ => isHex v
  | _ => false
  end.

(** With the storage-backed provider, the store holds the selected chain
    that the private field holds, once the field holds one. *)
Definition chain_in_sync (s : state) : Prop :=
  impl s = StorageBacked ->
  p_selectedChainId s = JUndefined
  \/ storage s !! "selectedChainId" = Some (p_selectedChainId s).

(** With the storage-backed provider, the store holds the accounts that the
    private field holds, once an assignment has been made. *)
Definition accounts_in_sync (s : state) : Prop :=
  impl s = StorageBacked ->
  accounts_assignments s = [] \/ storage s !! "accounts" = Some (p_accounts s).

Definition is_core_call (e : effect) : bool :=
  match e with
  | CoreConnect _ _ | CoreDisconnect | InvokeMethod _ _ _ => true
  | _ => false
  end.

(** The calls of [core.connect], [core.disconnect] and [core.invokeMethod]
    made so far. *)
Definition core_calls (s : state) : list effect := List.filter is_core_call (trace s).

(** A chain id that is a hexadecimal string or a safe non-negative integer. *)
Definition accepted_chain_id (c : jsval) : bool :=
  isHex c
  || match c with
     | JNum (Num z) => (0 <=? z)%Z && (z <=? MAX_SAFE_INTEGER)%Z
     | _ => false
     end.

(** A queue entry that the scan of [#attemptSessionRecovery] passes over:
    an entry that is not [null] or [undefined] and is no
    [wallet_sessionChanged] record. *)
Definition passed_over (n : jsval) : bool :=
  negb (nullish n) && negb (is_sessionChanged_record n).

(** The adapter as the constructor leaves it when it starts no recovery:
    the two listeners registered, nothing sent. *)
Definition idle (i : provider_impl) (hs : option EventHandlers) (store : gmap string jsval)
    : state :=
  with_session_listeners [BoundSessionChangedHandler]
    (with_window_listeners [MetamaskProviderHandler] (fresh i hs store)).

(** [digits] is the decimal numeral of [n]: decimal digits only, one at
    least, no leading zero, and their value is [n]. *)
Definition numeral (digits : string) (n : Z) : Prop :=
  (0 <= n)%Z
  /\ digits <> ""
  /\ digits_value 10 digits 0%N = Some (Z.to_N n)
  /\ (forall r, digits = String "0" r -> r = "").

(* ================================================================== *)
(** ** A concrete environment and concrete inputs *)
(* ================================================================== *)

(** A stand-in for the external [getPermittedEthChainIds]: the hexadecimal
    chain ids of the keys [eip155:<decimal>] of the scopes object. *)
Definition eip155_reference (key : string) : option string :=
  match key with
  | String "e" (String "i" (String "p" (String "1" (String "5" (String "5" (String ":" r)))))) =>
      match r with
      | EmptyString => None
      | _ => HexString.of_N <$> digits_value 10 r 0%N
      end
  | _ => None
  end.

Definition permitted_of_scopes (requiredScopes optionalScopes : jsval) : list string :=
  match requiredScopes with
  | JObj fields => omap (fun kv => eip155_reference (fst kv)) fields
  | _ => []
  end.

(** Modelled from the spec: [constants.ts] (the lists [INTERCEPTABLE_METHODS]
    and [IGNORED_METHODS]) is not among the source files.  The interceptable
    methods are the seven "intercepted method names" of the external
    interfaces; the spec names no ignored method, so the ignored list of
    this environment is empty. *)
Definition spec_externals : Externals :=
  {| INTERCEPTABLE_METHODS :=
       ["wallet_requestPermissions"; "eth_requestAccounts"; "wallet_revokePermissions";
        "wallet_switchEthereumChain"; "wallet_addEthereumChain"; "eth_accounts";
        "eth_coinbase"];
     IGNORED_METHODS := [];
     _getPermittedEthChainIds := permitted_of_scopes;
     location_origin := "https://dapp.example" |}.

(** The wallet's message as the window listener receives it:
    [event.data.data.name] and [event.data.data.data]. *)
Definition wallet_message (from : string) (payload_ : jsval) : MessageEvent :=
  {| origin := from;
     data := JObj [("data", JObj [("name", JStr "metamask-provider"); ("data", payload_)])] |}.

Definition provider_message (payload_ : jsval) : MessageEvent :=
  wallet_message "https://dapp.example" payload_.

Definition no_events (v : jsval) : awaited := {| during := []; settles := Resolves v |}.

Definition all_handlers : EventHandlers :=
  {| on_connect := true; on_disconnect := true;
     on_accountsChanged := true; on_chainChanged := true |}.

(** [{ method: 'metamask_chainChanged', params: { chainId: '0x89' } }]. *)
Definition chainChanged_0x89 : jsval :=
  JObj [("method", JStr "metamask_chainChanged");
        ("params", JObj [("chainId", JStr "0x89")])].

(** [{ chainId: '0x89', chainName: 'Polygon' }]. *)
Definition polygon : jsval :=
  JObj [("chainId", JStr "0x89"); ("chainName", JStr "Polygon")].

(** The wallet's answer to a switch request for a chain it does not know:
    [{ error: { code: 4902 } }]. *)
Definition unrecognized_chain : jsval :=
  JObj [("error", JObj [("code", JNum (Num 4902))])].

Definition session_137 : jsval :=
  JObj [("sessionScopes", JObj [("eip155:137", JObj [])])].

(** A session that permits the chain [2^53]. *)
Definition session_2_53 : jsval :=
  JObj [("sessionScopes", JObj [("eip155:9007199254740992", JObj [])])].

Definition account_a : jsval := JStr "0x00000000000000000000000000000000000000aa".

Definition account_b : jsval := JStr "0x00000000000000000000000000000000000000bb".

Definition accountsChanged_a : jsval :=
  JObj [("method", JStr "metamask_accountsChanged"); ("params", JArr [account_a])].

Definition sessionChanged_record : jsval :=
  JObj [("method", JStr "wallet_sessionChanged")].

(** Three results: one with an invalid entry, then two valid ones. *)
Definition result_messages : list MessageEvent :=
  [provider_message (JObj [("result", JArr [account_a; JStr "0xnot-an-address"])]);
   provider_message (JObj [("result", JArr [account_a; account_b])]);
   provider_message (JObj [("result", JArr [account_b])])].

Definition eth_chainId_request : ProviderRequest :=
  {| method := "eth_chainId"; params := JArr [] |}.

Definition eth_accounts_request : ProviderRequest :=
  {| method := "eth_accounts"; params := JArr [] |}.

(** An environment in which one method is ignored ([constants.ts] is not
    among the source files), for the refusal of ignored methods. *)
Definition ignoring_externals : Externals :=
  {| INTERCEPTABLE_METHODS := "eth_sign" :: INTERCEPTABLE_METHODS (Externals := spec_externals);
     IGNORED_METHODS := ["eth_sign"];
     _getPermittedEthChainIds := permitted_of_scopes;
     location_origin := "https://dapp.example" |}.

(** The wallet's notification, sent from another origin. *)
Definition foreign_message : MessageEvent :=
  wallet_message "https://elsewhere.example" accountsChanged_a.

(** The same notification from the page's origin, under another stream name. *)
Definition misnamed_message : MessageEvent :=
  {| origin := "https://dapp.example";
     data := JObj [("data", JObj [("name", JStr "metamask-inpage");
                                  ("data", accountsChanged_a)])] |}.

(** [{ method: 'metamask_chainChanged', params: { chainId } }]. *)
Definition chainChanged_to (chainId : jsval) : jsval :=
  JObj [("method", JStr "metamask_chainChanged");
        ("params", JObj [("chainId", chainId)])].

Definition eth_coinbase_request : ProviderRequest :=
  {| method := "eth_coinbase"; params := JArr [] |}.

Definition eth_sign_request : ProviderRequest :=
  {| method := "eth_sign"; params := JArr [] |}.

(** [{ method: 'eth_requestAccounts' }], without [params]. *)
Definition requestAccounts_without_params : ProviderRequest :=
  {| method := "eth_requestAccounts"; params := JUndefined |}.

Definition requestAccounts_request : ProviderRequest :=
  {| method := "eth_requestAccounts"; params := JArr [] |}.

(** [{ method: 'wallet_switchEthereumChain', params: [{ chainId: '0xa' }] }]. *)
Definition switch_to_0xa_request : ProviderRequest :=
  {| method := "wallet_switchEthereumChain";
     params := JArr [JObj [("chainId", JStr "0xa")]] |}.

Definition switch_nowhere_request : ProviderRequest :=
  {| method := "wallet_switchEthereumChain"; params := JArr [] |}.

Definition add_polygon_request : ProviderRequest :=
  {| method := "wallet_addEthereumChain"; params := JArr [polygon] |}.

Definition add_pending_request : ProviderRequest :=
  {| method := "wallet_addEthereumChain"; params := JArr [] |}.

Definition add_empty_request : ProviderRequest :=
  {| method := "wallet_addEthereumChain"; params := JArr [JStr ""] |}.

Definition rejected (reason : jsval) : awaited := {| during := []; settles := Rejects reason |}.

Section ConcreteStates.

#[local] Existing Instance spec_externals.

(** A newly constructed adapter (no event handlers, empty store, no queue). *)
Definition constructed (i : provider_impl) : state :=
  final (constructor i None ∅ None).

(** ... after [connect()] with the default chain. *)
Definition connected (i : provider_impl) : state :=
  final (connect None (no_events JUndefined) (constructed i)).

(** ... and after [disconnect()]. *)
Definition disconnected (i : provider_impl) : state :=
  final (disconnect (no_events JUndefined) (connected i)).

(** A newly constructed adapter after the wallet announced chain "0x89". *)
Definition on_polygon (i : provider_impl) : state :=
  final (deliver (WindowMessage (provider_message chainChanged_0x89)) (constructed i)).

(** The adapter after a switch to Polygon was sent to the wallet. *)
Definition switching : state :=
  final (switchChain (JStr "0x89") polygon (connected InMemory)).

(** A connected adapter after a session change that permits chain 137. *)
Definition permitting_polygon : state :=
  final (deliver (SessionChanged session_137) (connected InMemory)).

(** A newly constructed adapter after the wallet announced account [a]. *)
Definition with_account_a (i : provider_impl) : state :=
  final (deliver (WindowMessage (provider_message accountsChanged_a)) (constructed i)).

(** A newly constructed adapter that found a [wallet_sessionChanged] record
    in its queue and waits for the accounts. *)
Definition recovering : state :=
  final (constructor InMemory None ∅ (Some [sessionChanged_record])).

(** A connected adapter after a session change that permits the chain
    [2^53] and a switch to that chain. *)
Definition beyond_safe (i : provider_impl) : state :=
  run_all [Inbound (SessionChanged session_2_53);
           SwitchChain (JStr "0x20000000000000") JUndefined]
          (connected i).

End ConcreteStates.

(* ================================================================== *)
(** ** Tactics *)
(* ================================================================== *)

(** Unfolds the operations of [M]. *)
Ltac step_m :=
  unfold when, emit, mbind, M_bind, bind, mret, M_ret, log, modify, gets, lift, throw, ret.


(* ================================================================== *)
(** ** Hexadecimal round trip *)
(* ================================================================== *)

Lemma hex_digits1_of_pos (p : positive) (rest : string) :
  hex_digits1 (HexString.Raw.of_pos p rest) = all_hex_digits rest.
Proof.
  revert p rest. fix IH 1. intros p rest.
  do 4 try destruct p as [p|p|]; try reflexivity;
    cbn [HexString.Raw.of_pos]; rewrite IH; reflexivity.
Qed.

Lemma hex_digits1_all (s : string) : hex_digits1 s = true -> all_hex_digits s = true.
Proof. destruct s; [discriminate | trivial]. Qed.

Lemma hex_digits1_starts (s : string) : hex_digits1 s = true -> starts_with_hex_digit s = true.
Proof.
  destruct s as [|c s]; [discriminate|]. cbn.
  destruct (HexString.ascii_to_digit c); [trivial | discriminate].
Qed.

Lemma parse_hex_prefix_all (s : string) (acc : N) :
  all_hex_digits s = true -> parse_hex_prefix s acc = HexString.Raw.to_N s acc.
Proof.
  revert acc. induction s as [|c s IH]; intros acc Hs; [reflexivity|].
  cbn in *. destruct (HexString.ascii_to_digit c); [auto | discriminate].
Qed.

Lemma parse_hex_prefix_of_pos (p : positive) :
  parse_hex_prefix (HexString.Raw.of_pos p "") 0%N = Npos p.
Proof.
  rewrite parse_hex_prefix_all.
  - apply HexString.Raw.to_N_of_pos.
  - apply hex_digits1_all. apply hex_digits1_of_pos.
Qed.

Lemma isHex_of_N (n : N) : isHex (JStr (HexString.of_N n)) = true.
Proof.
  destruct n as [|p]; [reflexivity|].
  cbn. apply hex_digits1_of_pos.
Qed.

Lemma skip_ws_zero (r : string) : skip_ws (String "0" r) = String "0" r.
Proof. reflexivity. Qed.

Lemma of_integer_safe (z : Z) :
  (- MAX_SAFE_INTEGER <= z <= MAX_SAFE_INTEGER)%Z -> of_integer z = Num z.
Proof.
  intros Hz. unfold of_integer.
  replace (Z.abs z <=? MAX_SAFE_INTEGER)%Z with true by (symmetry; apply Z.leb_le; lia).
  reflexivity.
Qed.

Lemma parseInt16_of_N (n : N) :
  parseInt16 (JStr (HexString.of_N n)) = of_integer (Z.of_N n).
Proof.
  destruct n as [|p]; [reflexivity|].
  unfold parseInt16, HexString.of_N, HexString.of_pos, ToString.
  rewrite skip_ws_zero.
  change (strip_0x (String "0" (String "x" (HexString.Raw.of_pos p ""))))
    with (HexString.Raw.of_pos p "").
  rewrite (hex_digits1_starts _ (hex_digits1_of_pos p "")).
  rewrite parse_hex_prefix_of_pos. reflexivity.
Qed.

(** [hexToNumber] undoes [numberToHex] on the safe non-negative integers. *)
Lemma hexToNumber_numberToHex (z : Z) (h : string) :
  numberToHex (JNum (Num z)) = inr h -> hexToNumber (JStr h) = inr z.
Proof.
  unfold numberToHex. destruct (z <? 0)%Z eqn:Hneg; [discriminate|].
  destruct (isSafeInteger (Num z)) eqn:Hsafe; [|discriminate].
  intros [= <-]. unfold hexToNumber.
  rewrite isHex_of_N, parseInt16_of_N.
  apply Z.ltb_ge in Hneg. rewrite Z2N.id by assumption.
  rewrite of_integer_safe, Hsafe; [reflexivity|].
  unfold isSafeInteger in Hsafe. apply andb_prop in Hsafe as [Hl Hu].
  apply Z.leb_le in Hl, Hu. lia.
Qed.

Lemma numberToHex_safe (z : Z) :
  (0 <= z <= MAX_SAFE_INTEGER)%Z ->
  numberToHex (JNum (Num z)) = inr (HexString.of_N (Z.to_N z)).
Proof.
  intros [H0 H1]. unfold numberToHex, isSafeInteger.
  destruct (z <? 0)%Z eqn:Hneg; [apply Z.ltb_lt in Hneg; lia|].
  assert (Hmax : (0 < MAX_SAFE_INTEGER)%Z) by reflexivity.
  replace (- MAX_SAFE_INTEGER <=? z)%Z with true by (symmetry; apply Z.leb_le; lia).
  replace (z <=? MAX_SAFE_INTEGER)%Z with true by (symmetry; apply Z.leb_le; lia).
  reflexivity.
Qed.

(* ================================================================== *)
(** ** Numbers as JavaScript prints and reads them *)
(* ================================================================== *)

Lemma Number_toString_evaluated :
  map Number_toString
      [Num 0; Num (-137); Num (2 ^ 53); Num (2 ^ 53 + 1); Num 12345678901234567890;
       Num (10 ^ 21); Num (2 ^ 70); Num (- 10 ^ 400);
       Frac 3 1; Frac 3602879701896397 55; Frac 8687443681197687 46;
       Frac 4722366482869645 72; Frac 944473296573929 73; Frac (-1) 1074;
       Inf false; Inf true; NaN]
  = ["0"; "-137"; "9007199254740992"; "9007199254740992"; "12345678901234567000";
     "1e+21"; "1.1805916207174113e+21"; "-Infinity";
     "1.5"; "0.1"; "123.456";
     "0.000001"; "1e-7"; "-5e-324";
     "Infinity"; "-Infinity"; "NaN"].
Proof. vm_compute. reflexivity. Qed.

Lemma StringToNumber_evaluated :
  map StringToNumber
      ["137"; " 137 "; "0x89"; "0X89"; "0b101"; "0o17"; "012"; "1e3"; "1.37e2"; "1.0"; "5.";
       ".5"; "1.5"; "-1.5"; "0.1"; "4.00000000000000000001"; "9007199254740993";
       "Infinity"; "-Infinity"; "1e400"; "1e-400"; ""; "  "; "-0";
       "polygon"; "0x"; "-0x10"; "1_000"; "1e"; "."; "e5"; "infinity"; "1,5"; "12px"]
  = [Num 137; Num 137; Num 137; Num 137; Num 5; Num 15; Num 12; Num 1000; Num 137; Num 1; Num 5;
     Frac 1 1; Frac 3 1; Frac (-3) 1; Frac 3602879701896397 55; Num 4; Num (2 ^ 53);
     Inf false; Inf true; Inf false; Num 0; Num 0; Num 0; Num 0;
     NaN; NaN; NaN; NaN; NaN; NaN; NaN; NaN; NaN; NaN].
Proof. vm_compute. reflexivity. Qed.

Lemma parseInt16_evaluated :
  map parseInt16
      [JStr "0x89"; JStr "89"; JStr "  0X1f"; JStr "-0x10"; JStr "12px"; JStr "1.5";
       JNum (Num (10 ^ 21)); JNum (Inf false); JStr "0x"; JStr "polygon"; JStr "";
       JStr "0x20000000000001"; JUndefined]
  = [Num 137; Num 137; Num 31; Num (-16); Num 18; Num 1;
     Num 30; NaN; NaN; NaN; NaN;
     Num (2 ^ 53); NaN].
Proof. vm_compute. reflexivity. Qed.

(* ================================================================== *)
(** ** Decimal numerals *)
(* ================================================================== *)

Lemma digits_value_acc (u : Decimal.uint) (a : positive) :
  digits_value 10 (DecimalString.NilEmpty.string_of_uint u) (Npos a)
  = Some (Npos (Pos.of_uint_acc u a)).
Proof.
  revert a. induction u; intros a; cbn -[Pos.mul Pos.add N.mul N.add]; try reflexivity;
    rewrite <- IHu; reflexivity.
Qed.

Lemma digits_value_of_uint (u : Decimal.uint) :
  digits_value 10 (DecimalString.NilEmpty.string_of_uint u) 0%N = Some (Pos.of_uint u).
Proof.
  induction u; cbn -[Pos.mul Pos.add N.mul N.add]; try reflexivity; try assumption;
    apply digits_value_acc.
Qed.

Lemma to_uint_leading (p : positive) (u : Decimal.uint) : Pos.to_uint p <> Decimal.D0 u.
Proof.
  intros Hu.
  pose proof (DecimalPos.Unsigned.to_of (Pos.to_uint p)) as Hn.
  rewrite DecimalPos.Unsigned.of_to in Hn. cbn [N.to_uint] in Hn.
  rewrite Hu in Hn. rewrite DecimalFacts.unorm_D0 in Hn.
  unfold Decimal.unorm in Hn.
  destruct (Decimal.nzhead u) eqn:Hz;
    try (symmetry in Hn; rewrite <- Hz in Hn; exact (DecimalFacts.nzhead_nonzero _ _ Hn)).
  injection Hn as ->. exact (DecimalPos.Unsigned.to_uint_nonzero p Hu).
Qed.

(** [Z_to_string] gives the decimal numeral of an integer that is not
    negative. *)
Lemma numeral_Z_to_string (n : Z) : (0 <= n)%Z -> numeral (Z_to_string n) n.
Proof.
  intros Hn. unfold numeral. split; [exact Hn|].
  destruct n as [|p|p]; [repeat split; try discriminate; intros r [= <-]; reflexivity | | lia].
  unfold Z_to_string. cbn [Z.to_int DecimalString.NilZero.string_of_int].
  pose proof (DecimalPos.Unsigned.to_uint_nonnil p) as Hnil.
  pose proof (to_uint_leading p) as Hlead.
  assert (Hs : DecimalString.NilZero.string_of_uint (Pos.to_uint p)
               = DecimalString.NilEmpty.string_of_uint (Pos.to_uint p))
    by (destruct (Pos.to_uint p); [contradiction | reflexivity ..]).
  rewrite Hs. split; [|split].
  - destruct (Pos.to_uint p); [contradiction | discriminate ..].
  - rewrite digits_value_of_uint, DecimalPos.Unsigned.of_to. reflexivity.
  - intros r Hr. destruct (Pos.to_uint p) as [|u|u|u|u|u|u|u|u|u|u] eqn:Hu;
      try discriminate Hr. exfalso. exact (Hlead u eq_refl).
Qed.

Lemma round_half_even_nonneg (x : ratio) :
  (0 <= fst x)%Z -> (0 < snd x)%Z -> (0 <= round_half_even x)%Z.
Proof.
  intros Hn Hd. unfold round_half_even.
  pose proof (Z.div_pos (fst x) (snd x) Hn Hd).
  destruct (_ || _); lia.
Qed.

Lemma times_pow_sign (b : Z) (x : ratio) (k : Z) :
  (0 < b)%Z -> (0 <= fst x)%Z -> (0 < snd x)%Z ->
  (0 <= fst (times_pow b x k))%Z /\ (0 < snd (times_pow b x k))%Z.
Proof.
  intros Hb Hn Hd. unfold times_pow. destruct (0 <=? k)%Z eqn:Hk; cbn [fst snd].
  - apply Z.leb_le in Hk. pose proof (Z.pow_pos_nonneg b k Hb Hk). split; nia.
  - apply Z.leb_gt in Hk. pose proof (Z.pow_pos_nonneg b (- k) Hb ltac:(lia)). split; nia.
Qed.

Lemma to_number_nonneg (x : ratio) (n : Z) :
  (0 <= fst x)%Z -> (0 < snd x)%Z -> to_number false x = Num n -> (0 <= n)%Z.
Proof.
  intros Hn Hd. unfold to_number.
  destruct (nearest_double x) as [a d] eqn:Hr.
  assert (Ha : (0 <= a)%Z /\ (0 < d)%Z).
  { unfold nearest_double in Hr.
    set (e := Z.max (binade x - 52) (-1074)) in Hr.
    destruct (times_pow_sign 2 x (- e) ltac:(lia) Hn Hd) as [H1 H2].
    pose proof (round_half_even_nonneg _ H1 H2) as Hq.
    destruct (times_pow_sign 2 (round_half_even (times_pow 2 x (- e)), 1%Z) e
                ltac:(lia) Hq ltac:(cbn; lia)) as [H3 H4].
    rewrite Hr in H3, H4. exact (conj H3 H4). }
  destruct Ha as [Ha Hd'].
  destruct (a =? 0)%Z; [intros [= <-]; lia|].
  destruct (overflows (a, d)); [discriminate|].
  assert (Hq : (0 <= a / Z.gcd a d)%Z).
  { pose proof (Z.gcd_nonneg a d). destruct (Z.eq_dec (Z.gcd a d) 0%Z) as [-> | Hg].
    - rewrite Z.div_0_r. lia.
    - apply Z.div_pos; lia. }
  destruct (d / Z.gcd a d)%Z as [|[q|q|]|q]; try discriminate; intros [= <-]; exact Hq.
Qed.

Lemma of_integer_nonneg (z n : Z) : (0 <= z)%Z -> of_integer z = Num n -> (0 <= n)%Z.
Proof.
  intros Hz. unfold of_integer. destruct (Z.abs z <=? MAX_SAFE_INTEGER)%Z.
  - intros [= <-]. exact Hz.
  - replace (z <? 0)%Z with false by (symmetry; apply Z.ltb_ge; exact Hz).
    apply to_number_nonneg; cbn; lia.
Qed.

Lemma hex_digit_char (c : ascii) (d : N) :
  HexString.ascii_to_digit c = Some d ->
  is_ws c = false /\ c <> "-"%char /\ c <> "+"%char.
Proof.
  destruct c as [[] [] [] [] [] [] [] []]; cbn; intros Hd; try discriminate Hd;
    repeat split; discriminate.
Qed.

Lemma isHex_head (s : string) :
  isHex (JStr s) = true ->
  exists c r d, s = String c r /\ HexString.ascii_to_digit c = Some d.
Proof.
  destruct s as [|c r]; [discriminate|]. intros Hx. exists c, r.
  assert (Hc : forall t, hex_digits1 (String c t) = true ->
                         exists d, HexString.ascii_to_digit c = Some d).
  { cbn. intros t. destruct (HexString.ascii_to_digit c) as [d|]; [eauto | discriminate]. }
  cbn [isHex] in Hx.
  destruct (Ascii.eqb c "0") eqn:H0.
  - apply Ascii.eqb_eq in H0. subst c. exists 0%N. split; reflexivity.
  - assert (Hh : hex_digits1 (String c r) = true).
    { destruct c as [[] [] [] [] [] [] [] []]; try discriminate H0; exact Hx. }
    destruct (Hc r Hh) as [d Hd]. exists d. split; [reflexivity | exact Hd].
Qed.

(** A safe integer prints as its decimal digits. *)
Lemma ToString_safe (n : Z) :
  (- MAX_SAFE_INTEGER <= n <= MAX_SAFE_INTEGER)%Z -> ToString (JNum (Num n)) = Z_to_string n.
Proof.
  intros Hn. cbn [ToString Number_toString].
  replace (Z.abs n <=? MAX_SAFE_INTEGER)%Z with true by (symmetry; apply Z.leb_le; lia).
  reflexivity.
Qed.

(** What [hexToNumber] returns is a safe integer that is not negative. *)
Lemma hexToNumber_range (v : jsval) (n : Z) :
  hexToNumber v = inr n -> (0 <= n <= MAX_SAFE_INTEGER)%Z.
Proof.
  unfold hexToNumber. destruct (isHex v) eqn:Hx; [|discriminate].
  destruct (parseInt16 v) as [|z|b|m e] eqn:Hp; try discriminate.
  destruct (isSafeInteger (Num z)) eqn:Hs; [|discriminate]. intros [= <-].
  cbn in Hs. apply andb_prop in Hs as [_ Hu]. apply Z.leb_le in Hu.
  split; [|exact Hu].
  destruct v as [| |b|k|s|l|f|q]; try discriminate Hx.
  destruct (isHex_head s Hx) as (c & r & d & -> & Hd).
  destruct (hex_digit_char c d Hd) as (Hw & Hm & Hpl).
  unfold parseInt16 in Hp. cbn [ToString skip_ws] in Hp. rewrite Hw in Hp.
  assert (Hsign : match String c r with
                  | String "-" r0 => (true, r0)
                  | String "+" r0 => (false, r0)
                  | _ => (false, String c r)
                  end = (false, String c r)).
  { destruct c as [[] [] [] [] [] [] [] []]; try reflexivity; exfalso; auto. }
  rewrite Hsign in Hp.
  destruct (starts_with_hex_digit (strip_0x (String c r))); [|discriminate Hp].
  apply (of_integer_nonneg _ _ (N2Z.is_nonneg _) Hp).
Qed.

(* ================================================================== *)
(** ** Invariants carried through every operation *)
(* ================================================================== *)

Section Preservation.

Context `{Externals}.

Lemma preserves_ret {A : Type} (I : state -> Prop) (a : A) : preserves I (mret a).
Proof. intros s Hs. exact Hs. Qed.

Lemma preserves_throw {A : Type} (I : state -> Prop) (e : js_error) :
  preserves I (throw e : M A).
Proof. intros s Hs. exact Hs. Qed.

Lemma preserves_lift {A : Type} (I : state -> Prop) (r : js_error + A) :
  preserves I (lift r).
Proof. intros s Hs. destruct r; exact Hs. Qed.

Lemma preserves_gets {A : Type} (I : state -> Prop) (f : state -> A) :
  preserves I (gets f).
Proof. intros s Hs. exact Hs. Qed.

Lemma preserves_bind {A B : Type} (I : state -> Prop) (m : M A) (k : A -> M B) :
  preserves I m -> (forall a, preserves I (k a)) -> preserves I (m ≫= k).
Proof.
  intros Hm Hk s Hs. specialize (Hm s Hs).
  unfold mbind, M_bind, bind. destruct (m s) as [a s'|e s']; cbn in *.
  - apply Hk, Hm.
  - exact Hm.
Qed.

Lemma preserves_when (I : state -> Prop) (b : bool) (m : M unit) :
  preserves I m -> preserves I (when b m).
Proof. intros Hm. destruct b; [exact Hm | apply (preserves_ret I tt)]. Qed.

Lemma preserves_run_listener (I : state -> Prop) (m : M unit) :
  preserves I m -> preserves I (run_listener m).
Proof. intros Hm s Hs. apply Hm, Hs. Qed.

Lemma preserves_repeat_m (I : state -> Prop) (n : nat) (m : M unit) :
  preserves I m -> preserves I (repeat_m n m).
Proof.
  intros Hm. induction n as [|n IH]; cbn [repeat_m].
  - apply (preserves_ret I tt).
  - apply preserves_bind; [exact Hm | intros _; exact IH].
Qed.

End Preservation.

(** One step through the structure of a computation, for [preserves]. *)
Ltac pres_step :=
  match goal with
  | |- preserves _ (mbind _ _) => apply preserves_bind; [| intros ?]
  | |- preserves _ (when _ _) => apply preserves_when
  | |- preserves _ (ret _) => apply preserves_ret
  | |- preserves _ (mret _) => apply preserves_ret
  | |- preserves _ (throw _) => apply preserves_throw
  | |- preserves _ (lift _) => apply preserves_lift
  | |- preserves _ (gets _) => apply preserves_gets
  | |- preserves _ (run_listener _) => apply preserves_run_listener
  | |- preserves _ (repeat_m _ _) => apply preserves_repeat_m
  | |- preserves _ (if ?b then _ else _) => destruct b
  | |- preserves _ (match ?x with _ => _ end) => destruct x
  | |- preserves _ (let '(_, _) := ?x in _) => destruct x
  end.

Ltac pres := repeat pres_step.

Section Stable.

Context `{Externals}.

Variable I : state -> Prop.
Variable quiet : effect -> Prop.

(** [I] does not read the selected chain, the session scopes, the pending
    chain configuration, the session listeners or the number of notification
    callbacks. *)
Hypothesis I_frame :
  forall s s',
    trace s' = trace s -> p_accounts s' = p_accounts s ->
    window_listeners s' = window_listeners s -> storage s' = storage s ->
    impl s' = impl s -> eventHandlers s' = eventHandlers s ->
    I s -> I s'.

Hypothesis I_log :
  forall e s, quiet e -> I s -> I (with_trace (trace s ++ [e]) s).

Lemma preserves_log (e : effect) : quiet e -> preserves I (log e).
Proof. intros He s Hs. apply I_log; assumption. Qed.

Lemma preserves_frame (f : state -> state) :
  (forall s, trace (f s) = trace s) -> (forall s, p_accounts (f s) = p_accounts s) ->
  (forall s, window_listeners (f s) = window_listeners s) ->
  (forall s, storage (f s) = storage s) ->
  (forall s, impl (f s) = impl s) ->
  (forall s, eventHandlers (f s) = eventHandlers s) ->
  preserves I (modify f).
Proof. intros Ht Ha Hw Hst Hi He s Hs. cbn. apply (I_frame s); auto. Qed.

Ltac leaf :=
  first [ apply preserves_log; solve [auto]
        | apply preserves_frame; intros; reflexivity
        | solve [auto] ].

Hypothesis q_set_chain : forall v, quiet (SetSelectedChainId v).
Hypothesis q_store_chain : forall v, quiet (StorageSet "selectedChainId" v).
Hypothesis q_callback : forall ev, quiet (Callback ev).
Hypothesis q_emit_chain : forall h, quiet (Emit (chainChanged_event h)).
Hypothesis q_emit_connect : forall h, quiet (Emit (connect_event h)).
Hypothesis q_emit_disconnect : quiet (Emit disconnect_event).
Hypothesis q_emit_accounts : forall a, quiet (Emit (accountsChanged_event a)).
Hypothesis q_send : forall m p, quiet (SendEip1193Message m p).
Hypothesis q_core_connect : forall a b, quiet (CoreConnect a b).
Hypothesis q_core_disconnect : quiet CoreDisconnect.
Hypothesis q_invoke : forall a b c, quiet (InvokeMethod a b c).
Hypothesis I_set_accounts : forall a, preserves I (set_accounts a).
Hypothesis I_store_chain :
  forall v s, I s -> I (with_storage (<["selectedChainId" := v]> (storage s)) s).
Hypothesis I_win : forall l s, I s -> I (with_window_listeners l s).

Lemma preserves_set_selectedChainId (v : jsval) : preserves I (set_selectedChainId v).
Proof.
  unfold set_selectedChainId. pres;
    first [ leaf | (intros s Hs; cbn; apply I_store_chain, Hs) ].
Qed.

Lemma preserves_callback (f : EventHandlers -> bool) (ev : provider_event) :
  preserves I (callback f ev).
Proof. unfold callback. pres; leaf. Qed.

Lemma preserves_onChainChanged (c : jsval) : preserves I (onChainChanged c).
Proof.
  unfold onChainChanged, emit. pres;
    first [apply preserves_set_selectedChainId | apply preserves_callback | leaf].
Qed.

Lemma preserves_onAccountsChanged (a : jsval) : preserves I (onAccountsChanged a).
Proof.
  unfold onAccountsChanged, emit. pres; first [apply preserves_callback | leaf].
Qed.

Lemma preserves_request_ (m : string) (p : list jsval) : preserves I (request_ m p).
Proof. unfold request_. leaf. Qed.

Lemma preserves_addEthereumChain (c : jsval) : preserves I (addEthereumChain c).
Proof. unfold addEthereumChain. pres; first [apply preserves_request_ | leaf]. Qed.

Lemma preserves_onConnect (c : jsval) : preserves I (onConnect c).
Proof.
  unfold onConnect, emit. pres;
    first [apply preserves_onChainChanged | apply preserves_callback | leaf].
Qed.

Lemma preserves_onDisconnect : preserves I onDisconnect.
Proof.
  unfold onDisconnect, emit. pres;
    first [apply preserves_onAccountsChanged | apply preserves_callback | leaf].
Qed.

Lemma preserves_clearConnectionState : preserves I clearConnectionState.
Proof.
  unfold clearConnectionState. pres; first [apply preserves_set_selectedChainId | leaf].
Qed.

Lemma preserves_switchChain (c cfg : jsval) : preserves I (switchChain c cfg).
Proof.
  unfold switchChain. pres;
    first [apply preserves_onChainChanged | apply preserves_request_ | leaf].
Qed.

Lemma preserves_metamaskProviderHandler (event : MessageEvent) :
  preserves I (metamaskProviderHandler event).
Proof.
  unfold metamaskProviderHandler. pres;
    first [ apply preserves_onAccountsChanged | apply preserves_onChainChanged
          | apply preserves_addEthereumChain | leaf ].
Qed.

Lemma preserves_sessionChangedHandler (session : jsval) :
  preserves I (sessionChangedHandler session).
Proof. unfold sessionChangedHandler. leaf. Qed.

Lemma preserves_window_change (f : state -> list window_listener) :
  preserves I (modify (fun s => with_window_listeners (f s) s)).
Proof. intros s Hs. cbn. apply I_win, Hs. Qed.

Lemma preserves_recoverSession (event : MessageEvent) : preserves I (recoverSession event).
Proof.
  unfold recoverSession, removeEventListener. pres;
    first [ apply preserves_onAccountsChanged
          | apply (preserves_window_change
                     (fun s => remove window_listener_eq_dec RecoverSession (window_listeners s)))
          | leaf ].
Qed.

Lemma preserves_notificationCallback (n : jsval) : preserves I (notificationCallback n).
Proof.
  unfold notificationCallback. pres;
    first [apply preserves_onAccountsChanged | apply preserves_onChainChanged | leaf].
Qed.

Lemma preserves_dispatch_window (ls : list window_listener) (event : MessageEvent) :
  preserves I (dispatch_window ls event).
Proof.
  induction ls as [|l ls IH]; cbn [dispatch_window]; pres; try exact IH;
    first [ destruct l; [apply preserves_metamaskProviderHandler | apply preserves_recoverSession]
          | leaf ].
Qed.

Lemma preserves_deliver (i : inbound) : preserves I (deliver i).
Proof.
  unfold deliver. pres;
    first [ apply preserves_dispatch_window | apply preserves_notificationCallback
          | apply preserves_sessionChangedHandler | leaf ].
Qed.

Lemma preserves_deliver_all (is_ : list inbound) : preserves I (deliver_all is_).
Proof.
  induction is_ as [|i rest IH]; cbn [deliver_all]; pres; try exact IH;
    first [apply preserves_deliver | leaf].
Qed.

Lemma preserves_await (call : effect) (w : awaited) :
  quiet call -> preserves I (await call w).
Proof.
  intros Hq. unfold await. pres; first [apply preserves_deliver_all | leaf].
Qed.

Lemma preserves_connect (arg : option (jsval * jsval)) (w : awaited) :
  preserves I (connect arg w).
Proof.
  unfold connect. pres;
    first [ apply preserves_await; solve [auto] | apply preserves_set_selectedChainId
          | apply preserves_onConnect | leaf ].
Qed.

Lemma preserves_disconnect (w : awaited) : preserves I (disconnect w).
Proof.
  unfold disconnect, removeEventListener, core_off. pres;
    first [ apply preserves_await; solve [auto] | apply preserves_onDisconnect
          | apply preserves_clearConnectionState
          | apply (preserves_window_change
                     (fun s => remove window_listener_eq_dec MetamaskProviderHandler (window_listeners s)))
          | leaf ].
Qed.

Lemma preserves_requestInterceptor (req : ProviderRequest) (w : awaited) :
  preserves I (requestInterceptor req w).
Proof.
  unfold requestInterceptor. pres;
    first [ apply preserves_disconnect | apply preserves_connect | apply preserves_switchChain
          | apply preserves_addEthereumChain | leaf ].
Qed.

Lemma preserves_request (req : ProviderRequest) (w : awaited) : preserves I (request req w).
Proof.
  unfold request. pres;
    first [ apply preserves_requestInterceptor | apply preserves_await; solve [auto] | leaf ].
Qed.

Lemma preserves_run (op : operation) : preserves I (run op).
Proof.
  unfold run. pres;
    first [ apply preserves_connect | apply preserves_disconnect | apply preserves_switchChain
          | apply preserves_request | apply preserves_deliver | leaf ].
Qed.

Lemma preserves_run_all (ops : list operation) (s : state) : I s -> I (run_all ops s).
Proof.
  unfold run_all. revert s. induction ops as [|op ops IH]; intros s Hs; cbn; [exact Hs|].
  apply IH. apply preserves_run, Hs.
Qed.

End Stable.

(* ================================================================== *)
(** ** The provider's accessors *)
(* ================================================================== *)

Section Accessors.

Context `{Externals}.

Lemma set_selectedChainId_falsy (v : jsval) (s : state) :
  truthy v = false ->
  set_selectedChainId v s = Ok tt (with_trace (trace s ++ [SetSelectedChainId v]) s).
Proof.
  intros Hv. unfold set_selectedChainId. step_m. cbn. rewrite Hv. cbn.
  destruct (impl s); cbn; rewrite Hv; reflexivity.
Qed.

Lemma set_selectedChainId_string (h : string) (s : state) :
  h <> "" ->
  set_selectedChainId (JStr h) s =
  Ok tt (match impl s with
         | InMemory =>
             with_selectedChainId (JStr h) (with_trace (trace s ++ [SetSelectedChainId (JStr h)]) s)
         | StorageBacked =>
             with_selectedChainId (JStr h)
               (with_storage (<["selectedChainId" := JStr h]> (storage s))
                  (with_trace (trace s ++ [SetSelectedChainId (JStr h); StorageSet "selectedChainId" (JStr h)]) s))
         end).
Proof.
  intros Hh. unfold set_selectedChainId. step_m. cbn.
  assert (Ht : String.eqb h "" = false) by (apply String.eqb_neq; exact Hh).
  rewrite ?Ht. cbn.
  destruct (impl s) eqn:Hi; cbn; rewrite ?Ht; cbn; [reflexivity|].
  unfold with_selectedChainId, with_storage, with_trace; cbn.
  rewrite <- app_assoc. reflexivity.
Qed.

Lemma of_N_nonempty (n : N) : HexString.of_N n <> "".
Proof. destruct n; discriminate. Qed.

Lemma set_selectedChainId_number (n : Z) (s : state) :
  (0 < n <= MAX_SAFE_INTEGER)%Z ->
  let h := JStr (HexString.of_N (Z.to_N n)) in
  set_selectedChainId (JNum (Num n)) s =
  Ok tt (match impl s with
         | InMemory =>
             with_selectedChainId h (with_trace (trace s ++ [SetSelectedChainId (JNum (Num n))]) s)
         | StorageBacked =>
             with_selectedChainId h
               (with_storage (<["selectedChainId" := h]> (storage s))
                  (with_trace (trace s ++ [SetSelectedChainId (JNum (Num n)); StorageSet "selectedChainId" h]) s))
         end).
Proof.
  intros Hn h. unfold set_selectedChainId. step_m.
  assert (Ht : truthy (JNum (Num n)) = true).
  { cbn. destruct (n =? 0)%Z eqn:E; [apply Z.eqb_eq in E; lia | reflexivity]. }
  rewrite Ht. cbn [is_number andb].
  rewrite numberToHex_safe by lia. cbn -[HexString.of_N].
  assert (Hh : String.eqb (HexString.of_N (Z.to_N n)) "" = false)
    by (apply String.eqb_neq, of_N_nonempty).
  rewrite ?Hh. cbn -[HexString.of_N].
  destruct (impl s) eqn:Hi; cbn -[HexString.of_N]; rewrite ?Hh; cbn -[HexString.of_N]; [reflexivity|].
  unfold with_selectedChainId, with_storage, with_trace; cbn -[HexString.of_N].
  rewrite <- app_assoc. reflexivity.
Qed.

(** C7.  Assigning [undefined] or any other empty (falsy) value to
    [selectedChainId] leaves the stored chain, the store and what the getter
    returns as they were, however often it is repeated; assigning a numeric
    chain id [n] (a positive safe integer) stores [numberToHex n], the
    canonical hexadecimal form from which [hexToNumber] gives [n] back. *)
Theorem selectedChainId_setter (s : state) :
  (forall v, truthy v = false ->
     exists s', set_selectedChainId v s = Ok tt s'
       /\ p_selectedChainId s' = p_selectedChainId s
       /\ storage s' = storage s
       /\ get_selectedChainId s' = get_selectedChainId s
       /\ p_selectedChainId (final (set_selectedChainId v s')) = p_selectedChainId s)
  /\ (forall n, (0 < n <= MAX_SAFE_INTEGER)%Z ->
      exists s', set_selectedChainId (JNum (Num n)) s = Ok tt s'
        /\ numberToHex (JNum (Num n)) = inr (HexString.of_N (Z.to_N n))
        /\ p_selectedChainId s' = JStr (HexString.of_N (Z.to_N n))
        /\ hexToNumber (p_selectedChainId s') = inr n).
Proof.
  split.
  - intros v Hv. eexists. split; [apply set_selectedChainId_falsy, Hv|].
    rewrite set_selectedChainId_falsy by exact Hv. cbn. auto.
  - intros n Hn. eexists. split; [apply set_selectedChainId_number, Hn|].
    assert (Hhex := numberToHex_safe n ltac:(lia)).
    split; [exact Hhex|].
    assert (Hp : forall x, p_selectedChainId
                   match impl s with
                   | InMemory => with_selectedChainId x (with_trace (trace s ++ [SetSelectedChainId (JNum (Num n))]) s)
                   | StorageBacked =>
                       with_selectedChainId x
                         (with_storage (<["selectedChainId" := x]> (storage s))
                            (with_trace (trace s ++ [SetSelectedChainId (JNum (Num n)); StorageSet "selectedChainId" x]) s))
                   end = x) by (intros x; destruct (impl s); reflexivity).
    rewrite Hp. split; [reflexivity|].
    apply hexToNumber_numberToHex, Hhex.
Qed.

End Accessors.

(* ================================================================== *)
(** ** Invariants of the trace *)
(* ================================================================== *)

Section TraceFilter.

Context `{Externals}.

Variable counted : effect -> bool.

Lemma selected_frame (k : list effect) (s s' : state) :
  trace s' = trace s -> p_accounts s' = p_accounts s ->
  window_listeners s' = window_listeners s -> storage s' = storage s ->
  impl s' = impl s -> eventHandlers s' = eventHandlers s ->
  selected_are counted k s -> selected_are counted k s'.
Proof. unfold selected_are. intros -> _ _ _ _ _. trivial. Qed.

Lemma selected_log (k : list effect) (e : effect) (s : state) :
  counted e = false -> selected_are counted k s ->
  selected_are counted k (with_trace (trace s ++ [e]) s).
Proof.
  unfold selected_are. intros He Hs. cbn. rewrite List.filter_app. cbn.
  rewrite He, app_nil_r. exact Hs.
Qed.

Lemma selected_window (k : list effect) (l : list window_listener) (s : state) :
  selected_are counted k s -> selected_are counted k (with_window_listeners l s).
Proof. trivial. Qed.

Lemma selected_set_accounts (k : list effect) (a : jsval) :
  counted (SetAccounts a) = false -> counted (StorageSet "accounts" a) = false ->
  preserves (selected_are counted k) (set_accounts a).
Proof.
  intros H1 H2 s Hs. unfold set_accounts. step_m. cbn.
  destruct (impl s); cbn; unfold selected_are in *; cbn;
    rewrite ?List.filter_app; cbn; rewrite ?H1, ?H2, ?app_nil_r; exact Hs.
Qed.

End TraceFilter.

Section TracePrefix.

Context `{Externals}.

Lemma extends_frame (pre : list effect) (s s' : state) :
  trace s' = trace s -> p_accounts s' = p_accounts s ->
  window_listeners s' = window_listeners s -> storage s' = storage s ->
  impl s' = impl s -> eventHandlers s' = eventHandlers s ->
  extends pre s -> extends pre s'.
Proof. unfold extends. intros -> _ _ _ _ _. trivial. Qed.

Lemma extends_log (pre : list effect) (e : effect) (s : state) :
  True -> extends pre s -> extends pre (with_trace (trace s ++ [e]) s).
Proof.
  intros _ [t Ht]. exists (t ++ [e]). cbn. rewrite Ht, app_assoc. reflexivity.
Qed.

Lemma extends_set_accounts (pre : list effect) (a : jsval) :
  preserves (extends pre) (set_accounts a).
Proof.
  intros s [t Ht]. unfold set_accounts. step_m. cbn.
  destruct (impl s); cbn; unfold extends; cbn; rewrite Ht, <- ?app_assoc; eauto.
Qed.

Lemma extends_deliver_all (is_ : list inbound) (s : state) :
  extends (trace s) (final (deliver_all is_ s)).
Proof.
  apply (preserves_deliver_all (extends (trace s)) (fun _ => True));
    first [ intros; exact Logic.I | apply extends_frame | apply extends_log
          | apply extends_set_accounts | (intros l s' Hs'; exact Hs')
          | (exists []; symmetry; apply app_nil_r) ].
Qed.

Lemma await_final (call : effect) (w : awaited) (s : state) :
  final (await call w s) = final (deliver_all (during w) (with_trace (trace s ++ [call]) s)).
Proof.
  unfold await. step_m. cbn.
  destruct (deliver_all (during w) _); [destruct (settles w)|]; reflexivity.
Qed.

Lemma await_trace (call : effect) (w : awaited) (s : state) :
  exists t, trace (final (await call w s)) = trace s ++ call :: t.
Proof.
  rewrite await_final.
  destruct (extends_deliver_all (during w) (with_trace (trace s ++ [call]) s)) as [t Ht].
  exists t. rewrite Ht. cbn. rewrite <- app_assoc. reflexivity.
Qed.

End TracePrefix.

Section Request.

Context `{Externals}.

(** A value that [hexToNumber] accepts is a non-empty string. *)
Lemma hexToNumber_truthy (v : jsval) (n : Z) : hexToNumber v = inr n -> truthy v = true.
Proof.
  unfold hexToNumber. destruct (isHex v) eqn:Hx; [|discriminate]. intros _.
  destruct v as [| |b|m|str|l|f|p]; try discriminate Hx.
  destruct str; [discriminate Hx | reflexivity].
Qed.

(** The interceptor never calls [core.invokeMethod], whatever the request
    and whatever arrives while it awaits the SDK. *)
Lemma requestInterceptor_invocations (req : ProviderRequest) (w : awaited) (s : state) :
  invocations (final (requestInterceptor req w s)) = invocations s.
Proof.
  apply (preserves_requestInterceptor (selected_are is_invoke (invocations s))
           (fun e => is_invoke e = false));
    first [ intros; reflexivity | apply selected_frame | (intros e s'; apply selected_log)
          | (intros a; apply selected_set_accounts; reflexivity)
          | (intros l s' Hs'; exact Hs') ].
Qed.

(** C2, as the code has it.  A request whose method is interceptable returns what the
    interceptor returns and adds no [invokeMethod] call.  Any other request
    fails with "No chain ID selected" when no chain is selected.  With a
    chain selected that [hexToNumber] reads as [n], it is the call of
    [invokeMethod] with the scope "eip155:" followed by the decimal numeral
    of [n], and with the method and the parameters of the request.  With a
    chain selected that [hexToNumber] does not read, the request fails with
    the error of [hexToNumber] and calls nothing: for a hexadecimal string,
    which is then one of [2^53] or more, the error is "Value is not a safe
    integer. Use `hexToBigInt` instead.". *)
Theorem request_dispatch (req : ProviderRequest) (w : awaited) (s : state) :
  (includes INTERCEPTABLE_METHODS (method req) = true ->
     request req w s = requestInterceptor req w s
     /\ invocations (final (request req w s)) = invocations s)
  /\ (includes INTERCEPTABLE_METHODS (method req) = false ->
      truthy (p_selectedChainId s) = false ->
      request req w s = Throw (Error "No chain ID selected") s)
  /\ (includes INTERCEPTABLE_METHODS (method req) = false ->
      forall n, hexToNumber (p_selectedChainId s) = inr n ->
      numeral (Z_to_string n) n
      /\ request req w s =
           await (InvokeMethod ("eip155:" +:+ Z_to_string n) (method req) (params req)) w s
      /\ trace (final (request req w s)) !! length (trace s) =
           Some (InvokeMethod ("eip155:" +:+ Z_to_string n) (method req) (params req)))
  /\ (includes INTERCEPTABLE_METHODS (method req) = false ->
      truthy (p_selectedChainId s) = true ->
      forall e, hexToNumber (p_selectedChainId s) = inl e ->
      request req w s = Throw e s
      /\ (isHex (p_selectedChainId s) = true ->
          e = AssertionError "Value is not a safe integer. Use `hexToBigInt` instead.")).
Proof.
  unfold request. split; [|split; [|split]].
  - intros Hi. rewrite Hi. split; [reflexivity|]. apply requestInterceptor_invocations.
  - intros Hi Hc. rewrite Hi. step_m. cbn. rewrite Hc. reflexivity.
  - intros Hi n Hn. pose proof (hexToNumber_truthy _ _ Hn) as Hc.
    pose proof (hexToNumber_range _ _ Hn) as Hr.
    split; [apply numeral_Z_to_string, Hr|].
    rewrite Hi. step_m. cbn -[ToString]. rewrite Hc, Hn. cbn -[ToString].
    rewrite ToString_safe by (unfold MAX_SAFE_INTEGER in *; lia).
    split; [reflexivity|].
    destruct (await_trace (InvokeMethod ("eip155:" +:+ Z_to_string n) (method req) (params req)) w s)
      as [t Ht].
    rewrite Ht. rewrite lookup_app_r by lia.
    replace (length (trace s) - length (trace s)) with 0 by lia. reflexivity.
  - intros Hi Hc e He. split.
    + rewrite Hi. step_m. cbn. rewrite Hc, He. reflexivity.
    + intros Hx. unfold hexToNumber in He. rewrite Hx in He.
      destruct (parseInt16 (p_selectedChainId s)) as [|z|b|m k];
        [| destruct (isSafeInteger (Num z)) | |]; congruence.
Qed.

End Request.

(* ================================================================== *)
(** ** The order of a handler's effects *)
(* ================================================================== *)

Section HandlerOrder.

Context `{Externals}.

Lemma appends_bind (m1 m2 : M unit) t1 t2 :
  appends m1 t1 -> appends m2 t2 ->
  appends (m1 ;; m2) (fun i h => t1 i h ++ t2 i h).
Proof.
  intros H1 H2 s. destruct (H1 s) as (s1 & E1 & T1 & I1 & V1 & W1).
  destruct (H2 s1) as (s2 & E2 & T2 & I2 & V2 & W2).
  exists s2. step_m. rewrite E1, E2. repeat split; try congruence.
  rewrite T2, T1, I1, V1, app_assoc. reflexivity.
Qed.

Lemma appends_emit (ev : provider_event) : appends (emit ev) (fun _ _ => [Emit ev]).
Proof. intros s. eexists. repeat split. Qed.

Lemma appends_callback (f : EventHandlers -> bool) (ev : provider_event) :
  appends (callback f ev) (fun _ h => callback_trace h f ev).
Proof.
  intros s. unfold callback, callback_trace. step_m. cbn.
  destruct (eventHandlers s) as [h|] eqn:Eh; [destruct (f h)|];
    eexists; repeat split; cbn; rewrite ?app_nil_r; auto.
Qed.

Lemma appends_set_accounts (a : jsval) :
  appends (set_accounts a) (fun i _ => accounts_write i a).
Proof.
  intros s. unfold set_accounts, accounts_write. step_m. cbn.
  destruct (impl s) eqn:Ei; eexists; repeat split; cbn; rewrite <- ?app_assoc; auto.
Qed.

Lemma to_hexChainId_cases (c : jsval) (h : string) :
  to_hexChainId c = inr h ->
  (c = JStr h /\ h <> "")
  \/ (exists z, c = JNum (Num z) /\ (0 <= z <= MAX_SAFE_INTEGER)%Z
                /\ h = HexString.of_N (Z.to_N z)).
Proof.
  unfold to_hexChainId. destruct c as [| |b|[|z|neg|m e]|s0|l|f|p]; try discriminate;
    try (cbn; destruct neg; discriminate); try (cbn; destruct (m <? 0)%Z; discriminate).
  - intros Hh. right. exists z. split; [reflexivity|].
    cbn in Hh. destruct (z <? 0)%Z eqn:Hneg; [discriminate|].
    destruct (_ && _) eqn:Hsafe; [|discriminate].
    apply Z.ltb_ge in Hneg. apply andb_true_iff in Hsafe as [_ Hmax].
    apply Z.leb_le in Hmax. injection Hh as <-. split; [lia | reflexivity].
  - destruct (isHex (JStr s0)) eqn:Hx; [|discriminate].
    intros [= <-]. left. split; [reflexivity|].
    intros ->. discriminate.
Qed.

Lemma appends_set_selectedChainId (c : jsval) (h : string) :
  to_hexChainId c = inr h ->
  appends (set_selectedChainId c) (fun i _ => chain_write i c h).
Proof.
  intros Hc s. unfold chain_write.
  destruct (to_hexChainId_cases c h Hc) as [[-> Hne] | (z & -> & Hz & ->)].
  - rewrite set_selectedChainId_string by exact Hne.
    assert (Ht : truthy (JStr h) = true)
      by (cbn; apply negb_true_iff, String.eqb_neq, Hne).
    rewrite Ht. destruct (impl s) eqn:Ei; eexists; repeat split; cbn; auto.
  - destruct (Z.eq_dec z 0%Z) as [-> | Hnz].
    + rewrite set_selectedChainId_falsy by reflexivity.
      destruct (impl s) eqn:Ei; eexists; repeat split; cbn; auto.
    + rewrite set_selectedChainId_number by lia.
      assert (Ht : truthy (JNum (Num z)) = true)
        by (cbn; apply negb_true_iff, Z.eqb_neq, Hnz).
      rewrite Ht. destruct (impl s) eqn:Ei; eexists; repeat split; cbn -[HexString.of_N]; auto.
Qed.

Lemma appends_onAccountsChanged (a : jsval) :
  appends (onAccountsChanged a)
    (fun i h => accounts_write i a
                ++ [Emit (accountsChanged_event a)]
                ++ callback_trace h on_accountsChanged (accountsChanged_event a)).
Proof.
  unfold onAccountsChanged.
  apply appends_bind; [apply appends_set_accounts|].
  apply appends_bind; [apply appends_emit | apply appends_callback].
Qed.

Lemma appends_onChainChanged (c : jsval) (h : string) :
  to_hexChainId c = inr h ->
  appends (onChainChanged c)
    (fun i hs => chain_write i c h
                 ++ callback_trace hs on_chainChanged (chainChanged_event h)
                 ++ [Emit (chainChanged_event h)]).
Proof.
  intros Hc s. unfold onChainChanged.
  assert (Hb := appends_bind _ _ _ _ (appends_set_selectedChainId c h Hc)
                  (appends_bind _ _ _ _
                     (appends_callback on_chainChanged (chainChanged_event h))
                     (appends_emit (chainChanged_event h))) s).
  unfold mbind at 1, M_bind at 1, bind at 1, lift. rewrite Hc. exact Hb.
Qed.

Lemma appends_onConnect (c : jsval) (h : string) :
  to_hexChainId c = inr h ->
  appends (onConnect c)
    (fun i hs => [Emit (connect_event h)]
                 ++ callback_trace hs on_connect (connect_event h)
                 ++ chain_write i c h
                 ++ callback_trace hs on_chainChanged (chainChanged_event h)
                 ++ [Emit (chainChanged_event h)]).
Proof.
  intros Hc s. unfold onConnect.
  assert (Hb := appends_bind _ _ _ _ (appends_emit (connect_event h))
                  (appends_bind _ _ _ _
                     (appends_callback on_connect (connect_event h))
                     (appends_onChainChanged c h Hc)) s).
  unfold mbind at 1, M_bind at 1, bind at 1, lift. rewrite Hc. exact Hb.
Qed.

Lemma appends_onDisconnect :
  appends onDisconnect
    (fun i hs => [Emit disconnect_event]
                 ++ callback_trace hs on_disconnect disconnect_event
                 ++ accounts_write i (JArr [])
                 ++ [Emit (accountsChanged_event (JArr []))]
                 ++ callback_trace hs on_accountsChanged (accountsChanged_event (JArr []))).
Proof.
  unfold onDisconnect.
  apply appends_bind; [apply appends_emit|].
  apply appends_bind; [apply appends_callback | apply appends_onAccountsChanged].
Qed.

(** C3, as the code has it.  [onAccountsChanged] assigns the accounts, then
    emits the provider event, then calls the caller's handler.
    [onChainChanged] assigns the chain id, then calls the caller's handler,
    and only then emits the provider event.  [onConnect] and [onDisconnect]
    emit their provider event and call the caller's handler first; the
    session state changes after that, inside the chain handler, respectively
    the accounts handler, that they call last. *)
Theorem handler_order :
  (forall a,
     appends (onAccountsChanged a)
       (fun i hs => accounts_write i a
                    ++ [Emit (accountsChanged_event a)]
                    ++ callback_trace hs on_accountsChanged (accountsChanged_event a)))
  /\ (forall c h, to_hexChainId c = inr h ->
      appends (onChainChanged c)
        (fun i hs => chain_write i c h
                     ++ callback_trace hs on_chainChanged (chainChanged_event h)
                     ++ [Emit (chainChanged_event h)]))
  /\ (forall c h, to_hexChainId c = inr h ->
      appends (onConnect c)
        (fun i hs => [Emit (connect_event h)]
                     ++ callback_trace hs on_connect (connect_event h)
                     ++ chain_write i c h
                     ++ callback_trace hs on_chainChanged (chainChanged_event h)
                     ++ [Emit (chainChanged_event h)]))
  /\ appends onDisconnect
       (fun i hs => [Emit disconnect_event]
                    ++ callback_trace hs on_disconnect disconnect_event
                    ++ accounts_write i (JArr [])
                    ++ [Emit (accountsChanged_event (JArr []))]
                    ++ callback_trace hs on_accountsChanged (accountsChanged_event (JArr []))).
Proof.
  split; [exact appends_onAccountsChanged|].
  split; [exact appends_onChainChanged|].
  split; [exact appends_onConnect | exact appends_onDisconnect].
Qed.

End HandlerOrder.

(** C3 as the specification words it, for the chain handler: the assignment,
    then the provider event, then the caller's handler.  With a
    [chainChanged] handler supplied the code calls the handler before it
    emits the event. *)
Lemma onChainChanged_callback_before_event :
  let s := fresh InMemory (Some all_handlers) ∅ in
  trace (final (onChainChanged (JNum (Num 137)) s)) =
    [SetSelectedChainId (JNum (Num 137));
     Callback (chainChanged_event "0x89");
     Emit (chainChanged_event "0x89")]
  /\ ~ appends (onChainChanged (JNum (Num 137)))
        (fun i hs => chain_write i (JNum (Num 137)) "0x89"
                     ++ [Emit (chainChanged_event "0x89")]
                     ++ callback_trace hs on_chainChanged (chainChanged_event "0x89")).
Proof.
  split; [reflexivity|].
  intros Happ.
  destruct (Happ (fresh InMemory (Some all_handlers) ∅)) as (s' & Hrun & Htrace & _).
  vm_compute in Hrun. injection Hrun as <-. discriminate Htrace.
Qed.

(* ================================================================== *)
(** ** Messages from the wallet *)
(* ================================================================== *)

Section WalletMessages.

Context `{Externals}.

Lemma isMetamaskProviderEvent_wallet_message (payload_ : jsval) :
  isMetamaskProviderEvent (wallet_message location_origin payload_) = true.
Proof. unfold isMetamaskProviderEvent. cbn. apply String.eqb_refl. Qed.

Lemma listener_present (l : window_listener) (ls : list window_listener) :
  l ∈ ls -> bool_decide (l ∈ ls) = true.
Proof. apply bool_decide_eq_true_2. Qed.

Lemma callback_selectedChainId (f : EventHandlers -> bool) (ev : provider_event) (s : state) :
  p_selectedChainId (final (callback f ev s)) = p_selectedChainId s
  /\ storage (final (callback f ev s)) = storage s.
Proof.
  unfold callback. step_m. cbn.
  destruct (eventHandlers s) as [h|]; [destruct (f h)|]; split; reflexivity.
Qed.

(** After the chain handler, the selected chain is the hexadecimal form of
    its (non-zero) argument. *)
Lemma onChainChanged_final (c : jsval) (h : string) (s : state) :
  to_hexChainId c = inr h -> truthy c = true ->
  p_selectedChainId (final (onChainChanged c s)) = JStr h
  /\ impl (final (onChainChanged c s)) = impl s
  /\ (impl s = StorageBacked ->
      storage (final (onChainChanged c s)) !! "selectedChainId" = Some (JStr h)).
Proof.
  intros Hc Ht.
  assert (Hset : exists s1, set_selectedChainId c s = Ok tt s1
                   /\ p_selectedChainId s1 = JStr h
                   /\ impl s1 = impl s
                   /\ (impl s = StorageBacked -> storage s1 !! "selectedChainId" = Some (JStr h))).
  { destruct (to_hexChainId_cases c h Hc) as [[-> Hne] | (z & -> & Hz & ->)].
    - rewrite set_selectedChainId_string by exact Hne.
      destruct (impl s) eqn:Ei; eexists; repeat split; cbn; auto; try discriminate.
      intros _. apply lookup_insert_eq.
    - assert (z <> 0)%Z by (intros ->; discriminate Ht).
      rewrite set_selectedChainId_number by lia.
      destruct (impl s) eqn:Ei; eexists; repeat split; cbn -[HexString.of_N]; auto; try discriminate.
      intros _. apply lookup_insert_eq. }
  destruct Hset as (s1 & Hs1 & Hp & Hi & Hst).
  unfold onChainChanged, mbind, M_bind, bind, lift, emit, log, modify.
  rewrite Hc, Hs1.
  destruct (callback_selectedChainId on_chainChanged (chainChanged_event h) s1) as [Hc1 Hc2].
  assert (Hci : impl (final (callback on_chainChanged (chainChanged_event h) s1)) = impl s1).
  { unfold callback. step_m. cbn.
    destruct (eventHandlers s1) as [hs|]; [destruct (on_chainChanged hs)|]; reflexivity. }
  destruct (callback on_chainChanged (chainChanged_event h) s1) as [[] s2|e s2]; cbn in *;
    rewrite Hc1, Hp, Hci, Hi, Hc2; auto.
Qed.

(** After the chain handler, the selected chain is the hexadecimal form of
    its (non-zero) argument. *)
Lemma onChainChanged_selected (c : jsval) (h : string) (s : state) :
  to_hexChainId c = inr h -> truthy c = true ->
  p_selectedChainId (final (onChainChanged c s)) = JStr h
  /\ get_selectedChainId (final (onChainChanged c s)) =
       match impl s with InMemory => JStr h | StorageBacked => JPromise (JStr h) end.
Proof.
  intros Hc Ht. destruct (onChainChanged_final c h s Hc Ht) as (Hp & Hi & Hst).
  split; [exact Hp|]. unfold get_selectedChainId. rewrite Hi, Hp.
  destruct (impl s); [reflexivity|]. rewrite Hst by reflexivity. reflexivity.
Qed.

Lemma metamaskProviderHandler_chainChanged_0x89 (s : state) :
  metamaskProviderHandler (wallet_message location_origin chainChanged_0x89) s =
  onChainChanged (JNum (Num 137)) s.
Proof.
  unfold metamaskProviderHandler.
  rewrite isMetamaskProviderEvent_wallet_message.
  unfold when, chainChanged_0x89. cbn. step_m. cbn.
  change (StringToNumber "0x89") with (Num 137).
  destruct (onChainChanged (JNum (Num 137)) s) as [[] s'|e s']; reflexivity.
Qed.

(** C8.  The wallet's [metamask_chainChanged] message with
    [{ chainId: "0x89" }]: [Number] reads 137 and [numberToHex] gives "0x89"
    back; the handler returns, the selected chain is "0x89", and it adds the
    assignment, the caller's [chainChanged] handler (if supplied) and the
    [chainChanged] event, both with exactly "0x89". *)
Theorem chainChanged_0x89_message (s : state) :
  Number (JStr "0x89") = Num 137
  /\ numberToHex (JNum (Num 137)) = inr "0x89"
  /\ exists s',
       metamaskProviderHandler (wallet_message location_origin chainChanged_0x89) s = Ok tt s'
       /\ p_selectedChainId s' = JStr "0x89"
       /\ get_selectedChainId s' =
            match impl s with InMemory => JStr "0x89" | StorageBacked => JPromise (JStr "0x89") end
       /\ trace s' = trace s
                     ++ chain_write (impl s) (JNum (Num 137)) "0x89"
                     ++ callback_trace (eventHandlers s) on_chainChanged (chainChanged_event "0x89")
                     ++ [Emit (chainChanged_event "0x89")]
       /\ (window_listeners s = [MetamaskProviderHandler]
           \/ window_listeners s = [MetamaskProviderHandler; RecoverSession] ->
           deliver (WindowMessage (wallet_message location_origin chainChanged_0x89)) s = Ok tt s').
Proof.
  split; [reflexivity|]. split; [reflexivity|].
  rewrite metamaskProviderHandler_chainChanged_0x89.
  destruct (appends_onChainChanged (JNum (Num 137)) "0x89" eq_refl s)
    as (s' & Hrun & Htr & _ & _ & Hwl).
  destruct (onChainChanged_selected (JNum (Num 137)) "0x89" s eq_refl eq_refl) as [Hp Hg].
  exists s'. rewrite Hrun in *. cbn in Hp, Hg. repeat split; auto.
  intros Hw. unfold deliver. step_m. cbn [final].
  destruct Hw as [Hw | Hw]; rewrite Hw; cbn [dispatch_window]; step_m; rewrite Hw;
    rewrite (listener_present MetamaskProviderHandler) by set_solver;
    cbn [window_listener_body];
    unfold run_listener; rewrite metamaskProviderHandler_chainChanged_0x89, Hrun; cbn [final];
    [reflexivity|].
  rewrite Hwl, Hw. rewrite (listener_present RecoverSession) by set_solver.
  cbn [window_listener_body]. unfold recoverSession.
  rewrite isMetamaskProviderEvent_wallet_message. reflexivity.
Qed.

End WalletMessages.

(* ================================================================== *)
(** ** Switching chains and the pending chain configuration *)
(* ================================================================== *)

Section SwitchChain.

Context `{Externals}.

Lemma switchChain_same (c cfg : jsval) (h : string) (s : state) :
  to_hexChainId c = inr h ->
  strict_eq_str (get_selectedChainId s) h = true ->
  switchChain c cfg s = Ok tt s.
Proof.
  intros Hc Hsame. unfold switchChain. step_m. rewrite Hc, Hsame. reflexivity.
Qed.

Lemma switchChain_permitted (c cfg : jsval) (h : string) (s : state) :
  to_hexChainId c = inr h ->
  strict_eq_str (get_selectedChainId s) h = false ->
  includes (getPermittedEthChainIds (sessionScopes s)) h = true ->
  switchChain c cfg s = onChainChanged (JStr h) s.
Proof.
  intros Hc Hsame Hp. unfold switchChain.
  unfold mbind at 1 2 3, M_bind at 1 2 3, bind at 1 2 3, lift, gets.
  rewrite Hc, Hsame, Hp. reflexivity.
Qed.

Lemma switchChain_wallet (c cfg : jsval) (h : string) (s : state) :
  to_hexChainId c = inr h ->
  strict_eq_str (get_selectedChainId s) h = false ->
  includes (getPermittedEthChainIds (sessionScopes s)) h = false ->
  switchChain c cfg s =
    Ok tt (with_trace
             (trace s ++ [SendEip1193Message "wallet_switchEthereumChain"
                            [JObj [("chainId", JStr h)]]])
             (with_latestChainConfiguration cfg s)).
Proof.
  intros Hc Hsame Hp. unfold switchChain, request_. step_m.
  rewrite Hc, Hsame, Hp. reflexivity.
Qed.

(** With the in-memory provider the guard of [switchChain] compares two
    strings. *)
Lemma switchChain_selected_in_memory (c cfg : jsval) (h : string) (s : state) :
  impl s = InMemory -> to_hexChainId c = inr h -> p_selectedChainId s = JStr h ->
  switchChain c cfg s = Ok tt s.
Proof.
  intros Hi Hc Hp. apply (switchChain_same c cfg h); [exact Hc|].
  unfold get_selectedChainId. rewrite Hi, Hp. cbn. apply String.eqb_refl.
Qed.

(** With the storage-backed provider the getter returns a promise, which is
    never [===] to a string: the guard of [switchChain] is never taken. *)
Lemma storage_backed_never_same (h : string) (s : state) :
  impl s = StorageBacked -> strict_eq_str (get_selectedChainId s) h = false.
Proof. intros Hi. unfold get_selectedChainId. rewrite Hi. reflexivity. Qed.

Lemma addEthereumChain_run (c : jsval) (s : state) :
  addEthereumChain c s =
    if truthy (coalesce c (latestChainConfiguration s))
    then Ok tt (with_trace
                  (trace s ++ [SendEip1193Message "wallet_addEthereumChain"
                                 [coalesce c (latestChainConfiguration s)]]) s)
    else Throw (Error "No chain configuration found.") s.
Proof.
  unfold addEthereumChain, request_. step_m.
  destruct (truthy (coalesce c (latestChainConfiguration s))); reflexivity.
Qed.

Lemma addEthereumChain_keeps (c : jsval) (s : state) :
  latestChainConfiguration (final (addEthereumChain c s)) = latestChainConfiguration s.
Proof.
  rewrite addEthereumChain_run.
  destruct (truthy (coalesce c (latestChainConfiguration s))); reflexivity.
Qed.

Lemma onAccountsChanged_run (a : jsval) (s : state) :
  exists s', onAccountsChanged a s = Ok tt s'
    /\ latestChainConfiguration s' = latestChainConfiguration s.
Proof.
  unfold onAccountsChanged, set_accounts, callback. step_m. cbn.
  destruct (impl s); cbn;
    (destruct (eventHandlers s) as [hs|]; [destruct (on_accountsChanged hs)|]);
    eexists; split; reflexivity.
Qed.

Lemma other_keys_run_all (ops : list operation) (s : state) :
  other_keys_as (storage s) (run_all ops s).
Proof.
  apply (preserves_run_all (other_keys_as (storage s)) (fun _ => True));
    first [ intros; exact Logic.I
          | (intros s1 s2 _ _ _ Hst _ _ Hs1 k Ha Hc; rewrite Hst; apply Hs1; assumption)
          | (intros e s1 _ Hs1; exact Hs1)
          | (intros a s1 Hs1 k Ha Hc; unfold set_accounts; step_m; cbn;
             destruct (impl s1); cbn; [apply Hs1; assumption|];
             rewrite lookup_insert_ne by congruence; apply Hs1; assumption)
          | (intros v s1 Hs1 k Ha Hc; cbn; rewrite lookup_insert_ne by congruence;
             apply Hs1; assumption)
          | (intros l s1 Hs1; exact Hs1)
          | (intros k _ _; reflexivity) ].
Qed.

Lemma constructor_latest i hs store queue :
  latestChainConfiguration (final (constructor i hs store queue)) = JUndefined.
Proof.
  unfold constructor, attemptSessionRecovery, addEventListener, core_on, request_. step_m. cbn.
  destruct (match queue with Some l => some_sessionChanged l | None => inr false end)
    as [e|[|]]; reflexivity.
Qed.

(** C5, as the code has it.  A switch attempt that reaches the wallet
    replaces the pending chain configuration by the one it was given
    (by [undefined] when it was given none).  The add-chain routine sends
    the configuration and keeps it: nothing clears it.  It is never
    persisted: whatever the adapter is made to do, the store changes at
    most under the keys [accounts] and [selectedChainId], and a newly
    constructed adapter has no pending configuration whatever the store
    holds. *)
Theorem pending_chain_configuration :
  (forall s c cfg h,
     to_hexChainId c = inr h ->
     strict_eq_str (get_selectedChainId s) h = false ->
     includes (getPermittedEthChainIds (sessionScopes s)) h = false ->
     switchChain c cfg s =
       Ok tt (with_trace
                (trace s ++ [SendEip1193Message "wallet_switchEthereumChain"
                               [JObj [("chainId", JStr h)]]])
                (with_latestChainConfiguration cfg s))
     /\ latestChainConfiguration (final (switchChain c cfg s)) = cfg)
  /\ (forall s c,
      latestChainConfiguration (final (addEthereumChain c s)) = latestChainConfiguration s)
  /\ (forall ops s k,
      k <> "accounts" -> k <> "selectedChainId" ->
      storage (run_all ops s) !! k = storage s !! k)
  /\ (forall i hs store queue,
      latestChainConfiguration (final (constructor i hs store queue)) = JUndefined).
Proof.
  split; [|split; [|split]].
  - intros s c cfg h Hc Hsame Hp.
    rewrite (switchChain_wallet c cfg h s Hc Hsame Hp). split; reflexivity.
  - intros s c. apply addEthereumChain_keeps.
  - intros ops s k Ha Hc. apply other_keys_run_all; assumption.
  - apply constructor_latest.
Qed.

(** C6.  A wallet message that carries an error with code 4902 (and is not
    itself a [metamask_chainChanged] notification) makes the handler run the
    add-chain routine with no argument: with a pending chain configuration
    it sends [wallet_addEthereumChain] with that configuration, and with
    none it throws "No chain configuration found.".  After a switch attempt
    that reached the wallet, the configuration sent is the one given to that
    attempt. *)
Theorem chain_not_configured (event : MessageEvent) (s : state) :
  isMetamaskProviderEvent event = true ->
  strict_eq_int (opt_prop (opt_prop (payload event) "error") "code") 4902 = true ->
  strict_eq_str (opt_prop (payload event) "method") "metamask_chainChanged" = false ->
  exists s1,
    when (strict_eq_str (opt_prop (payload event) "method") "metamask_accountsChanged")
         (onAccountsChanged (opt_prop (payload event) "params")) s = Ok tt s1
    /\ latestChainConfiguration s1 = latestChainConfiguration s
    /\ (truthy (latestChainConfiguration s) = true ->
        metamaskProviderHandler event s =
          Ok tt (with_trace
                   (trace s1 ++ [SendEip1193Message "wallet_addEthereumChain"
                                   [latestChainConfiguration s]]) s1))
    /\ (truthy (latestChainConfiguration s) = false ->
        metamaskProviderHandler event s = Throw (Error "No chain configuration found.") s1)
    /\ (forall c cfg h s0,
        to_hexChainId c = inr h ->
        strict_eq_str (get_selectedChainId s0) h = false ->
        includes (getPermittedEthChainIds (sessionScopes s0)) h = false ->
        s = final (switchChain c cfg s0) ->
        latestChainConfiguration s = cfg).
Proof.
  intros Hev Hcode Hmethod.
  assert (Hs1 : exists s1,
             when (strict_eq_str (opt_prop (payload event) "method") "metamask_accountsChanged")
                  (onAccountsChanged (opt_prop (payload event) "params")) s = Ok tt s1
             /\ latestChainConfiguration s1 = latestChainConfiguration s).
  { destruct (strict_eq_str _ "metamask_accountsChanged"); cbn [when].
    - apply onAccountsChanged_run.
    - exists s. split; reflexivity. }
  destruct Hs1 as (s1 & Hrun & Hlatest). exists s1.
  split; [exact Hrun|]. split; [exact Hlatest|].
  assert (Hh : metamaskProviderHandler event s = addEthereumChain JUndefined s1).
  { unfold metamaskProviderHandler. rewrite Hev. cbn [when].
    unfold mbind at 1, M_bind at 1, bind at 1. rewrite Hrun.
    rewrite Hmethod, Hcode. cbn [when]. step_m.
    destruct (addEthereumChain JUndefined s1) as [[] s2|e s2]; reflexivity. }
  rewrite Hh, addEthereumChain_run. cbn [coalesce nullish]. rewrite Hlatest.
  split; [intros ->; reflexivity|]. split; [intros ->; reflexivity|].
  intros c cfg h s0 Hc Hsame Hp ->.
  rewrite (switchChain_wallet c cfg h s0 Hc Hsame Hp). reflexivity.
Qed.

End SwitchChain.

(* ================================================================== *)
(** ** What [connect] returns *)
(* ================================================================== *)

Section ConnectResult.

Context `{Externals}.

Lemma run_listener_returns (m : M unit) (s : state) :
  run_listener m s = Ok tt (final (m s)).
Proof. reflexivity. Qed.

Lemma dispatch_window_returns (ls : list window_listener) (event : MessageEvent) (s : state) :
  exists s', dispatch_window ls event s = Ok tt s'.
Proof.
  revert s. induction ls as [|l ls IH]; intros s; cbn [dispatch_window].
  - eexists. reflexivity.
  - step_m. cbn. destruct (bool_decide (l ∈ window_listeners s)); cbn; apply IH.
Qed.

Lemma repeat_listener_returns (n : nat) (m : M unit) (s : state) :
  exists s', repeat_m n (run_listener m) s = Ok tt s'.
Proof.
  revert s. induction n as [|n IH]; intros s; cbn [repeat_m].
  - eexists. reflexivity.
  - step_m. cbn. apply IH.
Qed.

Lemma deliver_returns (i : inbound) (s : state) : exists s', deliver i s = Ok tt s'.
Proof.
  destruct i; unfold deliver; step_m; cbn.
  - apply dispatch_window_returns.
  - apply repeat_listener_returns.
  - apply repeat_listener_returns.
Qed.

Lemma deliver_all_returns (is_ : list inbound) (s : state) :
  exists s', deliver_all is_ s = Ok tt s'.
Proof.
  revert s. induction is_ as [|i rest IH]; intros s; cbn [deliver_all].
  - eexists. reflexivity.
  - step_m. destruct (deliver_returns i s) as [s1 ->]. apply IH.
Qed.

Lemma await_resolves (call : effect) (w : awaited) (v : jsval) (s : state) :
  settles w = Resolves v ->
  await call w s = Ok v (final (await call w s)).
Proof.
  intros Hv. unfold await. step_m. cbn.
  destruct (deliver_all_returns (during w) (with_trace (trace s ++ [call]) s)) as [s1 ->].
  rewrite Hv. reflexivity.
Qed.

Lemma set_accounts_impl (a : jsval) (s : state) : impl (final (set_accounts a s)) = impl s.
Proof. unfold set_accounts. step_m. cbn. destruct (impl s) eqn:E; cbn; auto. Qed.

(** No operation changes the class of the provider. *)
Lemma await_impl (call : effect) (w : awaited) (s : state) :
  impl (final (await call w s)) = impl s.
Proof.
  apply (preserves_await (fun s' => impl s' = impl s) (fun _ => True));
    first [ intros; exact Logic.I
          | (intros s1 s2 _ _ _ _ Hi _ Hs1; congruence)
          | (intros e s1 _ Hs1; exact Hs1)
          | (intros a s1 Hs1; rewrite set_accounts_impl; exact Hs1)
          | (intros v s1 Hs1; exact Hs1)
          | (intros l s1 Hs1; exact Hs1)
          | reflexivity ].
Qed.

Lemma callback_keeps (f : EventHandlers -> bool) (ev : provider_event) (s : state) :
  exists s', callback f ev s = Ok tt s'
    /\ impl s' = impl s /\ p_accounts s' = p_accounts s
    /\ p_selectedChainId s' = p_selectedChainId s
    /\ eventHandlers s' = eventHandlers s
    /\ accounts_assignments s' = accounts_assignments s.
Proof.
  unfold callback, accounts_assignments. step_m. cbn.
  destruct (eventHandlers s) as [hs|] eqn:Eh; [destruct (f hs)|]; eexists; repeat split; cbn;
    rewrite ?List.filter_app, ?app_nil_r; auto.
Qed.

Lemma onChainChanged_in_memory (h : string) (s : state) :
  impl s = InMemory -> isHex (JStr h) = true ->
  exists s', onChainChanged (JStr h) s = Ok tt s'
    /\ impl s' = InMemory /\ p_accounts s' = p_accounts s
    /\ p_selectedChainId s' = JStr h
    /\ accounts_assignments s' = accounts_assignments s.
Proof.
  intros Hi Hx.
  assert (Hne : h <> "") by (intros ->; discriminate Hx).
  unfold onChainChanged, to_hexChainId. rewrite Hx.
  unfold mbind at 1 2, M_bind at 1 2, bind at 1 2, lift.
  rewrite (set_selectedChainId_string h s Hne), Hi.
  unfold mbind, M_bind, bind, emit, log, modify.
  destruct (callback_keeps on_chainChanged (chainChanged_event h)
              (with_selectedChainId (JStr h)
                 (with_trace (trace s ++ [SetSelectedChainId (JStr h)]) s)))
    as (s1 & -> & Hi1 & Ha1 & Hp1 & _ & Hk1).
  eexists. split; [reflexivity|]. cbn. rewrite Hi1, Ha1, Hp1. cbn.
  repeat split; auto.
  unfold accounts_assignments in *. cbn in *.
  rewrite List.filter_app, Hk1, List.filter_app. cbn. rewrite !app_nil_r. reflexivity.
Qed.

Lemma onConnect_in_memory (h : string) (s : state) :
  impl s = InMemory -> isHex (JStr h) = true ->
  exists s', onConnect (JStr h) s = Ok tt s'
    /\ impl s' = InMemory /\ p_accounts s' = p_accounts s
    /\ p_selectedChainId s' = JStr h
    /\ accounts_assignments s' = accounts_assignments s.
Proof.
  intros Hi Hx. unfold onConnect, to_hexChainId. rewrite Hx.
  unfold mbind at 1 2, M_bind at 1 2, bind at 1 2, lift, emit, log, modify.
  unfold mbind at 1, M_bind at 1, bind at 1.
  destruct (callback_keeps on_connect (connect_event h)
              (with_trace (trace s ++ [Emit (connect_event h)]) s))
    as (s1 & -> & Hi1 & Ha1 & Hp1 & _ & Hk1).
  destruct (onChainChanged_in_memory h s1) as (s2 & -> & Hi2 & Ha2 & Hp2 & Hk2);
    [rewrite Hi1; exact Hi | exact Hx |].
  eexists. split; [reflexivity|].
  rewrite Ha2, Ha1, Hk2, Hk1. repeat split; auto.
  unfold accounts_assignments. cbn. rewrite List.filter_app. cbn. apply app_nil_r.
Qed.

Lemma accounts_since_preserved (k : list effect) (a0 : jsval) :
  (forall s s', trace s' = trace s -> p_accounts s' = p_accounts s ->
     accounts_since k a0 s -> accounts_since k a0 s')
  /\ (forall e s, is_set_accounts e = false -> accounts_since k a0 s ->
        accounts_since k a0 (with_trace (trace s ++ [e]) s))
  /\ (forall a, preserves (accounts_since k a0) (set_accounts a)).
Proof.
  unfold accounts_since, accounts_assignments. repeat split.
  - intros s s' -> ->. trivial.
  - intros e s He (t & Ht & Ha). exists t. cbn.
    rewrite List.filter_app. cbn. rewrite He, app_nil_r. auto.
  - intros a s (t & Ht & Ha). unfold set_accounts. step_m. cbn.
    exists (t ++ [SetAccounts a]).
    split; [|intros Hnil; destruct t; discriminate Hnil].
    destruct (impl s); cbn; rewrite ?List.filter_app; cbn;
      rewrite ?app_nil_r, Ht, <- ?app_assoc; reflexivity.
Qed.

Ltac accounts_since_tac k a0 :=
  destruct (accounts_since_preserved k a0) as (Hfr & Hlg & Hset);
  first [ intros; reflexivity
        | (intros s1 s2 Ht Ha _ _ _ _ Hs1; apply (Hfr s1 s2 Ht Ha Hs1))
        | (intros e s1 He Hs1; apply (Hlg e s1 He Hs1))
        | exact Hset
        | (intros v s1 Hs1; exact Hs1)
        | (intros l s1 Hs1; exact Hs1)
        | assumption ].

Lemma await_accounts_since (k : list effect) (a0 : jsval) (call : effect) (w : awaited) (s : state) :
  is_set_accounts call = false ->
  accounts_since k a0 s -> accounts_since k a0 (final (await call w s)).
Proof.
  intros Hcall Hs.
  apply (preserves_await (accounts_since k a0) (fun e => is_set_accounts e = false));
    accounts_since_tac k a0.
Qed.

Lemma run_all_accounts_since (k : list effect) (a0 : jsval) (ops : list operation) (s : state) :
  accounts_since k a0 s -> accounts_since k a0 (run_all ops s).
Proof.
  intros Hs.
  apply (preserves_run_all (accounts_since k a0) (fun e => is_set_accounts e = false));
    accounts_since_tac k a0.
Qed.

Lemma run_all_impl (ops : list operation) (s : state) : impl (run_all ops s) = impl s.
Proof.
  apply (preserves_run_all (fun s' => impl s' = impl s) (fun _ => True));
    first [ intros; exact Logic.I
          | (intros s1 s2 _ _ _ _ Hi _ Hs1; congruence)
          | (intros e s1 _ Hs1; exact Hs1)
          | (intros a s1 Hs1; rewrite set_accounts_impl; exact Hs1)
          | (intros v s1 Hs1; exact Hs1)
          | (intros l s1 Hs1; exact Hs1)
          | reflexivity ].
Qed.

Lemma constructor_fields i hs store queue :
  impl (final (constructor i hs store queue)) = i
  /\ p_accounts (final (constructor i hs store queue)) = JArr []
  /\ accounts_assignments (final (constructor i hs store queue)) = [].
Proof.
  unfold constructor, attemptSessionRecovery, addEventListener, core_on, request_,
    accounts_assignments.
  step_m. cbn.
  destruct (match queue with Some l => some_sessionChanged l | None => inr false end)
    as [e|[|]]; repeat split; reflexivity.
Qed.

(** [connect] with a chain id that is a safe non-negative integer, on the
    in-memory provider, when [core.connect] resolves. *)
Lemma connect_in_memory (z : Z) (account : jsval) (w : awaited) (v : jsval) (s : state) :
  impl s = InMemory -> (0 <= z <= MAX_SAFE_INTEGER)%Z -> settles w = Resolves v ->
  forall s1,
  s1 = final (await (CoreConnect (caipChainId (JNum (Num z)))
                                 (caipAccountId (JNum (Num z)) account)) w s) ->
  exists s2,
    connect (Some (JNum (Num z), account)) w s =
      Ok (JObj [("accounts", p_accounts s2); ("chainId", JNum (Num z))]) s2
    /\ p_accounts s2 = p_accounts s1
    /\ accounts_assignments s2 = accounts_assignments s1.
Proof.
  intros Hi Hz Hv s1 Hs1. unfold connect.
  unfold mbind at 1, M_bind at 1, bind at 1.
  rewrite (await_resolves _ w v s Hv). rewrite <- Hs1.
  assert (Hi1 : impl s1 = InMemory) by (rewrite Hs1, await_impl; exact Hi).
  clear Hs1.
  unfold mbind at 1, M_bind at 1, bind at 1, lift at 1.
  rewrite (numberToHex_safe z Hz).
  set (h := HexString.of_N (Z.to_N z)).
  unfold mbind at 1, M_bind at 1, bind at 1.
  rewrite (set_selectedChainId_string h s1 (of_N_nonempty _)), Hi1.
  unfold mbind at 1 2, M_bind at 1 2, bind at 1 2, modify at 1, gets at 1.
  match goal with
  | |- context [onConnect (get_selectedChainId ?sB)] =>
      assert (Hg : get_selectedChainId sB = JStr h)
        by (unfold get_selectedChainId; cbn; rewrite Hi1; reflexivity);
      rewrite Hg
  end.
  unfold mbind at 1, M_bind at 1, bind at 1.
  match goal with
  | |- context [onConnect (JStr h) ?sB] =>
      destruct (onConnect_in_memory h sB) as (sC & HC & HiC & HaC & HpC & HkC);
        [exact Hi1 | apply isHex_of_N |]; rewrite HC
  end.
  step_m. unfold get_accounts, get_selectedChainId. rewrite HiC, HpC.
  rewrite (hexToNumber_numberToHex z h (numberToHex_safe z Hz)).
  exists sC. split; [reflexivity|].
  rewrite HaC, HkC. split; [reflexivity|].
  unfold accounts_assignments. cbn. rewrite List.filter_app. cbn. apply app_nil_r.
Qed.

(** C10.  On the in-memory provider, [connect] with a chain id [z] (a safe
    non-negative integer) whose [core.connect] resolves, with whatever
    value, returns the chain id [z] and, as [accounts], the provider's
    cached accounts, which are the ones cached when the call resumed; the
    value that [core.connect] resolved with does not occur in the result.
    In particular, on a constructed adapter, whatever was done with it
    before, if no assignment to the cached accounts has been made by the
    time [connect] returns, the returned accounts are the empty array. *)
Theorem connect_returns_cached_accounts :
  (forall s z account w v,
     impl s = InMemory -> (0 <= z <= MAX_SAFE_INTEGER)%Z -> settles w = Resolves v ->
     exists s2,
       connect (Some (JNum (Num z), account)) w s =
         Ok (JObj [("accounts", p_accounts s2); ("chainId", JNum (Num z))]) s2
       /\ p_accounts s2 =
            p_accounts (final (await (CoreConnect (caipChainId (JNum (Num z)))
                                                  (caipAccountId (JNum (Num z)) account)) w s)))
  /\ (forall hs store queue s0 ops z account w v,
      constructor InMemory hs store queue = Ok tt s0 ->
      (0 <= z <= MAX_SAFE_INTEGER)%Z -> settles w = Resolves v ->
      exists s2,
        connect (Some (JNum (Num z), account)) w (run_all ops s0) =
          Ok (JObj [("accounts", p_accounts s2); ("chainId", JNum (Num z))]) s2
        /\ (accounts_assignments s2 = [] -> p_accounts s2 = JArr []))
  /\ (forall w s, connect None w s = connect (Some (JNum (Num 1), JUndefined)) w s).
Proof.
  split; [|split].
  - intros s z account w v Hi Hz Hv.
    destruct (connect_in_memory z account w v s Hi Hz Hv _ eq_refl) as (s2 & Hrun & Ha & _).
    exists s2. split; assumption.
  - intros hs store queue s0 ops z account w v Hs0 Hz Hv.
    destruct (constructor_fields InMemory hs store queue) as (Hi0 & Ha0 & Hk0).
    rewrite Hs0 in Hi0, Ha0, Hk0. cbn [final] in Hi0, Ha0, Hk0.
    assert (Hi : impl (run_all ops s0) = InMemory) by (rewrite run_all_impl; exact Hi0).
    destruct (connect_in_memory z account w v (run_all ops s0) Hi Hz Hv _ eq_refl)
      as (s2 & Hrun & Ha & Hk).
    exists s2. split; [exact Hrun|]. intros Hnone.
    assert (Hsince : accounts_since [] (JArr [])
                       (final (await (CoreConnect (caipChainId (JNum (Num z)))
                                        (caipAccountId (JNum (Num z)) account)) w (run_all ops s0)))).
    { apply await_accounts_since; [reflexivity|].
      apply run_all_accounts_since. exists []. split; [exact Hk0 | intros _; exact Ha0]. }
    destruct Hsince as (t & Ht & Hsame).
    rewrite Ha. apply Hsame. rewrite <- Hk, Hnone in Ht. cbn in Ht. congruence.
  - reflexivity.
Qed.

End ConnectResult.

(* ================================================================== *)
(** ** Session recovery *)
(* ================================================================== *)

Section Recovery.

Context `{Externals}.

Lemma emissions_log (k : list effect) (l : list window_listener) (e : effect) (s : state) :
  is_accounts_emission e = false ->
  emissions_and_listeners k l s ->
  emissions_and_listeners k l (with_trace (trace s ++ [e]) s).
Proof.
  unfold emissions_and_listeners, accounts_emissions. intros He [Hk Hl]. cbn.
  rewrite List.filter_app. cbn. rewrite He, app_nil_r. auto.
Qed.

Lemma emissions_frame (k : list effect) (l : list window_listener) (s s' : state) :
  trace s' = trace s -> window_listeners s' = window_listeners s ->
  emissions_and_listeners k l s -> emissions_and_listeners k l s'.
Proof. unfold emissions_and_listeners, accounts_emissions. intros -> ->. trivial. Qed.

Ltac emissions_tac :=
  first [ intros; reflexivity
        | (intros s1 s2 Ht _ Hw _ _ _ Hs1; apply (emissions_frame _ _ s1 s2 Ht Hw Hs1))
        | (intros e s1 He Hs1; apply (emissions_log _ _ e s1 He Hs1))
        | (intros v s1 Hs1; exact Hs1)
        | assumption ].

(** The main handler emits no [accountsChanged] for a message that is not
    an accounts notification, and leaves the listeners alone. *)
Lemma metamaskProviderHandler_other (event : MessageEvent)
    (k : list effect) (l : list window_listener) :
  notifies_accounts event = false ->
  preserves (emissions_and_listeners k l) (metamaskProviderHandler event).
Proof.
  intros Hn.
  unfold metamaskProviderHandler. unfold notifies_accounts in Hn.
  destruct (isMetamaskProviderEvent event); cbn [when]; [|apply preserves_ret].
  cbn in Hn. rewrite Hn. cbn [when].
  pres.
  - apply (preserves_onChainChanged _ (fun e => is_accounts_emission e = false)); emissions_tac.
  - apply (preserves_addEthereumChain _ (fun e => is_accounts_emission e = false)); emissions_tac.
Qed.

Lemma onAccountsChanged_emission (a : jsval) (s : state) :
  exists s', onAccountsChanged a s = Ok tt s'
    /\ accounts_emissions s' = accounts_emissions s ++ [Emit (accountsChanged_event a)]
    /\ window_listeners s' = window_listeners s.
Proof.
  destruct (appends_onAccountsChanged a s) as (s' & Hrun & Htr & _ & _ & Hwl).
  exists s'. split; [exact Hrun|]. split; [|exact Hwl].
  unfold accounts_emissions. rewrite Htr, !List.filter_app.
  unfold accounts_write, callback_trace.
  destruct (impl s); (destruct (eventHandlers s) as [hs|]; [destruct (on_accountsChanged hs)|]);
    cbn; rewrite ?app_nil_r; reflexivity.
Qed.

(** The one-shot listener on a message with a valid result ... *)
Lemma recoverSession_valid (event : MessageEvent) (r : jsval) (s : state) :
  valid_accounts_result event = Some r ->
  exists s', recoverSession event s = Ok tt s'
    /\ accounts_emissions s' = accounts_emissions s ++ [Emit (accountsChanged_event r)]
    /\ window_listeners s' = remove window_listener_eq_dec RecoverSession (window_listeners s).
Proof.
  unfold valid_accounts_result, recoverSession.
  destruct (isMetamaskProviderEvent event); [|discriminate]. cbn [when].
  unfold prop. destruct (payload event) as [| |b|n|str|l|fields|p]; try discriminate.
  cbn [nullish opt_prop].
  destruct (assoc "result" fields) as [| |b|n|str|items|fs|p]; try discriminate.
  destruct (forallb isHexAddress items) eqn:Hv; [|discriminate]. intros [= <-].
  unfold mbind at 1, M_bind at 1, bind at 1, lift. rewrite Hv. cbn [when].
  destruct (onAccountsChanged_emission (JArr items) s) as (s1 & Hrun & Hem & Hwl).
  unfold removeEventListener, mbind, M_bind, bind, modify. rewrite Hrun.
  eexists. split; [reflexivity|]. cbn. rewrite Hwl. auto.
Qed.

(** ... and on any other message. *)
Lemma recoverSession_other (event : MessageEvent) (s : state) :
  valid_accounts_result event = None ->
  accounts_emissions (final (recoverSession event s)) = accounts_emissions s
  /\ window_listeners (final (recoverSession event s)) = window_listeners s.
Proof.
  unfold valid_accounts_result, recoverSession.
  destruct (isMetamaskProviderEvent event); cbn [when]; [|auto].
  unfold prop. destruct (payload event) as [| |b|n|str|l|fields|p]; cbn [nullish opt_prop];
    try (intros _; split; reflexivity).
  destruct (assoc "result" fields) as [| |b|n|str|items|fs|p];
    try (intros _; split; reflexivity).
  destruct (forallb isHexAddress items) eqn:Hv; [discriminate|].
  intros _. unfold mbind, M_bind, bind, lift. rewrite Hv. split; reflexivity.
Qed.

(** The main handler on a [metamask_accountsChanged] notification. *)
Lemma metamaskProviderHandler_notifies (event : MessageEvent) (s : state) :
  notifies_accounts event = true ->
  accounts_emissions (final (metamaskProviderHandler event s)) =
    accounts_emissions s ++ [Emit (accountsChanged_event (opt_prop (payload event) "params"))]
  /\ window_listeners (final (metamaskProviderHandler event s)) = window_listeners s.
Proof.
  unfold notifies_accounts. intros Hn. apply andb_true_iff in Hn as [Hev Hm].
  assert (Hc : strict_eq_str (opt_prop (payload event) "method") "metamask_chainChanged" = false).
  { unfold strict_eq_str in *. destruct (opt_prop (payload event) "method"); try reflexivity.
    apply String.eqb_eq in Hm. subst. reflexivity. }
  destruct (onAccountsChanged_emission (opt_prop (payload event) "params") s)
    as (sa & Hrun & Hem & Hwl).
  set (rest := (ret tt ;;
                when (strict_eq_int (opt_prop (opt_prop (payload event) "error") "code") 4902)
                     (addEthereumChain JUndefined)) : M unit).
  assert (Hf : metamaskProviderHandler event s = rest sa).
  { unfold metamaskProviderHandler. rewrite Hev, Hm, Hc. cbn [when].
    unfold mbind at 1, M_bind at 1, bind at 1. rewrite Hrun. reflexivity. }
  assert (Hrest : emissions_and_listeners (accounts_emissions sa) (window_listeners sa)
                    (final (rest sa))).
  { apply (fun Hadd => preserves_bind (emissions_and_listeners (accounts_emissions sa)
                                         (window_listeners sa))
                         (ret tt) _ (preserves_ret _ tt) Hadd sa); [|split; reflexivity].
    intros _. apply preserves_when.
    apply (preserves_addEthereumChain _ (fun e => is_accounts_emission e = false)); emissions_tac. }
  destruct Hrest as [Hem2 Hwl2]. rewrite Hf, Hem2, Hwl2, Hem, Hwl. split; reflexivity.
Qed.

(** What the main handler adds to the emitted [accountsChanged] events. *)
Lemma metamaskProviderHandler_emissions (event : MessageEvent) (s : state) :
  accounts_emissions (final (metamaskProviderHandler event s)) =
    accounts_emissions s ++ notified_accounts event
  /\ window_listeners (final (metamaskProviderHandler event s)) = window_listeners s.
Proof.
  unfold notified_accounts. destruct (notifies_accounts event) eqn:Hn.
  - apply metamaskProviderHandler_notifies, Hn.
  - rewrite app_nil_r.
    apply (metamaskProviderHandler_other event (accounts_emissions s) (window_listeners s) Hn s).
    split; reflexivity.
Qed.

Lemma deliver_one_listener (event : MessageEvent) (s : state) :
  window_listeners s = [MetamaskProviderHandler] ->
  final (deliver (WindowMessage event) s) = final (metamaskProviderHandler event s).
Proof.
  intros Hw. unfold deliver. step_m. cbn [final]. rewrite Hw. cbn [dispatch_window].
  step_m. rewrite Hw. rewrite (listener_present MetamaskProviderHandler) by set_solver.
  reflexivity.
Qed.

Lemma deliver_two_listeners (event : MessageEvent) (s : state) :
  window_listeners s = [MetamaskProviderHandler; RecoverSession] ->
  window_listeners (final (metamaskProviderHandler event s)) =
    [MetamaskProviderHandler; RecoverSession] ->
  final (deliver (WindowMessage event) s) =
    final (recoverSession event (final (metamaskProviderHandler event s))).
Proof.
  intros Hw Hw1. unfold deliver. step_m. cbn [final]. rewrite Hw. cbn [dispatch_window].
  step_m. rewrite Hw. rewrite (listener_present MetamaskProviderHandler) by set_solver.
  cbn [window_listener_body]. unfold run_listener. rewrite Hw1.
  rewrite (listener_present RecoverSession) by set_solver. reflexivity.
Qed.

(** One message, while the one-shot listener is installed. *)
Lemma deliver_armed (event : MessageEvent) (s : state) :
  window_listeners s = [MetamaskProviderHandler; RecoverSession] ->
  match valid_accounts_result event with
  | Some r =>
      accounts_emissions (final (deliver (WindowMessage event) s)) =
        accounts_emissions s ++ notified_accounts event ++ [Emit (accountsChanged_event r)]
      /\ window_listeners (final (deliver (WindowMessage event) s)) = [MetamaskProviderHandler]
  | None =>
      accounts_emissions (final (deliver (WindowMessage event) s)) =
        accounts_emissions s ++ notified_accounts event
      /\ window_listeners (final (deliver (WindowMessage event) s)) =
           [MetamaskProviderHandler; RecoverSession]
  end.
Proof.
  intros Hw.
  destruct (metamaskProviderHandler_emissions event s) as [Hem1 Hwl1].
  rewrite (deliver_two_listeners event s Hw) by (rewrite Hwl1; exact Hw).
  remember (final (metamaskProviderHandler event s)) as s1 eqn:Es1.
  destruct (valid_accounts_result event) as [r|] eqn:Hr.
  - destruct (recoverSession_valid event r s1 Hr) as (s2 & Hrun & Hem2 & Hwl2).
    rewrite Hrun. cbn [final]. rewrite Hem2, Hem1, Hwl2, Hwl1, Hw, <- app_assoc.
    split; reflexivity.
  - destruct (recoverSession_other event s1 Hr) as [Hem2 Hwl2].
    rewrite Hem2, Hem1, Hwl2, Hwl1, Hw. split; reflexivity.
Qed.

(** One message, once the one-shot listener has removed itself. *)
Lemma deliver_disarmed (event : MessageEvent) (s : state) :
  window_listeners s = [MetamaskProviderHandler] ->
  accounts_emissions (final (deliver (WindowMessage event) s)) =
    accounts_emissions s ++ notified_accounts event
  /\ window_listeners (final (deliver (WindowMessage event) s)) = [MetamaskProviderHandler].
Proof.
  intros Hw.
  destruct (metamaskProviderHandler_emissions event s) as [Hem1 Hwl1].
  rewrite (deliver_one_listener event s Hw).
  rewrite Hem1, Hwl1, Hw. split; reflexivity.
Qed.

Lemma deliver_all_cons (i : inbound) (rest : list inbound) (s : state) :
  final (deliver_all (i :: rest) s) = final (deliver_all rest (final (deliver i s))).
Proof.
  cbn [deliver_all]. step_m. destruct (deliver_returns i s) as [s1 ->]. reflexivity.
Qed.

Lemma stream_disarmed (events : list MessageEvent) (s : state) :
  window_listeners s = [MetamaskProviderHandler] ->
  accounts_emissions (final (deliver_all (map WindowMessage events) s)) =
    accounts_emissions s ++ expected_emissions false events
  /\ window_listeners (final (deliver_all (map WindowMessage events) s)) = [MetamaskProviderHandler].
Proof.
  revert s. induction events as [|e events IH]; intros s Hw.
  - cbn. rewrite app_nil_r. split; [reflexivity | exact Hw].
  - cbn [map expected_emissions]. rewrite deliver_all_cons.
    destruct (deliver_disarmed e s Hw) as [Hem Hwl].
    destruct (IH _ Hwl) as [Hem' Hwl']. rewrite Hem', Hem, <- app_assoc. auto.
Qed.

Lemma stream_armed (events : list MessageEvent) (s : state) :
  window_listeners s = [MetamaskProviderHandler; RecoverSession] ->
  accounts_emissions (final (deliver_all (map WindowMessage events) s)) =
    accounts_emissions s ++ expected_emissions true events
  /\ window_listeners (final (deliver_all (map WindowMessage events) s)) =
       match first_valid_result events with
       | Some _ => [MetamaskProviderHandler]
       | None => [MetamaskProviderHandler; RecoverSession]
       end.
Proof.
  revert s. induction events as [|e events IH]; intros s Hw.
  - cbn. rewrite app_nil_r. split; [reflexivity | exact Hw].
  - cbn [map expected_emissions first_valid_result]. rewrite deliver_all_cons.
    pose proof (deliver_armed e s Hw) as Hd.
    destruct (valid_accounts_result e) as [r|].
    + destruct Hd as [Hem Hwl].
      destruct (stream_disarmed events _ Hwl) as [Hem' Hwl'].
      rewrite Hem', Hem, <- !app_assoc. auto.
    + destruct Hd as [Hem Hwl]. destruct (IH _ Hwl) as [Hem' Hwl'].
      rewrite Hem', Hem, <- app_assoc. auto.
Qed.

(** Without notifications in the stream, the expected events are the one of
    the first valid result. *)
Lemma expected_emissions_results (events : list MessageEvent) :
  Forall (fun e => notifies_accounts e = false) events ->
  expected_emissions false events = []
  /\ expected_emissions true events =
       match first_valid_result events with
       | Some r => [Emit (accountsChanged_event r)]
       | None => []
       end.
Proof.
  induction 1 as [|e events He Hall [IHf IHt]]; [split; reflexivity|].
  cbn [expected_emissions first_valid_result]. unfold notified_accounts. rewrite He.
  cbn [app]. split; [exact IHf|].
  destruct (valid_accounts_result e); [rewrite IHf; reflexivity | exact IHt].
Qed.

Lemma some_sessionChanged_found (before after : list jsval) (record : jsval) :
  Forall (fun n => nullish n = false) before ->
  is_sessionChanged_record record = true ->
  some_sessionChanged (before ++ record :: after) = inr true.
Proof.
  intros Hall Hrec. induction Hall as [|n rest Hn Hrest IH]; cbn [app some_sessionChanged].
  - unfold is_sessionChanged_record in Hrec. unfold prop.
    destruct record as [| |b|m|str|l|f|p]; try discriminate Hrec.
    cbn [nullish]. rewrite Hrec. reflexivity.
  - unfold prop. rewrite Hn.
    destruct (strict_eq_str (opt_prop n "method") "wallet_sessionChanged"); [reflexivity|].
    exact IH.
Qed.

(** C9.  When the notification queue handed to the constructor holds a
    [wallet_sessionChanged] record (no entry before it being [null] or
    [undefined]), the constructor sends the [eth_accounts] probe and leaves
    the one-shot listener installed after the main handler.  Then, for every stream of
    window messages, the [accountsChanged] events emitted are the ones of the
    [metamask_accountsChanged] notifications in the stream and, exactly once,
    the one for the first result that is an array of syntactically valid
    addresses, upon which the listener is removed; a result with an invalid
    entry causes none.  In a stream without such notifications,
    [accountsChanged] is thus emitted exactly once, with the first valid
    result, or not at all when there is none. *)
Theorem session_recovery (i : provider_impl) (hs : option EventHandlers)
    (store : gmap string jsval) (before after : list jsval) (record : jsval) :
  Forall (fun n => nullish n = false) before ->
  is_sessionChanged_record record = true ->
  exists s0,
    constructor i hs store (Some (before ++ record :: after)) = Ok tt s0
    /\ trace s0 = [SendEip1193Message "eth_accounts" []]
    /\ window_listeners s0 = [MetamaskProviderHandler; RecoverSession]
    /\ forall events,
         let s' := final (deliver_all (map WindowMessage events) s0) in
         accounts_emissions s' = expected_emissions true events
         /\ window_listeners s' =
              match first_valid_result events with
              | Some _ => [MetamaskProviderHandler]
              | None => [MetamaskProviderHandler; RecoverSession]
              end
         /\ (Forall (fun e => notifies_accounts e = false) events ->
             accounts_emissions s' =
               match first_valid_result events with
               | Some r => [Emit (accountsChanged_event r)]
               | None => []
               end).
Proof.
  intros Hall Hrec.
  assert (Hc : exists s0, constructor i hs store (Some (before ++ record :: after)) = Ok tt s0
                 /\ trace s0 = [SendEip1193Message "eth_accounts" []]
                 /\ window_listeners s0 = [MetamaskProviderHandler; RecoverSession]).
  { unfold constructor, attemptSessionRecovery, addEventListener, core_on, request_.
    step_m. rewrite (some_sessionChanged_found before after record Hall Hrec).
    eexists. split; [reflexivity|]. split; reflexivity. }
  destruct Hc as (s0 & Hrun & Htr & Hwl). exists s0.
  split; [exact Hrun|]. split; [exact Htr|]. split; [exact Hwl|].
  intros events. cbv zeta.
  destruct (stream_armed events s0 Hwl) as [Hem Hw'].
  assert (Hem0 : accounts_emissions s0 = []) by (unfold accounts_emissions; rewrite Htr; reflexivity).
  rewrite Hem0 in Hem. cbn [app] in Hem.
  split; [exact Hem|]. split; [exact Hw'|].
  intros Hno. rewrite Hem. apply expected_emissions_results, Hno.
Qed.

End Recovery.

(* ================================================================== *)
(** ** Equality of states, field by field *)
(* ================================================================== *)

Lemma state_ext (s s' : state) :
  impl s = impl s' -> p_accounts s = p_accounts s' ->
  p_selectedChainId s = p_selectedChainId s' -> sessionScopes s = sessionScopes s' ->
  latestChainConfiguration s = latestChainConfiguration s' ->
  eventHandlers s = eventHandlers s' -> storage s = storage s' ->
  window_listeners s = window_listeners s' -> session_listeners s = session_listeners s' ->
  notification_callbacks s = notification_callbacks s' -> trace s = trace s' ->
  s = s'.
Proof. destruct s, s'. cbn. intros. subst. reflexivity. Qed.

(** Two outcomes with the same result are equal when the states agree
    field by field. *)
Ltac fields :=
  cbn [impl p_accounts p_selectedChainId sessionScopes latestChainConfiguration eventHandlers
       storage window_listeners session_listeners notification_callbacks trace
       with_accounts with_selectedChainId with_sessionScopes with_latestChainConfiguration
       with_storage with_window_listeners with_session_listeners with_notification_callbacks
       with_trace].

Ltac same_state :=
  match goal with
  | |- Ok _ _ = Ok _ _ => f_equal
  | |- Throw _ _ = Throw _ _ => f_equal
  | |- _ => idtac
  end;
  apply state_ext; fields; rewrite <- ?app_assoc; try reflexivity.

(* ================================================================== *)
(** ** The handlers, computed *)
(* ================================================================== *)

Section Computed.

Context `{Externals}.

Lemma strict_eq_str_true (v : jsval) (lit : string) :
  strict_eq_str v lit = true <-> v = JStr lit.
Proof.
  destruct v; cbn; try (split; [discriminate | intros [=]]).
  rewrite String.eqb_eq. split; [intros ->; reflexivity | intros [= ->]; reflexivity].
Qed.

Lemma isHex_nonempty (h : string) : isHex (JStr h) = true -> String.eqb h "" = false.
Proof. destruct h; [discriminate | reflexivity]. Qed.

Lemma to_hexChainId_isHex (c : jsval) (h : string) :
  to_hexChainId c = inr h -> isHex (JStr h) = true.
Proof.
  unfold to_hexChainId. destruct c as [| |b|[|z|neg|m e]|s0|l|f|p]; try discriminate;
    try (cbn; destruct neg; discriminate); try (cbn; destruct (m <? 0)%Z; discriminate).
  - cbn. destruct (z <? 0)%Z; [discriminate|].
    destruct (_ && _); [|discriminate]. intros [= <-]. apply isHex_of_N.
  - destruct (isHex (JStr s0)) eqn:Hx; [|discriminate]. intros [= <-]. exact Hx.
Qed.

Lemma numberToHex_inr (v : jsval) (h : string) :
  numberToHex v = inr h ->
  exists z, v = JNum (Num z) /\ (0 <= z <= MAX_SAFE_INTEGER)%Z /\ h = HexString.of_N (Z.to_N z).
Proof.
  unfold numberToHex. destruct v as [| |b|[|z|neg|m e]|s0|l|f|p]; try discriminate;
    try (cbn; destruct neg; discriminate); try (cbn; destruct (m <? 0)%Z; discriminate).
  destruct (z <? 0)%Z eqn:Hneg; [discriminate|].
  destruct (isSafeInteger (Num z)) eqn:Hsafe; [|discriminate].
  intros [= <-]. exists z. apply Z.ltb_ge in Hneg.
  cbn in Hsafe. apply andb_true_iff in Hsafe as [_ Hmax]. apply Z.leb_le in Hmax.
  repeat split; auto.
Qed.

Lemma to_hexChainId_of_hex (v : jsval) (h : string) :
  numberToHex v = inr h -> to_hexChainId (JStr h) = inr h.
Proof.
  intros Hv. destruct (numberToHex_inr v h Hv) as (z & _ & _ & ->).
  unfold to_hexChainId. rewrite isHex_of_N. reflexivity.
Qed.

(** The accounts handler never fails: the state it leaves. *)
Lemma onAccountsChanged_computed (a : jsval) (s : state) :
  onAccountsChanged a s =
    Ok tt (with_trace
             (trace s ++ accounts_write (impl s) a
                ++ [Emit (accountsChanged_event a)]
                ++ callback_trace (eventHandlers s) on_accountsChanged (accountsChanged_event a))
             (with_accounts a
                (match impl s with
                 | InMemory => s
                 | StorageBacked => with_storage (<["accounts" := a]> (storage s)) s
                 end))).
Proof.
  unfold onAccountsChanged, set_accounts, callback, accounts_write, callback_trace. step_m.
  fields.
  destruct (impl s) eqn:Ei; cbv beta iota; fields;
    (destruct (eventHandlers s) as [hs|] eqn:Eh; [destruct (on_accountsChanged hs) eqn:Eo|]);
    cbv beta iota; fields; same_state.
Qed.

(** The chain handler on a hexadecimal string. *)
Lemma onChainChanged_string (h : string) (s : state) :
  isHex (JStr h) = true ->
  onChainChanged (JStr h) s =
    Ok tt (with_trace
             (trace s ++ chain_write (impl s) (JStr h) h
                ++ callback_trace (eventHandlers s) on_chainChanged (chainChanged_event h)
                ++ [Emit (chainChanged_event h)])
             (with_selectedChainId (JStr h)
                (match impl s with
                 | InMemory => s
                 | StorageBacked => with_storage (<["selectedChainId" := JStr h]> (storage s)) s
                 end))).
Proof.
  intros Hx. pose proof (isHex_nonempty h Hx) as Hne.
  unfold onChainChanged, to_hexChainId. rewrite Hx.
  unfold mbind at 1 2, M_bind at 1 2, bind at 1 2, lift.
  assert (Hh : h <> "") by (apply String.eqb_neq, Hne).
  rewrite (set_selectedChainId_string h s Hh).
  unfold callback, chain_write, callback_trace. step_m. cbn [truthy]. rewrite Hne. cbn [negb].
  destruct (impl s) eqn:Ei; cbv beta iota; fields;
    (destruct (eventHandlers s) as [hs|] eqn:Eh; [destruct (on_chainChanged hs) eqn:Eo|]);
    cbv beta iota; fields; same_state.
Qed.

(** The chain handler on a positive safe integer. *)
Lemma onChainChanged_number (n : Z) (s : state) :
  (0 < n <= MAX_SAFE_INTEGER)%Z ->
  let h := HexString.of_N (Z.to_N n) in
  onChainChanged (JNum (Num n)) s =
    Ok tt (with_trace
             (trace s ++ chain_write (impl s) (JNum (Num n)) h
                ++ callback_trace (eventHandlers s) on_chainChanged (chainChanged_event h)
                ++ [Emit (chainChanged_event h)])
             (with_selectedChainId (JStr h)
                (match impl s with
                 | InMemory => s
                 | StorageBacked => with_storage (<["selectedChainId" := JStr h]> (storage s)) s
                 end))).
Proof.
  intros Hn h. unfold onChainChanged. unfold to_hexChainId.
  rewrite (numberToHex_safe n) by lia. fold h.
  unfold mbind at 1 2, M_bind at 1 2, bind at 1 2, lift.
  rewrite (set_selectedChainId_number n s Hn). fold h.
  assert (Ht : truthy (JNum (Num n)) = true)
    by (cbn; apply negb_true_iff, Z.eqb_neq; lia).
  unfold chain_write. rewrite Ht.
  unfold callback, callback_trace. step_m.
  destruct (impl s) eqn:Ei; cbv beta iota; fields;
    (destruct (eventHandlers s) as [hs|] eqn:Eh; [destruct (on_chainChanged hs) eqn:Eo|]);
    cbv beta iota; fields; same_state.
Qed.

(** The chain handler on [0]: the setter ignores the falsy id, the event is
    emitted all the same. *)
Lemma onChainChanged_zero (s : state) :
  onChainChanged (JNum (Num 0)) s =
    Ok tt (with_trace
             (trace s ++ [SetSelectedChainId (JNum (Num 0))]
                ++ callback_trace (eventHandlers s) on_chainChanged (chainChanged_event "0x0")
                ++ [Emit (chainChanged_event "0x0")])
             s).
Proof.
  unfold onChainChanged.
  change (to_hexChainId (JNum (Num 0))) with (@inr js_error string "0x0").
  unfold mbind at 1 2, M_bind at 1 2, bind at 1 2, lift.
  rewrite (set_selectedChainId_falsy (JNum (Num 0)) s eq_refl).
  unfold callback, callback_trace. step_m. fields.
  destruct (eventHandlers s) as [hs|] eqn:Eh; [destruct (on_chainChanged hs) eqn:Eo|];
    cbv beta iota; fields; same_state.
Qed.

Lemma onConnect_string (h : string) (s : state) :
  isHex (JStr h) = true ->
  onConnect (JStr h) s =
    Ok tt (with_trace
             (trace s ++ [Emit (connect_event h)]
                ++ callback_trace (eventHandlers s) on_connect (connect_event h)
                ++ chain_write (impl s) (JStr h) h
                ++ callback_trace (eventHandlers s) on_chainChanged (chainChanged_event h)
                ++ [Emit (chainChanged_event h)])
             (with_selectedChainId (JStr h)
                (match impl s with
                 | InMemory => s
                 | StorageBacked => with_storage (<["selectedChainId" := JStr h]> (storage s)) s
                 end))).
Proof.
  intros Hx. unfold onConnect. unfold to_hexChainId at 1. rewrite Hx.
  unfold callback, callback_trace at 1. step_m.
  cbv beta iota. fields.
  destruct (eventHandlers s) as [hs|] eqn:Eh; [destruct (on_connect hs) eqn:Eo|];
    cbv beta iota; fields;
    rewrite (onChainChanged_string h _ Hx); fields; rewrite ?Eh;
    (destruct (impl s) eqn:Ei); same_state.
Qed.

Lemma onDisconnect_computed (s : state) :
  onDisconnect s =
    Ok tt (with_trace
             (trace s ++ [Emit disconnect_event]
                ++ callback_trace (eventHandlers s) on_disconnect disconnect_event
                ++ accounts_write (impl s) (JArr [])
                ++ [Emit (accountsChanged_event (JArr []))]
                ++ callback_trace (eventHandlers s) on_accountsChanged
                     (accountsChanged_event (JArr [])))
             (with_accounts (JArr [])
                (match impl s with
                 | InMemory => s
                 | StorageBacked => with_storage (<["accounts" := JArr []]> (storage s)) s
                 end))).
Proof.
  unfold onDisconnect. unfold callback, callback_trace at 1. step_m.
  cbv beta iota. fields.
  destruct (eventHandlers s) as [hs|] eqn:Eh; [destruct (on_disconnect hs) eqn:Eo|];
    cbv beta iota; fields;
    rewrite onAccountsChanged_computed; fields; rewrite ?Eh;
    (destruct (impl s) eqn:Ei); same_state.
Qed.

Lemma clearConnectionState_computed (s : state) :
  clearConnectionState s =
    Ok tt (with_trace
             (trace s ++ accounts_write (impl s) (JArr []) ++ [SetSelectedChainId JUndefined])
             (with_accounts (JArr [])
                (match impl s with
                 | InMemory => s
                 | StorageBacked => with_storage (<["accounts" := JArr []]> (storage s)) s
                 end))).
Proof.
  unfold clearConnectionState, set_accounts, accounts_write. step_m.
  cbv beta iota. fields.
  destruct (impl s) eqn:Ei; cbv beta iota; cbn [when];
    rewrite (set_selectedChainId_falsy JUndefined) by reflexivity;
    same_state.
Qed.

Lemma await_rejects (call : effect) (w : awaited) (r : jsval) (s : state) :
  settles w = Rejects r ->
  await call w s = Throw (Rejection r) (final (await call w s)).
Proof.
  intros Hr. unfold await. step_m. cbn.
  destruct (deliver_all_returns (during w) (with_trace (trace s ++ [call]) s)) as [s1 ->].
  rewrite Hr. reflexivity.
Qed.

Lemma await_quiet (call : effect) (w : awaited) (s : state) :
  during w = [] -> final (await call w s) = with_trace (trace s ++ [call]) s.
Proof. intros Hd. rewrite await_final, Hd. reflexivity. Qed.

Lemma await_call (call : effect) (w : awaited) (s : state) :
  trace (final (await call w s)) !! length (trace s) = Some call.
Proof.
  destruct (await_trace call w s) as [t Ht]. rewrite Ht.
  rewrite lookup_app_r by lia.
  replace (length (trace s) - length (trace s)) with 0 by lia. reflexivity.
Qed.

End Computed.

(* ================================================================== *)
(** ** What arrives from outside *)
(* ================================================================== *)

Section Inbound.

Context `{Externals}.

Lemma isMetamaskProviderEvent_false (event : MessageEvent) :
  origin event <> location_origin
  \/ opt_prop (opt_prop (data event) "data") "name" <> JStr "metamask-provider" ->
  isMetamaskProviderEvent event = false.
Proof.
  intros Hf. unfold isMetamaskProviderEvent. apply andb_false_iff.
  destruct Hf as [Ho | Hn].
  - right. apply String.eqb_neq, Ho.
  - left. apply not_true_is_false. intros Ht. apply Hn, strict_eq_str_true, Ht.
Qed.

Lemma window_listener_body_foreign (l : window_listener) (event : MessageEvent) (s : state) :
  isMetamaskProviderEvent event = false -> window_listener_body l event s = Ok tt s.
Proof.
  intros Hev. destruct l; cbn [window_listener_body];
    unfold metamaskProviderHandler, recoverSession; rewrite Hev; reflexivity.
Qed.

Lemma dispatch_window_foreign (ls : list window_listener) (event : MessageEvent) (s : state) :
  isMetamaskProviderEvent event = false -> dispatch_window ls event s = Ok tt s.
Proof.
  intros Hev. induction ls as [|l ls IH]; cbn [dispatch_window]; [reflexivity|].
  step_m. cbn. destruct (bool_decide (l ∈ window_listeners s)); cbn.
  - unfold run_listener. rewrite (window_listener_body_foreign l event s Hev). exact IH.
  - exact IH.
Qed.

(** X1.  Window messages that come from another origin than the page's, or
    whose [data.data.name] is not "metamask-provider", change nothing:
    whichever listeners are installed, the adapter is in the same state
    after any stream of such messages, its trace included. *)
Theorem foreign_messages_ignored (events : list MessageEvent) (s : state) :
  Forall (fun event =>
            origin event <> location_origin
            \/ opt_prop (opt_prop (data event) "data") "name" <> JStr "metamask-provider")
         events ->
  deliver_all (map WindowMessage events) s = Ok tt s.
Proof.
  induction 1 as [|event events Hev _ IH]; [reflexivity|].
  cbn [map deliver_all deliver]. step_m. cbn [final].
  rewrite (dispatch_window_foreign _ event s (isMetamaskProviderEvent_false event Hev)).
  exact IH.
Qed.

(** X2.  A [metamask_accountsChanged] message from the wallet (one that does
    not also carry the error 4902): the handler returns; it assigns the
    [params] of the message to the provider's accounts as they are, whatever
    they are, without validating them, then emits [accountsChanged] with
    them and then calls the caller's handler; nothing else changes.  (With
    the storage-backed provider, the store is as stated for [params] that
    survive JSON.) *)
Theorem accountsChanged_notification (event : MessageEvent) (s : state) :
  isMetamaskProviderEvent event = true ->
  opt_prop (payload event) "method" = JStr "metamask_accountsChanged" ->
  strict_eq_int (opt_prop (opt_prop (payload event) "error") "code") 4902 = false ->
  let a := opt_prop (payload event) "params" in
  kept_by_store (impl s) a = true ->
  metamaskProviderHandler event s =
    Ok tt (with_trace
             (trace s ++ accounts_write (impl s) a
                ++ [Emit (accountsChanged_event a)]
                ++ callback_trace (eventHandlers s) on_accountsChanged (accountsChanged_event a))
             (with_accounts a
                (match impl s with
                 | InMemory => s
                 | StorageBacked => with_storage (<["accounts" := a]> (storage s)) s
                 end))).
Proof.
  intros Hev Hm He a _. unfold metamaskProviderHandler. rewrite Hev, Hm, He.
  cbn [when strict_eq_str String.eqb Ascii.eqb Bool.eqb].
  unfold mbind, M_bind, bind, mret, M_ret, ret. fold a.
  rewrite onAccountsChanged_computed. reflexivity.
Qed.

Lemma handler_chainChanged (event : MessageEvent) (v : jsval) (s : state) :
  isMetamaskProviderEvent event = true ->
  opt_prop (payload event) "method" = JStr "metamask_chainChanged" ->
  prop (opt_prop (payload event) "params") "chainId" = inr v ->
  strict_eq_int (opt_prop (opt_prop (payload event) "error") "code") 4902 = false ->
  metamaskProviderHandler event s = onChainChanged (JNum (Number v)) s.
Proof.
  intros Hev Hm Hp He. unfold metamaskProviderHandler. rewrite Hev, Hm, He, Hp.
  cbn [when strict_eq_str String.eqb Ascii.eqb Bool.eqb].
  unfold lift. unfold mbind, M_bind, bind, mret, M_ret, ret.
  destruct (onChainChanged (JNum (Number v)) s) as [[] s'|e s']; reflexivity.
Qed.

(** X3.  A [metamask_chainChanged] message from the wallet whose [params]
    carry the chain id [v].  When [Number(v)] is a positive safe integer
    [n], in whatever notation [v] wrote it ("137", "0x89", "1.37e2"), the
    selected chain becomes [numberToHex(n)], and the caller's handler and
    then the [chainChanged] event get that string.  When [Number(v)] is
    [0], the event is emitted with "0x0" but the selected chain stays as it
    was.  When [numberToHex] rejects [Number(v)] (it is [NaN], negative, a
    fraction, infinite or beyond the safe integers), the handler throws
    that error and nothing changes. *)
Theorem chainChanged_notification (event : MessageEvent) (v : jsval) (s : state) :
  isMetamaskProviderEvent event = true ->
  opt_prop (payload event) "method" = JStr "metamask_chainChanged" ->
  prop (opt_prop (payload event) "params") "chainId" = inr v ->
  strict_eq_int (opt_prop (opt_prop (payload event) "error") "code") 4902 = false ->
  (forall n, Number v = Num n -> (0 < n <= MAX_SAFE_INTEGER)%Z ->
     let h := HexString.of_N (Z.to_N n) in
     metamaskProviderHandler event s =
       Ok tt (with_trace
                (trace s ++ chain_write (impl s) (JNum (Num n)) h
                   ++ callback_trace (eventHandlers s) on_chainChanged (chainChanged_event h)
                   ++ [Emit (chainChanged_event h)])
                (with_selectedChainId (JStr h)
                   (match impl s with
                    | InMemory => s
                    | StorageBacked =>
                        with_storage (<["selectedChainId" := JStr h]> (storage s)) s
                    end))))
  /\ (Number v = Num 0 ->
      metamaskProviderHandler event s =
        Ok tt (with_trace
                 (trace s ++ [SetSelectedChainId (JNum (Num 0))]
                    ++ callback_trace (eventHandlers s) on_chainChanged (chainChanged_event "0x0")
                    ++ [Emit (chainChanged_event "0x0")])
                 s))
  /\ (forall e, numberToHex (JNum (Number v)) = inl e ->
      metamaskProviderHandler event s = Throw e s).
Proof.
  intros Hev Hm Hp He. rewrite (handler_chainChanged event v s Hev Hm Hp He).
  split; [|split].
  - intros n -> Hn. apply onChainChanged_number, Hn.
  - intros ->. apply onChainChanged_zero.
  - intros e Hf. unfold onChainChanged, to_hexChainId. step_m.
    destruct (Number v); rewrite Hf; reflexivity.
Qed.

(** X4.  The callback that [connect] registers on the transport and the
    window handler treat a notification alike: for a notification [n] that
    carries no error 4902 and, if it is a [metamask_chainChanged], has
    [params], the window handler on the wallet's message that wraps [n]
    and the transport callback on [n] give the same outcome from the same
    state. *)
Theorem notification_paths_agree (n : jsval) (s : state) :
  strict_eq_int (opt_prop (opt_prop n "error") "code") 4902 = false ->
  (opt_prop n "method" = JStr "metamask_chainChanged" -> nullish (opt_prop n "params") = false) ->
  metamaskProviderHandler (wallet_message location_origin n) s = notificationCallback n s.
Proof.
  intros He Hp. unfold metamaskProviderHandler, notificationCallback.
  rewrite isMetamaskProviderEvent_wallet_message. cbn [when].
  change (payload (wallet_message location_origin n)) with n. rewrite He. cbn [when].
  destruct (strict_eq_str (opt_prop n "method") "metamask_chainChanged") eqn:Hc.
  - apply strict_eq_str_true in Hc. specialize (Hp Hc). unfold prop. rewrite Hp.
    unfold mbind, M_bind, bind, mret, M_ret, ret, lift, when.
    destruct (strict_eq_str (opt_prop n "method") "metamask_accountsChanged");
      [destruct (onAccountsChanged (opt_prop n "params") s) as [[] s1|e s1]; [|reflexivity]|];
      unfold ret; cbv beta iota.
    all: match goal with
      | |- context [onChainChanged ?c ?st] =>
          destruct (onChainChanged c st) as [[] s2|e2 s2]; reflexivity
      end.
  - cbn [when]. unfold mbind, M_bind, bind, mret, M_ret, ret, when.
    destruct (strict_eq_str (opt_prop n "method") "metamask_accountsChanged");
      [destruct (onAccountsChanged (opt_prop n "params") s) as [[] s1|e s1]|];
      unfold ret; reflexivity.
Qed.

Lemma repeat_idempotent (n : nat) (f : state -> state) (s : state) :
  (forall s', f (f s') = f s') -> n <> 0 ->
  repeat_m n (run_listener (modify f)) s = Ok tt (f s).
Proof.
  intros Hf Hn. destruct n as [|n]; [contradiction|]. clear Hn.
  revert s. induction n as [|n IH]; intros s.
  - reflexivity.
  - change (repeat_m (S (S n)) (run_listener (modify f)) s)
      with (repeat_m (S n) (run_listener (modify f)) (f s)).
    rewrite IH, Hf. reflexivity.
Qed.

(** X5.  A [wallet_sessionChanged] event of the core, while a session
    listener is registered, replaces the session scopes by the
    [sessionScopes] of the session, or by the empty object when the session
    or its scopes are missing, and does nothing else: no account is
    assigned and no event is emitted. *)
Theorem sessionChanged_replaces_scopes (session : jsval) (s : state) :
  session_listeners s <> [] ->
  deliver (SessionChanged session) s =
    Ok tt (with_sessionScopes (coalesce (opt_prop session "sessionScopes") (JObj [])) s).
Proof.
  intros Hl. unfold deliver, sessionChangedHandler. step_m.
  apply (repeat_idempotent (length (session_listeners s))
           (with_sessionScopes (coalesce (opt_prop session "sessionScopes") (JObj [])))).
  - reflexivity.
  - destruct (session_listeners s); [contradiction | discriminate].
Qed.

(** X6.  Whatever arrives from outside (window messages, transport
    notifications, session changes), the adapter answers with no call of
    [core.connect], [core.disconnect] or [core.invokeMethod]. *)
Theorem inbound_events_make_no_core_calls (is_ : list inbound) (s : state) :
  core_calls (final (deliver_all is_ s)) = core_calls s.
Proof.
  apply (preserves_deliver_all (selected_are is_core_call (core_calls s))
           (fun e => is_core_call e = false));
    first [ intros; reflexivity | apply selected_frame | (intros e s'; apply selected_log)
          | (intros a; apply selected_set_accounts; reflexivity)
          | (intros l s' Hs'; exact Hs') ].
Qed.

(** X7.  What the getters return after the accounts handler ran with [a].
    With the in-memory provider, [accounts] is [a] and [selectedAccount] is
    [a[0]]: the first entry of an array, [undefined] for the empty array,
    and a [TypeError] when [a] is [undefined] or [null] (a notification
    without [params]).  With the storage-backed provider, for accounts that
    survive JSON and for [undefined] and [null], both getters return
    promises: of [a], and of its first entry, which is [undefined] where the
    in-memory getter throws. *)
Theorem selectedAccount_after_accountsChanged (a : jsval) (s : state) :
  let s' := final (onAccountsChanged a s) in
  (impl s = InMemory ->
   get_accounts s' = a
   /\ get_selectedAccount s' = index a 0
   /\ (forall first rest, a = JArr (first :: rest) -> get_selectedAccount s' = inr first)
   /\ (a = JArr [] -> get_selectedAccount s' = inr JUndefined)
   /\ (nullish a = true -> exists msg, get_selectedAccount s' = inl (TypeError msg)))
  /\ (impl s = StorageBacked -> kept_by_store StorageBacked a = true ->
      get_accounts s' = JPromise a
      /\ get_selectedAccount s' = inr (JPromise (opt_index a 0))
      /\ (forall first rest, a = JArr (first :: rest) ->
          get_selectedAccount s' = inr (JPromise first))
      /\ (nullish a = true -> get_selectedAccount s' = inr (JPromise JUndefined))).
Proof.
  intros s'. unfold s'. rewrite onAccountsChanged_computed.
  unfold get_accounts, get_selectedAccount. cbn [final].
  split; [intros Hi | intros Hi _];
    repeat (progress (cbv beta iota; fields; rewrite ?Hi));
    rewrite ?lookup_insert_eq; (split; [reflexivity|]); (split; [reflexivity|]).
  - split; [intros first rest ->; reflexivity|].
    split; [intros ->; reflexivity|].
    intros Hn. destruct a; try discriminate Hn; eexists; reflexivity.
  - split; [intros first rest ->; reflexivity|].
    intros Hn. destruct a; try discriminate Hn; reflexivity.
Qed.

(** X8.  After the chain handler ran with a positive safe integer [n], a
    request that is not intercepted is the call of [core.invokeMethod] with
    the scope "eip155:" followed by the decimal numeral of [n]: the
    hexadecimal form that the setter stores reads back as [n]. *)
Theorem requests_follow_the_announced_chain (n : Z) (req : ProviderRequest) (w : awaited)
    (s : state) :
  (0 < n <= MAX_SAFE_INTEGER)%Z ->
  includes INTERCEPTABLE_METHODS (method req) = false ->
  let s' := final (onChainChanged (JNum (Num n)) s) in
  numeral (Z_to_string n) n
  /\ request req w s' =
       await (InvokeMethod ("eip155:" +:+ Z_to_string n) (method req) (params req)) w s'.
Proof.
  intros Hn Hm s'. split; [apply numeral_Z_to_string; lia|].
  assert (Hp : p_selectedChainId s' = JStr (HexString.of_N (Z.to_N n))).
  { unfold s'. rewrite (onChainChanged_number n s Hn). reflexivity. }
  unfold request. rewrite Hm. step_m. rewrite Hp.
  assert (Ht : truthy (JStr (HexString.of_N (Z.to_N n))) = true).
  { cbn [truthy]. apply negb_true_iff, String.eqb_neq, of_N_nonempty. }
  rewrite Ht. cbn [negb].
  rewrite (hexToNumber_numberToHex n _ (numberToHex_safe n ltac:(lia))).
  rewrite ToString_safe by (unfold MAX_SAFE_INTEGER in *; lia). reflexivity.
Qed.

End Inbound.

(* ================================================================== *)
(** ** Invariants of the selected chain *)
(* ================================================================== *)

Section ChainStable.

Context `{Externals}.

Variable I : state -> Prop.

(** [I] reads the selected chain, what the store holds under
    ['selectedChainId'] and the class of the provider, and nothing else. *)
Hypothesis I_frame :
  forall s s',
    p_selectedChainId s' = p_selectedChainId s ->
    storage s' !! "selectedChainId" = storage s !! "selectedChainId" ->
    impl s' = impl s ->
    I s -> I s'.

(** [I] survives the assignment of a chain id that the chain handler accepts. *)
Hypothesis I_set :
  forall c h, to_hexChainId c = inr h -> preserves I (set_selectedChainId c).

Lemma chain_frame (f : state -> state) :
  (forall s, p_selectedChainId (f s) = p_selectedChainId s) ->
  (forall s, storage (f s) !! "selectedChainId" = storage s !! "selectedChainId") ->
  (forall s, impl (f s) = impl s) ->
  preserves I (modify f).
Proof. intros Hp Hs Hi s HI. cbn. apply (I_frame s); auto. Qed.

Lemma chain_log (e : effect) : preserves I (log e).
Proof. apply chain_frame; reflexivity. Qed.

Lemma chain_lift_bind {A B : Type} (r : js_error + A) (k : A -> M B) :
  (forall a, r = inr a -> preserves I (k a)) -> preserves I (lift r ≫= k).
Proof.
  intros Hk s Hs. unfold mbind, M_bind, bind, lift. destruct r as [e|a]; [exact Hs|].
  apply (Hk a eq_refl s Hs).
Qed.

Ltac chain_leaf :=
  first [ apply chain_log
        | apply chain_frame; intros; reflexivity
        | solve [auto] ].

Lemma chain_set_accounts (a : jsval) : preserves I (set_accounts a).
Proof.
  unfold set_accounts. pres; try chain_leaf.
  apply chain_frame; intros; try reflexivity.
  cbn. apply lookup_insert_ne. discriminate.
Qed.

Lemma chain_set_falsy (v : jsval) : truthy v = false -> preserves I (set_selectedChainId v).
Proof.
  intros Hv s Hs. rewrite (set_selectedChainId_falsy v s Hv). cbn.
  apply (I_frame s); auto.
Qed.

Lemma chain_callback (f : EventHandlers -> bool) (ev : provider_event) :
  preserves I (callback f ev).
Proof. unfold callback. pres; chain_leaf. Qed.

Lemma chain_onChainChanged (c : jsval) : preserves I (onChainChanged c).
Proof.
  unfold onChainChanged, emit. apply chain_lift_bind. intros h Hc.
  pres; first [apply (I_set c h Hc) | apply chain_callback | chain_leaf].
Qed.

Lemma chain_onAccountsChanged (a : jsval) : preserves I (onAccountsChanged a).
Proof.
  unfold onAccountsChanged, emit. pres;
    first [apply chain_set_accounts | apply chain_callback | chain_leaf].
Qed.

Lemma chain_request_ (m : string) (p : list jsval) : preserves I (request_ m p).
Proof. unfold request_. chain_leaf. Qed.

Lemma chain_addEthereumChain (c : jsval) : preserves I (addEthereumChain c).
Proof. unfold addEthereumChain. pres; first [apply chain_request_ | chain_leaf]. Qed.

Lemma chain_onConnect (c : jsval) : preserves I (onConnect c).
Proof.
  unfold onConnect, emit. pres;
    first [apply chain_onChainChanged | apply chain_callback | chain_leaf].
Qed.

Lemma chain_onDisconnect : preserves I onDisconnect.
Proof.
  unfold onDisconnect, emit. pres;
    first [apply chain_onAccountsChanged | apply chain_callback | chain_leaf].
Qed.

Lemma chain_clearConnectionState : preserves I clearConnectionState.
Proof.
  unfold clearConnectionState. pres;
    first [apply chain_set_accounts | apply chain_set_falsy; reflexivity | chain_leaf].
Qed.

Lemma chain_switchChain (c cfg : jsval) : preserves I (switchChain c cfg).
Proof.
  unfold switchChain. pres;
    first [apply chain_onChainChanged | apply chain_request_ | chain_leaf].
Qed.

Lemma chain_metamaskProviderHandler (event : MessageEvent) :
  preserves I (metamaskProviderHandler event).
Proof.
  unfold metamaskProviderHandler. pres;
    first [ apply chain_onAccountsChanged | apply chain_onChainChanged
          | apply chain_addEthereumChain | chain_leaf ].
Qed.

Lemma chain_sessionChangedHandler (session : jsval) :
  preserves I (sessionChangedHandler session).
Proof. unfold sessionChangedHandler. chain_leaf. Qed.

Lemma chain_recoverSession (event : MessageEvent) : preserves I (recoverSession event).
Proof.
  unfold recoverSession, removeEventListener. pres;
    first [apply chain_onAccountsChanged | chain_leaf].
Qed.

Lemma chain_notificationCallback (n : jsval) : preserves I (notificationCallback n).
Proof.
  unfold notificationCallback. pres;
    first [apply chain_onAccountsChanged | apply chain_onChainChanged | chain_leaf].
Qed.

Lemma chain_dispatch_window (ls : list window_listener) (event : MessageEvent) :
  preserves I (dispatch_window ls event).
Proof.
  induction ls as [|l ls IH]; cbn [dispatch_window]; pres; try exact IH;
    first [ destruct l; [apply chain_metamaskProviderHandler | apply chain_recoverSession]
          | chain_leaf ].
Qed.

Lemma chain_deliver (i : inbound) : preserves I (deliver i).
Proof.
  unfold deliver. pres;
    first [ apply chain_dispatch_window | apply chain_notificationCallback
          | apply chain_sessionChangedHandler | chain_leaf ].
Qed.

Lemma chain_deliver_all (is_ : list inbound) : preserves I (deliver_all is_).
Proof.
  induction is_ as [|i rest IH]; cbn [deliver_all]; pres; try exact IH;
    first [apply chain_deliver | chain_leaf].
Qed.

Lemma chain_await (call : effect) (w : awaited) : preserves I (await call w).
Proof. unfold await. pres; first [apply chain_deliver_all | chain_leaf]. Qed.

Lemma chain_connect (arg : option (jsval * jsval)) (w : awaited) :
  preserves I (connect arg w).
Proof.
  unfold connect. destruct arg as [[chainId account]|];
    (apply preserves_bind; [apply chain_await|]; intros _;
     apply chain_lift_bind; intros h Hh;
     apply preserves_bind; [apply (I_set (JStr h) h (to_hexChainId_of_hex _ h Hh))|]; intros _;
     pres; first [apply chain_onConnect | chain_leaf]).
Qed.

Lemma chain_disconnect (w : awaited) : preserves I (disconnect w).
Proof.
  unfold disconnect, removeEventListener, core_off. pres;
    first [ apply chain_await | apply chain_onDisconnect
          | apply chain_clearConnectionState | chain_leaf ].
Qed.

Lemma chain_requestInterceptor (req : ProviderRequest) (w : awaited) :
  preserves I (requestInterceptor req w).
Proof.
  unfold requestInterceptor. pres;
    first [ apply chain_disconnect | apply chain_connect | apply chain_switchChain
          | apply chain_addEthereumChain | chain_leaf ].
Qed.

Lemma chain_request (req : ProviderRequest) (w : awaited) : preserves I (request req w).
Proof.
  unfold request. pres;
    first [ apply chain_requestInterceptor | apply chain_await | chain_leaf ].
Qed.

Lemma chain_run (op : operation) : preserves I (run op).
Proof.
  unfold run. pres;
    first [ apply chain_connect | apply chain_disconnect | apply chain_switchChain
          | apply chain_request | apply chain_deliver | chain_leaf ].
Qed.

Lemma chain_run_all (ops : list operation) (s : state) : I s -> I (run_all ops s).
Proof.
  unfold run_all. revert s. induction ops as [|op ops IH]; intros s Hs; cbn; [exact Hs|].
  apply IH. apply chain_run, Hs.
Qed.

End ChainStable.

Section ChainInvariants.

Context `{Externals}.

(** The assignment of a chain id that the chain handler accepted. *)
Lemma set_selectedChainId_accepted (c : jsval) (h : string) (s : state) :
  to_hexChainId c = inr h ->
  exists s', set_selectedChainId c s = Ok tt s'
    /\ impl s' = impl s
    /\ (truthy c = false ->
        p_selectedChainId s' = p_selectedChainId s /\ storage s' = storage s)
    /\ (truthy c = true ->
        p_selectedChainId s' = JStr h
        /\ (impl s = StorageBacked -> storage s' !! "selectedChainId" = Some (JStr h))).
Proof.
  intros Hc. destruct (to_hexChainId_cases c h Hc) as [[-> Hne] | (z & -> & Hz & ->)].
  - rewrite set_selectedChainId_string by exact Hne.
    destruct (impl s) eqn:Ei; eexists; (split; [reflexivity|]); cbn;
      (split; [exact Ei|]);
      (split; [intros Ht; apply negb_false_iff, String.eqb_eq in Ht; contradiction|]);
      intros _; (split; [reflexivity|]); intros; try discriminate.
    apply lookup_insert_eq.
  - destruct (Z.eq_dec z 0%Z) as [-> | Hnz].
    + rewrite set_selectedChainId_falsy by reflexivity.
      eexists. split; [reflexivity|]. cbn. split; [reflexivity|].
      split; [auto | discriminate].
    + rewrite set_selectedChainId_number by lia.
      destruct (impl s) eqn:Ei; eexists; (split; [reflexivity|]); cbn -[HexString.of_N];
        (split; [exact Ei|]);
        (split; [intros Ht; apply negb_false_iff, Z.eqb_eq in Ht; contradiction|]);
        intros _; (split; [reflexivity|]); intros; try discriminate.
      apply lookup_insert_eq.
Qed.

Lemma undefined_or_hex_set (c : jsval) (h : string) :
  to_hexChainId c = inr h ->
  preserves (fun s => undefined_or_hex (p_selectedChainId s) = true) (set_selectedChainId c).
Proof.
  intros Hc s Hs.
  destruct (set_selectedChainId_accepted c h s Hc) as (s' & -> & _ & Hf & Ht). cbn [final].
  destruct (truthy c) eqn:Etc.
  - destruct (Ht eq_refl) as [-> _]. cbn [undefined_or_hex]. apply (to_hexChainId_isHex c h Hc).
  - destruct (Hf eq_refl) as [-> _]. exact Hs.
Qed.

Lemma chain_in_sync_set (c : jsval) (h : string) :
  to_hexChainId c = inr h -> preserves chain_in_sync (set_selectedChainId c).
Proof.
  intros Hc s Hs.
  destruct (set_selectedChainId_accepted c h s Hc) as (s' & -> & Hi & Hf & Ht). cbn [final].
  intros Hi'. rewrite Hi in Hi'.
  destruct (truthy c) eqn:Etc.
  - destruct (Ht eq_refl) as [-> Hst]. right. apply Hst, Hi'.
  - destruct (Hf eq_refl) as [-> ->]. apply Hs, Hi'.
Qed.

Lemma constructor_selectedChainId i hs store queue :
  p_selectedChainId (final (constructor i hs store queue)) = JUndefined
  /\ storage (final (constructor i hs store queue)) = store.
Proof.
  unfold constructor, attemptSessionRecovery, addEventListener, core_on, request_.
  step_m. cbn.
  destruct (match queue with Some l => some_sessionChanged l | None => inr false end)
    as [e|[|]]; split; reflexivity.
Qed.

(** X9.  The provider's selected chain is [undefined] or a hexadecimal
    string, always: it is [undefined] when the adapter has been constructed,
    and whatever the dapp calls with whatever arguments and whatever the
    wallet, the transport and the core send, in any order, a state in which
    it is [undefined] or a hexadecimal string is followed by such a state. *)
Theorem selected_chain_is_hex :
  (forall i hs store queue,
     undefined_or_hex (p_selectedChainId (final (constructor i hs store queue))) = true)
  /\ (forall ops s,
      undefined_or_hex (p_selectedChainId s) = true ->
      undefined_or_hex (p_selectedChainId (run_all ops s)) = true).
Proof.
  split.
  - intros i hs store queue.
    rewrite (proj1 (constructor_selectedChainId i hs store queue)). reflexivity.
  - intros ops s Hs.
    apply (chain_run_all (fun s => undefined_or_hex (p_selectedChainId s) = true)); [| |exact Hs].
    + intros s1 s2 Hp _ _. rewrite Hp. trivial.
    + apply undefined_or_hex_set.
Qed.

(** X10.  With the storage-backed provider, once the adapter has selected a
    chain, the store holds that chain under ['selectedChainId'], so that the
    promise that the getter returns is one of the chain that requests use:
    this holds after every run of a constructed adapter, whatever the store
    held at construction. *)
Theorem storage_backed_chain_in_sync (hs : option EventHandlers) (store : gmap string jsval)
    (queue : option (list jsval)) (ops : list operation) :
  let s := run_all ops (final (constructor StorageBacked hs store queue)) in
  p_selectedChainId s <> JUndefined ->
  storage s !! "selectedChainId" = Some (p_selectedChainId s)
  /\ get_selectedChainId s = JPromise (p_selectedChainId s).
Proof.
  intros s Hdef.
  assert (Hi : impl s = StorageBacked).
  { unfold s. rewrite run_all_impl. apply constructor_fields. }
  assert (Hsync : chain_in_sync s).
  { unfold s. apply (chain_run_all chain_in_sync).
    - intros s1 s2 Hp Hst Himpl Hs1 Hi2. rewrite Hp, Hst. apply Hs1. congruence.
    - apply chain_in_sync_set.
    - intros _. left. apply constructor_selectedChainId. }
  destruct (Hsync Hi) as [Hu | Hst]; [contradiction|].
  split; [exact Hst|]. unfold get_selectedChainId. rewrite Hi, Hst. reflexivity.
Qed.

Lemma accounts_in_sync_set (a : jsval) : preserves accounts_in_sync (set_accounts a).
Proof.
  intros s Hs. unfold set_accounts. step_m. cbn.
  destruct (impl s) eqn:Ei; cbn; intros Hi; cbn in Hi; try congruence.
  right. cbn. apply lookup_insert_eq.
Qed.

(** X11.  With the storage-backed provider, once the adapter has assigned
    the accounts, the store holds under ['accounts'] the accounts that were
    assigned last, and the getter returns a promise of them (for accounts
    that survive JSON): this holds after every run of a constructed adapter,
    whatever the store held at construction. *)
Theorem storage_backed_accounts_in_sync (hs : option EventHandlers)
    (store : gmap string jsval) (queue : option (list jsval)) (ops : list operation) :
  let s := run_all ops (final (constructor StorageBacked hs store queue)) in
  accounts_assignments s <> [] ->
  kept_by_store StorageBacked (p_accounts s) = true ->
  storage s !! "accounts" = Some (p_accounts s)
  /\ get_accounts s = JPromise (p_accounts s).
Proof.
  intros s Hdef _.
  assert (Hi : impl s = StorageBacked).
  { unfold s. rewrite run_all_impl. apply constructor_fields. }
  assert (Hsync : accounts_in_sync s).
  { unfold s.
    apply (preserves_run_all accounts_in_sync (fun e => is_set_accounts e = false));
      first [ intros; reflexivity
            | apply accounts_in_sync_set
            | (intros s1 s2 Ht Ha _ Hst Himpl _ Hs1 Hi2; unfold accounts_assignments;
               rewrite Ht, Ha, Hst; apply Hs1; congruence)
            | (intros e s1 He Hs1 Hi1; destruct (Hs1 Hi1) as [Hn | Hst]; [left | right; exact Hst];
               unfold accounts_assignments in *; cbn; rewrite List.filter_app, Hn; cbn;
               rewrite He; reflexivity)
            | (intros v s1 Hs1 Hi1; destruct (Hs1 Hi1) as [Hn | Hst]; [left; exact Hn | right];
               cbn; rewrite lookup_insert_ne by discriminate; exact Hst)
            | (intros l s1 Hs1; exact Hs1)
            | (intros _; left; apply constructor_fields) ]. }
  destruct (Hsync Hi) as [Hn | Hst]; [contradiction|].
  split; [exact Hst|]. unfold get_accounts. rewrite Hi, Hst. reflexivity.
Qed.

(** X12.  With the storage-backed provider, a chain that the store holds
    when the adapter is constructed is what the getter's promise settles
    to, but it is not the selected chain of requests: a request that is not
    intercepted fails with "No chain ID selected". *)
Theorem persisted_chain_is_not_selected (hs : option EventHandlers)
    (store : gmap string jsval) (queue : option (list jsval)) (v : jsval)
    (req : ProviderRequest) (w : awaited) :
  store !! "selectedChainId" = Some v ->
  includes INTERCEPTABLE_METHODS (method req) = false ->
  let s := final (constructor StorageBacked hs store queue) in
  get_selectedChainId s = JPromise v
  /\ request req w s = Throw (Error "No chain ID selected") s.
Proof.
  intros Hv Hm s.
  destruct (constructor_selectedChainId StorageBacked hs store queue) as [Hp Hst].
  assert (Hi : impl s = StorageBacked) by apply constructor_fields.
  fold s in Hp, Hst. split.
  - unfold get_selectedChainId. rewrite Hi, Hst, Hv. reflexivity.
  - unfold request. rewrite Hm. step_m. rewrite Hp. reflexivity.
Qed.

End ChainInvariants.

(* ================================================================== *)
(** ** [connect] and [disconnect], in full *)
(* ================================================================== *)

Section ConnectDisconnect.

Context `{Externals}.

Lemma connect_rejected (chainId account : jsval) (w : awaited) (r : jsval) (s : state) :
  settles w = Rejects r ->
  connect (Some (chainId, account)) w s =
    Throw (Rejection r)
      (final (await (CoreConnect (caipChainId chainId) (caipAccountId chainId account)) w s)).
Proof.
  intros Hr. unfold connect. unfold mbind at 1, M_bind at 1, bind at 1.
  rewrite (await_rejects _ w r s Hr). reflexivity.
Qed.

Lemma connect_invalid (chainId account : jsval) (w : awaited) (v : jsval) (e : js_error)
    (s : state) :
  settles w = Resolves v -> numberToHex chainId = inl e ->
  connect (Some (chainId, account)) w s =
    Throw e (final (await (CoreConnect (caipChainId chainId) (caipAccountId chainId account)) w s)).
Proof.
  intros Hv He. unfold connect. unfold mbind at 1, M_bind at 1, bind at 1.
  rewrite (await_resolves _ w v s Hv).
  unfold mbind, M_bind, bind, lift. rewrite He. reflexivity.
Qed.

(** X13.  [connect] calls [core.connect] before it looks at the chain id.
    When [core.connect] rejects, [connect] rejects with the same reason.
    When it resolves and the chain id is not one that [numberToHex] accepts
    (it is missing, not a number, negative or not a safe integer),
    [connect] rejects with the error of [numberToHex], after the call of
    [core.connect] has been made, with the scope that the template literal
    gives for that chain id ("eip155:-1", "eip155:1e+21").  In both cases the adapter is left as it
    was when the call of [core.connect] settled: when nothing arrived in
    the meantime, only the call has been added to the trace. *)
Theorem connect_failures (chainId account : jsval) (w : awaited) (s : state) :
  let call := CoreConnect (caipChainId chainId) (caipAccountId chainId account) in
  let s1 := final (await call w s) in
  trace s1 !! length (trace s) = Some call
  /\ (during w = [] -> s1 = with_trace (trace s ++ [call]) s)
  /\ (forall r, settles w = Rejects r ->
      connect (Some (chainId, account)) w s = Throw (Rejection r) s1)
  /\ (forall v e, settles w = Resolves v -> numberToHex chainId = inl e ->
      connect (Some (chainId, account)) w s = Throw e s1)
  /\ (forall v, settles w = Resolves v -> is_number chainId = false ->
      connect (Some (chainId, account)) w s = Throw (AssertionError "Value must be a number.") s1).
Proof.
  intros call s1.
  split; [apply await_call|]. split; [apply await_quiet|]. split; [|split].
  - intros r Hr. apply connect_rejected, Hr.
  - intros v e Hv He. apply (connect_invalid _ _ _ v e s Hv He).
  - intros v Hv Hn. apply (connect_invalid _ _ _ v _ s Hv).
    destruct chainId; try reflexivity. discriminate Hn.
Qed.

(** X14.  On the in-memory provider, [connect] with a chain id [z] (a safe
    non-negative integer) whose [core.connect] resolves: it returns the
    cached accounts and [z], and to the state in which the call resumed it
    does exactly this, in this order: it assigns the hexadecimal form of
    [z] to the selected chain, registers one more notification callback on
    the transport, emits [connect], calls the caller's [connect] handler,
    assigns the selected chain once more, calls the caller's [chainChanged]
    handler and emits [chainChanged], whether or not the chain has changed.
    The accounts, the listeners and the session scopes stay as they were. *)
Theorem connect_effects (z : Z) (account : jsval) (w : awaited) (v : jsval) (s : state) :
  impl s = InMemory -> (0 <= z <= MAX_SAFE_INTEGER)%Z -> settles w = Resolves v ->
  let s1 := final (await (CoreConnect (caipChainId (JNum (Num z)))
                                      (caipAccountId (JNum (Num z)) account)) w s) in
  let h := HexString.of_N (Z.to_N z) in
  connect (Some (JNum (Num z), account)) w s =
    Ok (JObj [("accounts", p_accounts s1); ("chainId", JNum (Num z))])
       (with_trace
          (trace s1 ++ [SetSelectedChainId (JStr h); Emit (connect_event h)]
             ++ callback_trace (eventHandlers s1) on_connect (connect_event h)
             ++ [SetSelectedChainId (JStr h)]
             ++ callback_trace (eventHandlers s1) on_chainChanged (chainChanged_event h)
             ++ [Emit (chainChanged_event h)])
          (with_notification_callbacks (S (notification_callbacks s1))
             (with_selectedChainId (JStr h) s1))).
Proof.
  intros Hi Hz Hv s1 h. unfold connect.
  unfold mbind at 1, M_bind at 1, bind at 1.
  rewrite (await_resolves _ w v s Hv). fold s1.
  assert (Hi1 : impl s1 = InMemory) by (unfold s1; rewrite await_impl; exact Hi).
  unfold mbind at 1, M_bind at 1, bind at 1, lift at 1.
  rewrite (numberToHex_safe z Hz). fold h.
  unfold mbind at 1, M_bind at 1, bind at 1.
  rewrite (set_selectedChainId_string h s1 (of_N_nonempty _)), Hi1.
  unfold mbind at 1 2, M_bind at 1 2, bind at 1 2, modify at 1, gets at 1.
  match goal with
  | |- context [onConnect (get_selectedChainId ?sB)] =>
      assert (Hg : get_selectedChainId sB = JStr h)
        by (unfold get_selectedChainId; fields; rewrite Hi1; reflexivity);
      rewrite Hg
  end.
  unfold mbind at 1, M_bind at 1, bind at 1.
  rewrite (onConnect_string h _ (isHex_of_N _)).
  step_m. unfold get_accounts, get_selectedChainId.
  repeat (progress (cbv beta iota; fields; rewrite ?Hi1)).
  rewrite (hexToNumber_numberToHex z h (numberToHex_safe z Hz)).
  unfold chain_write. f_equal. same_state.
Qed.

Lemma connect_storage_backed (z : Z) (account v : jsval) (w : awaited) (s : state) :
  impl s = StorageBacked -> (0 <= z <= MAX_SAFE_INTEGER)%Z -> settles w = Resolves v ->
  let s1 := final (await (CoreConnect (caipChainId (JNum (Num z)))
                                      (caipAccountId (JNum (Num z)) account)) w s) in
  let h := HexString.of_N (Z.to_N z) in
  exists s',
    connect (Some (JNum (Num z), account)) w s = Throw (AssertionError "Value must be a number.") s'
    /\ trace s' = trace s1 ++ [SetSelectedChainId (JStr h); StorageSet "selectedChainId" (JStr h)]
    /\ p_selectedChainId s' = JStr h
    /\ storage s' !! "selectedChainId" = Some (JStr h)
    /\ notification_callbacks s' = S (notification_callbacks s1).
Proof.
  intros Hi Hz Hv s1 h. unfold connect.
  unfold mbind at 1, M_bind at 1, bind at 1.
  rewrite (await_resolves _ w v s Hv). fold s1.
  assert (Hi1 : impl s1 = StorageBacked) by (unfold s1; rewrite await_impl; exact Hi).
  unfold mbind at 1, M_bind at 1, bind at 1, lift at 1.
  rewrite (numberToHex_safe z Hz). fold h.
  unfold mbind at 1, M_bind at 1, bind at 1.
  rewrite (set_selectedChainId_string h s1 (of_N_nonempty _)), Hi1.
  step_m. unfold get_selectedChainId. cbn -[HexString.of_N]. rewrite Hi1.
  unfold onConnect, to_hexChainId. step_m. cbn -[HexString.of_N].
  eexists. split; [reflexivity|]. cbn -[HexString.of_N].
  repeat split. apply lookup_insert_eq.
Qed.

(** X15.  With the storage-backed provider [connect] never returns: whatever
    its argument and however [core.connect] settles, it rejects.  With a
    chain id [z] that is a safe non-negative integer and a [core.connect]
    that resolves, the selected chain has been assigned and stored and the
    notification callback registered when it rejects, with "Value must be a
    number.", because the connect handler is given the promise that the
    getter returns; no [connect] event is emitted. *)
Theorem connect_storage_backed_rejects (arg : option (jsval * jsval)) (w : awaited)
    (s : state) :
  impl s = StorageBacked ->
  (exists e s', connect arg w s = Throw e s')
  /\ (forall z account v,
      arg = Some (JNum (Num z), account) ->
      (0 <= z <= MAX_SAFE_INTEGER)%Z -> settles w = Resolves v ->
      let s1 := final (await (CoreConnect (caipChainId (JNum (Num z)))
                                          (caipAccountId (JNum (Num z)) account)) w s) in
      let h := HexString.of_N (Z.to_N z) in
      exists s',
        connect arg w s = Throw (AssertionError "Value must be a number.") s'
        /\ trace s' = trace s1 ++ [SetSelectedChainId (JStr h); StorageSet "selectedChainId" (JStr h)]
        /\ p_selectedChainId s' = JStr h
        /\ storage s' !! "selectedChainId" = Some (JStr h)
        /\ notification_callbacks s' = S (notification_callbacks s1)).
Proof.
  intros Hi. split.
  - destruct arg as [[chainId account]|].
    + destruct (settles w) as [v|r] eqn:Hw.
      * destruct (numberToHex chainId) as [e|h] eqn:Hh.
        -- eexists _, _. apply (connect_invalid chainId account w v e s Hw Hh).
        -- destruct (numberToHex_inr chainId h Hh) as (z & -> & Hz & _).
           destruct (connect_storage_backed z account v w s Hi Hz Hw) as (s' & Hrun & _). eauto.
      * eexists _, _. apply (connect_rejected chainId account w r s Hw).
    + destruct (settles w) as [v|r] eqn:Hw.
      * destruct (connect_storage_backed 1%Z JUndefined v w s Hi
                    ltac:(split; [lia | discriminate]) Hw) as (s' & Hrun & _).
        eauto.
      * eexists _, _. apply (connect_rejected (JNum (Num 1)) JUndefined w r s Hw).
  - intros z account v -> Hz Hv. apply (connect_storage_backed z account v w s Hi Hz Hv).
Qed.

(** [disconnect] when [core.disconnect] resolves. *)
Lemma disconnect_resolved (w : awaited) (v : jsval) (s : state) :
  settles w = Resolves v ->
  let s1 := final (await CoreDisconnect w s) in
  disconnect w s =
    Ok JUndefined
       (with_session_listeners
          (remove session_listener_eq_dec SessionChangedHandler (session_listeners s1))
          (with_window_listeners
             (remove window_listener_eq_dec MetamaskProviderHandler (window_listeners s1))
             (with_trace
                (trace s1 ++ [Emit disconnect_event]
                   ++ callback_trace (eventHandlers s1) on_disconnect disconnect_event
                   ++ accounts_write (impl s1) (JArr [])
                   ++ [Emit (accountsChanged_event (JArr []))]
                   ++ callback_trace (eventHandlers s1) on_accountsChanged
                        (accountsChanged_event (JArr []))
                   ++ accounts_write (impl s1) (JArr [])
                   ++ [SetSelectedChainId JUndefined])
                (with_accounts (JArr [])
                   (match impl s1 with
                    | InMemory => s1
                    | StorageBacked =>
                        with_storage (<["accounts" := JArr []]> (storage s1)) s1
                    end))))).
Proof.
  intros Hv s1. unfold disconnect. unfold mbind at 1, M_bind at 1, bind at 1.
  rewrite (await_resolves _ w v s Hv). fold s1.
  unfold removeEventListener, core_off.
  unfold mbind at 1, M_bind at 1, bind at 1. rewrite onDisconnect_computed.
  unfold mbind at 1, M_bind at 1, bind at 1. rewrite clearConnectionState_computed.
  step_m. fields.
  destruct (impl s1) eqn:Ei;
    repeat (progress (cbv beta iota; fields; rewrite ?Ei));
    same_state; repeat (progress (cbv beta iota; fields; rewrite ?Ei)); try reflexivity.
  apply insert_insert_eq.
Qed.

(** X16.  [disconnect] awaits [core.disconnect] first.  When that rejects,
    [disconnect] rejects with the same reason and does none of its own
    work.  When it resolves, [disconnect] returns [undefined] and, to the
    state in which it resumed, does exactly this, in this order: it emits
    [disconnect], calls the caller's [disconnect] handler, assigns the empty
    accounts, emits [accountsChanged] with them, calls the caller's
    [accountsChanged] handler, assigns the empty accounts once more and
    assigns [undefined] to the selected chain (which the setter ignores);
    then it removes the main window listener, and no other one, and asks the
    core to remove the unbound session handler. *)
Theorem disconnect_effects (w : awaited) (s : state) :
  let s1 := final (await CoreDisconnect w s) in
  (forall r, settles w = Rejects r -> disconnect w s = Throw (Rejection r) s1)
  /\ (forall v, settles w = Resolves v ->
      disconnect w s =
        Ok JUndefined
           (with_session_listeners
              (remove session_listener_eq_dec SessionChangedHandler (session_listeners s1))
              (with_window_listeners
                 (remove window_listener_eq_dec MetamaskProviderHandler (window_listeners s1))
                 (with_trace
                    (trace s1 ++ [Emit disconnect_event]
                       ++ callback_trace (eventHandlers s1) on_disconnect disconnect_event
                       ++ accounts_write (impl s1) (JArr [])
                       ++ [Emit (accountsChanged_event (JArr []))]
                       ++ callback_trace (eventHandlers s1) on_accountsChanged
                            (accountsChanged_event (JArr []))
                       ++ accounts_write (impl s1) (JArr [])
                       ++ [SetSelectedChainId JUndefined])
                    (with_accounts (JArr [])
                       (match impl s1 with
                        | InMemory => s1
                        | StorageBacked =>
                            with_storage (<["accounts" := JArr []]> (storage s1)) s1
                        end)))))).
Proof.
  intros s1. split.
  - intros r Hr. unfold disconnect. unfold mbind at 1, M_bind at 1, bind at 1.
    rewrite (await_rejects _ w r s Hr). reflexivity.
  - intros v Hv. apply (disconnect_resolved w v s Hv).
Qed.

(** The accounts that the one-shot listener assigns. *)
Lemma recoverSession_accounts (event : MessageEvent) (r : jsval) (s : state) :
  valid_accounts_result event = Some r ->
  p_accounts (final (recoverSession event s)) = r.
Proof.
  unfold valid_accounts_result, recoverSession.
  destruct (isMetamaskProviderEvent event); [|discriminate]. cbn [when].
  unfold prop. destruct (payload event) as [| |b|n|str|l|fields|p]; try discriminate.
  cbn [nullish opt_prop].
  destruct (assoc "result" fields) as [| |b|n|str|items|fs|p]; try discriminate.
  destruct (forallb isHexAddress items) eqn:Hv; [|discriminate]. intros [= <-].
  unfold mbind at 1, M_bind at 1, bind at 1, lift. rewrite Hv. cbn [when].
  unfold removeEventListener, mbind, M_bind, bind, modify.
  rewrite onAccountsChanged_computed. reflexivity.
Qed.

(** X26.  What [disconnect] leaves listening on the window.  When only the
    main handler was installed, no window message changes the adapter any
    more after a [disconnect] that resolved.  When the one-shot recovery
    listener was still installed, [disconnect] does not remove it: the
    next message that carries an array of syntactically valid addresses as
    [result] still assigns them to the accounts and emits [accountsChanged]
    with them, on the disconnected adapter, and only then is the listener
    removed. *)
Theorem recovery_listener_survives_disconnect (w : awaited) (v : jsval) (s : state)
    (event : MessageEvent) :
  settles w = Resolves v ->
  let s1 := final (await CoreDisconnect w s) in
  let s2 := final (disconnect w s) in
  (window_listeners s1 = [MetamaskProviderHandler] ->
   deliver (WindowMessage event) s2 = Ok tt s2)
  /\ (window_listeners s1 = [MetamaskProviderHandler; RecoverSession] ->
      forall r, valid_accounts_result event = Some r ->
      exists s3,
        deliver (WindowMessage event) s2 = Ok tt s3
        /\ p_accounts s3 = r
        /\ accounts_emissions s3 = accounts_emissions s2 ++ [Emit (accountsChanged_event r)]
        /\ window_listeners s3 = []).
Proof.
  intros Hv s1 s2.
  assert (Hw : window_listeners s2 =
               remove window_listener_eq_dec MetamaskProviderHandler (window_listeners s1)).
  { unfold s2. rewrite (disconnect_resolved w v s Hv). reflexivity. }
  split.
  - intros Hl. rewrite Hl in Hw. unfold deliver. step_m. rewrite Hw. reflexivity.
  - intros Hl r Hr. rewrite Hl in Hw.
    change (remove window_listener_eq_dec MetamaskProviderHandler
              [MetamaskProviderHandler; RecoverSession]) with [RecoverSession] in Hw.
    destruct (recoverSession_valid event r s2 Hr) as (s3 & Hrun & Hem & Hwl).
    pose proof (recoverSession_accounts event r s2 Hr) as Hacc.
    rewrite Hrun in Hacc. cbn [final] in Hacc.
    exists s3. unfold deliver. step_m. rewrite Hw. cbn [dispatch_window].
    step_m. rewrite Hw. rewrite (listener_present RecoverSession) by set_solver.
    cbn [window_listener_body]. unfold run_listener. rewrite Hrun. cbn [final].
    split; [reflexivity|]. split; [exact Hacc|]. split; [exact Hem|].
    rewrite Hwl, Hw. reflexivity.
Qed.

End ConnectDisconnect.

(* ================================================================== *)
(** ** [switchChain]: the chain ids it takes *)
(* ================================================================== *)

Section ChainIds.

Context `{Externals}.

(** X17.  A switch to a chain that differs from the selected one and is
    among the chains that the session scopes permit is carried out by the
    adapter itself: nothing is sent to the wallet, the selected chain
    becomes the hexadecimal form of the id, the caller's handler and the
    [chainChanged] event get it, and the chain configuration given to the
    call is dropped (the pending one stays as it was). *)
Theorem switchChain_permitted_is_local (c cfg : jsval) (h : string) (s : state) :
  to_hexChainId c = inr h ->
  strict_eq_str (get_selectedChainId s) h = false ->
  includes (getPermittedEthChainIds (sessionScopes s)) h = true ->
  switchChain c cfg s =
    Ok tt (with_trace
             (trace s ++ chain_write (impl s) (JStr h) h
                ++ callback_trace (eventHandlers s) on_chainChanged (chainChanged_event h)
                ++ [Emit (chainChanged_event h)])
             (with_selectedChainId (JStr h)
                (match impl s with
                 | InMemory => s
                 | StorageBacked => with_storage (<["selectedChainId" := JStr h]> (storage s)) s
                 end))).
Proof.
  intros Hc Hsame Hp. rewrite (switchChain_permitted c cfg h s Hc Hsame Hp).
  apply onChainChanged_string, (to_hexChainId_isHex c h Hc).
Qed.

Lemma accepted_chain_id_cases (c : jsval) :
  if accepted_chain_id c
  then exists h, to_hexChainId c = inr h
  else exists e, to_hexChainId c = inl e
                 /\ (is_number c = false -> e = AssertionError "Value must be a number.").
Proof.
  unfold accepted_chain_id, to_hexChainId.
  destruct c as [| |b|[|z|neg|m e]|s0|l|f|p]; cbn -[isHex MAX_SAFE_INTEGER Z.leb];
    try (eexists; split; [reflexivity | reflexivity]);
    try (destruct neg; eexists; (split; [reflexivity | discriminate]));
    try (destruct (m <? 0)%Z; eexists; (split; [reflexivity | discriminate])).
  - eexists. split; [reflexivity | discriminate].
  - unfold isSafeInteger.
    destruct (0 <=? z)%Z eqn:H0.
    + apply Z.leb_le in H0.
      replace (z <? 0)%Z with false by (symmetry; apply Z.ltb_ge; lia).
      assert (Hmax : (0 < MAX_SAFE_INTEGER)%Z) by reflexivity.
      replace (- MAX_SAFE_INTEGER <=? z)%Z with true by (symmetry; apply Z.leb_le; lia).
      cbn [andb]. destruct (z <=? MAX_SAFE_INTEGER)%Z; eexists; [reflexivity|].
      split; [reflexivity | discriminate].
    + apply Z.leb_gt in H0.
      replace (z <? 0)%Z with true by (symmetry; apply Z.ltb_lt; lia).
      eexists. split; [reflexivity | discriminate].
  - destruct (isHex (JStr s0)); cbn; eexists; [reflexivity|]. split; reflexivity.
Qed.

(** X18.  The chain ids that [switchChain] and the chain and connect
    handlers take are the hexadecimal strings and the safe non-negative
    integers: for these the hexadecimal form exists and is a hexadecimal
    string.  For every other id the three of them throw the same error
    before they do anything: the state, its trace included, is unchanged,
    and for an id that is not a number the error is "Value must be a
    number.". *)
Theorem chain_id_validation (c : jsval) (s : state) :
  (accepted_chain_id c = true ->
   exists h, to_hexChainId c = inr h /\ isHex (JStr h) = true)
  /\ (accepted_chain_id c = false ->
      exists e,
        (forall cfg, switchChain c cfg s = Throw e s)
        /\ onChainChanged c s = Throw e s
        /\ onConnect c s = Throw e s
        /\ (is_number c = false -> e = AssertionError "Value must be a number.")).
Proof.
  pose proof (accepted_chain_id_cases c) as Hs. split; intros Hc; rewrite Hc in Hs.
  - destruct Hs as [h Hh]. exists h. split; [exact Hh|]. apply (to_hexChainId_isHex c h Hh).
  - destruct Hs as (e & He & Hmsg). exists e.
    unfold switchChain, onChainChanged, onConnect. step_m. rewrite He. auto.
Qed.

End ChainIds.

(* ================================================================== *)
(** ** The requests that the interceptor handles *)
(* ================================================================== *)

Section Interceptor.

Context `{Externals}.

(** The rest of [switchChain] only reads the hexadecimal form of the id. *)
Lemma switchChain_by_hex (c c' cfg : jsval) (h : string) (s : state) :
  to_hexChainId c = inr h -> to_hexChainId c' = inr h ->
  switchChain c cfg s = switchChain c' cfg s.
Proof.
  intros Hc Hc'. unfold switchChain. step_m. rewrite Hc, Hc'. reflexivity.
Qed.

Lemma accounts_request_method (req : ProviderRequest) :
  isAccountsRequest req = true ->
  method req = "eth_accounts" \/ method req = "eth_coinbase".
Proof.
  unfold isAccountsRequest. intros Hq. apply orb_true_iff in Hq as [Hq | Hq];
    apply String.eqb_eq in Hq; auto.
Qed.

Lemma connect_request_method (req : ProviderRequest) :
  isConnectRequest req = true ->
  method req = "wallet_requestPermissions" \/ method req = "eth_requestAccounts".
Proof.
  unfold isConnectRequest. intros Hq. apply orb_true_iff in Hq as [Hq | Hq];
    apply String.eqb_eq in Hq; auto.
Qed.

(** X19.  On the in-memory provider, [eth_accounts] and [eth_coinbase]
    (when not ignored) both return the provider's cached accounts, the whole
    array for [eth_coinbase] as well, and do nothing else: no call is made
    and the state, its trace included, is unchanged. *)
Theorem accounts_requests_read_the_cache (req : ProviderRequest) (w : awaited) (s : state) :
  impl s = InMemory ->
  includes IGNORED_METHODS (method req) = false ->
  isAccountsRequest req = true ->
  requestInterceptor req w s = Ok (p_accounts s) s.
Proof.
  intros Hi Hig Hq. unfold requestInterceptor. rewrite Hig, Hq.
  unfold isConnectRequest, isSwitchChainRequest, isAddChainRequest.
  destruct (accounts_request_method req Hq) as [-> | ->];
    cbn; unfold gets, get_accounts; rewrite Hi; reflexivity.
Qed.

(** X20.  A connect request ([eth_requestAccounts] or
    [wallet_requestPermissions], when not ignored) whose [params] is an
    array is [connect] with the first entry as chain id, replaced by [1]
    when it is missing, [undefined] or [null], and with the second entry as
    account; with no entries it is [connect()] with its default argument. *)
Theorem connect_request_defaults (req : ProviderRequest) (w : awaited) (s : state)
    (items : list jsval) :
  includes IGNORED_METHODS (method req) = false ->
  isConnectRequest req = true ->
  params req = JArr items ->
  requestInterceptor req w s =
    connect (Some (coalesce (nth 0 items JUndefined) (JNum (Num 1)), nth 1 items JUndefined)) w s
  /\ (items = [] -> requestInterceptor req w s = connect None w s).
Proof.
  intros Hig Hq Hp.
  assert (Hrun : requestInterceptor req w s =
                 connect (Some (coalesce (nth 0 items JUndefined) (JNum (Num 1)),
                                nth 1 items JUndefined)) w s).
  { unfold requestInterceptor. rewrite Hig, Hq, Hp.
    destruct (connect_request_method req Hq) as [-> | ->]; reflexivity. }
  split; [exact Hrun|]. intros ->. exact Hrun.
Qed.

(** X21.  A [wallet_switchEthereumChain] request (when not ignored) whose
    chain id is the hexadecimal form [h] that [numberToHex] gives for some
    number behaves as [switchChain] with that very string and no chain
    configuration: [parseInt(h, 16)] and then the hexadecimal form gives [h]
    back.  So when the chain is neither the selected one nor permitted, the
    request is passed to the wallet with [h], and the pending chain
    configuration is replaced by [undefined]. *)
Theorem switch_request_round_trip (req : ProviderRequest) (w : awaited) (s : state)
    (p0 : jsval) (n : Z) (h : string) :
  includes IGNORED_METHODS (method req) = false ->
  method req = "wallet_switchEthereumChain" ->
  index (params req) 0 = inr p0 ->
  prop p0 "chainId" = inr (JStr h) ->
  numberToHex (JNum (Num n)) = inr h ->
  requestInterceptor req w s = (switchChain (JStr h) JUndefined ;; mret JUndefined) s
  /\ (strict_eq_str (get_selectedChainId s) h = false ->
      includes (getPermittedEthChainIds (sessionScopes s)) h = false ->
      requestInterceptor req w s =
        Ok JUndefined
           (with_trace
              (trace s ++ [SendEip1193Message "wallet_switchEthereumChain"
                             [JObj [("chainId", JStr h)]]])
              (with_latestChainConfiguration JUndefined s))).
Proof.
  intros Hig Hm Hp0 Hch Hh.
  destruct (numberToHex_inr _ h Hh) as (z & [= <-] & Hz & ->).
  assert (Hrun : requestInterceptor req w s =
                 (switchChain (JStr (HexString.of_N (Z.to_N n))) JUndefined ;; mret JUndefined) s).
  { unfold requestInterceptor. rewrite Hig, Hm.
    unfold isConnectRequest, isSwitchChainRequest. rewrite Hm.
    cbn -[HexString.of_N parseInt16 switchChain]. step_m. rewrite Hp0, Hch.
    rewrite parseInt16_of_N. rewrite Z2N.id by lia.
    rewrite of_integer_safe by lia.
    rewrite (switchChain_by_hex (JNum (Num n)) (JStr (HexString.of_N (Z.to_N n))) JUndefined
               (HexString.of_N (Z.to_N n)) s).
    - reflexivity.
    - unfold to_hexChainId. exact Hh.
    - unfold to_hexChainId. rewrite isHex_of_N. reflexivity. }
  split; [exact Hrun|].
  intros Hsame Hperm. rewrite Hrun. unfold mbind, M_bind, bind.
  rewrite (switchChain_wallet _ JUndefined (HexString.of_N (Z.to_N n)) s); auto.
  unfold to_hexChainId. rewrite isHex_of_N. reflexivity.
Qed.

(** X22.  A [wallet_addEthereumChain] request (when not ignored) with the
    first parameter [c].  A truthy [c] is sent to the wallet, whatever
    configuration is pending, and is not recorded as pending.  When [c] is
    [undefined] or [null] the pending configuration is sent instead, and
    without one the request fails with "No chain configuration found.".  A
    [c] that is falsy but neither [undefined] nor [null] fails with that
    error even when a configuration is pending.  In every case the state
    apart from the trace is unchanged. *)
Theorem add_chain_request (req : ProviderRequest) (w : awaited) (s : state) (c : jsval) :
  includes IGNORED_METHODS (method req) = false ->
  method req = "wallet_addEthereumChain" ->
  index (params req) 0 = inr c ->
  (truthy c = true ->
   requestInterceptor req w s =
     Ok JUndefined (with_trace (trace s ++ [SendEip1193Message "wallet_addEthereumChain" [c]]) s))
  /\ (nullish c = true -> truthy (latestChainConfiguration s) = true ->
      requestInterceptor req w s =
        Ok JUndefined
           (with_trace (trace s ++ [SendEip1193Message "wallet_addEthereumChain"
                                      [latestChainConfiguration s]]) s))
  /\ (nullish c = true -> truthy (latestChainConfiguration s) = false ->
      requestInterceptor req w s = Throw (Error "No chain configuration found.") s)
  /\ (truthy c = false -> nullish c = false ->
      requestInterceptor req w s = Throw (Error "No chain configuration found.") s).
Proof.
  intros Hig Hm Hidx.
  assert (Hrun : requestInterceptor req w s = (addEthereumChain c ;; mret JUndefined) s).
  { unfold requestInterceptor. rewrite Hig.
    unfold isConnectRequest, isSwitchChainRequest, isAddChainRequest. rewrite Hm.
    cbn -[index addEthereumChain]. step_m. rewrite Hidx. reflexivity. }
  rewrite Hrun. unfold mbind, M_bind, bind, mret, M_ret, ret. rewrite addEthereumChain_run.
  unfold coalesce.
  split; [|split; [|split]].
  - intros Ht. assert (Hn : nullish c = false) by (destruct c; try discriminate Ht; reflexivity).
    rewrite Hn, Ht. reflexivity.
  - intros Hn Hl. rewrite Hn, Hl. reflexivity.
  - intros Hn Hl. rewrite Hn, Hl. reflexivity.
  - intros Ht Hn. rewrite Hn, Ht. reflexivity.
Qed.

(** X23.  Requests that the interceptor refuses before it does anything (the
    state, its trace included, is unchanged).  An ignored method is rejected
    with "Method: ... is not supported by Metamask Connect/EVM", whichever
    method it is.  A connect, switch-chain or add-chain request whose
    [params] is [undefined] or [null] fails with a [TypeError]; so does a
    switch-chain request whose first parameter is missing. *)
Theorem requests_without_parameters (req : ProviderRequest) (w : awaited) (s : state) :
  (includes IGNORED_METHODS (method req) = true ->
   requestInterceptor req w s =
     Throw (Error ("Method: " +:+ method req +:+ " is not supported by Metamask Connect/EVM")) s)
  /\ (includes IGNORED_METHODS (method req) = false ->
      nullish (params req) = true ->
      isConnectRequest req || isSwitchChainRequest req || isAddChainRequest req = true ->
      exists msg, requestInterceptor req w s = Throw (TypeError msg) s)
  /\ (includes IGNORED_METHODS (method req) = false ->
      isSwitchChainRequest req = true ->
      index (params req) 0 = inr JUndefined ->
      exists msg, requestInterceptor req w s = Throw (TypeError msg) s).
Proof.
  split; [|split].
  - intros Hig. unfold requestInterceptor. rewrite Hig. reflexivity.
  - intros Hig Hn Hq. unfold requestInterceptor. rewrite Hig.
    assert (Hidx : exists msg, index (params req) 0 = inl (TypeError msg))
      by (destruct (params req); try discriminate Hn; eexists; reflexivity).
    destruct Hidx as [msg Hidx]. exists msg.
    unfold isConnectRequest, isSwitchChainRequest, isAddChainRequest in *.
    destruct (String.eqb (method req) "wallet_revokePermissions") eqn:Hr.
    { apply String.eqb_eq in Hr. rewrite Hr in Hq. discriminate Hq. }
    step_m. rewrite Hidx.
    destruct (String.eqb (method req) "wallet_requestPermissions"
              || String.eqb (method req) "eth_requestAccounts"); [reflexivity|].
    destruct (String.eqb (method req) "wallet_switchEthereumChain"); [reflexivity|].
    destruct (String.eqb (method req) "wallet_addEthereumChain"); [reflexivity|].
    discriminate Hq.
  - intros Hig Hq Hidx. unfold requestInterceptor. rewrite Hig.
    unfold isConnectRequest, isSwitchChainRequest in *.
    apply String.eqb_eq in Hq. rewrite Hq. cbn -[index]. step_m. rewrite Hidx.
    eexists. reflexivity.
Qed.

(** X24.  No request satisfies two of the four type guards, and a
    [wallet_revokePermissions] request satisfies none: the order in which
    the interceptor tries them makes no difference. *)
Theorem request_guards_are_disjoint (req : ProviderRequest) :
  isConnectRequest req && isSwitchChainRequest req = false
  /\ isConnectRequest req && isAddChainRequest req = false
  /\ isConnectRequest req && isAccountsRequest req = false
  /\ isSwitchChainRequest req && isAddChainRequest req = false
  /\ isSwitchChainRequest req && isAccountsRequest req = false
  /\ isAddChainRequest req && isAccountsRequest req = false
  /\ String.eqb (method req) "wallet_revokePermissions"
     && (isConnectRequest req || isSwitchChainRequest req
         || isAddChainRequest req || isAccountsRequest req) = false.
Proof.
  unfold isConnectRequest, isSwitchChainRequest, isAddChainRequest, isAccountsRequest.
  repeat split;
    repeat match goal with
      | |- context [String.eqb (method req) ?lit] =>
          let E := fresh "E" in
          destruct (String.eqb (method req) lit) eqn:E;
          [apply String.eqb_eq in E; rewrite E in *; clear E|]
      end; try reflexivity; try discriminate.
Qed.

End Interceptor.

(* ================================================================== *)
(** ** Construction without a session to recover *)
(* ================================================================== *)

Section Construction.

Context `{Externals}.

Lemma some_sessionChanged_none (l : list jsval) :
  forallb passed_over l = true -> some_sessionChanged l = inr false.
Proof.
  induction l as [|n l IH]; [reflexivity|]. cbn [forallb some_sessionChanged].
  intros Hl. apply andb_true_iff in Hl as [Hn Hl].
  unfold passed_over in Hn. apply andb_true_iff in Hn as [Hnn Hnr].
  apply negb_true_iff in Hnn, Hnr. unfold prop. rewrite Hnn.
  unfold is_sessionChanged_record in Hnr. rewrite Hnr. apply IH, Hl.
Qed.

Lemma some_sessionChanged_nullish (before after : list jsval) (n : jsval) :
  forallb passed_over before = true -> nullish n = true ->
  exists msg, some_sessionChanged (before ++ n :: after) = inl (TypeError msg).
Proof.
  intros Hb Hn. induction before as [|m before IH]; cbn [app some_sessionChanged].
  - unfold prop. rewrite Hn. eexists. reflexivity.
  - cbn [forallb] in Hb. apply andb_true_iff in Hb as [Hm Hb].
    unfold passed_over in Hm. apply andb_true_iff in Hm as [Hmn Hmr].
    apply negb_true_iff in Hmn, Hmr. unfold prop. rewrite Hmn.
    unfold is_sessionChanged_record in Hmr. rewrite Hmr. apply IH, Hb.
Qed.

(** X25.  Without a notification queue, and with a queue that holds no
    [wallet_sessionChanged] record (and no [null] or [undefined]), the
    constructor registers its two listeners and does nothing else: no
    [eth_accounts] probe is sent and no one-shot listener is installed.
    With a queue in which a [null] or [undefined] entry comes before any
    such record, the constructor throws a [TypeError], after it has
    registered the two listeners.  [createMetamaskConnectEVM] returns the
    adapter in the first case, throws that [TypeError] in the second, and
    when [createMetamaskConnect] rejects it rejects with the same reason. *)
Theorem recovery_needs_a_sessionChanged_record (i : provider_impl)
    (hs : option EventHandlers) (store : gmap string jsval) :
  constructor i hs store None = Ok tt (idle i hs store)
  /\ (forall queue, forallb passed_over queue = true ->
      constructor i hs store (Some queue) = Ok tt (idle i hs store)
      /\ forall v, createMetamaskConnectEVM i hs store queue (Resolves v) = inr (idle i hs store))
  /\ (forall before n after,
      forallb passed_over before = true -> nullish n = true ->
      exists msg,
        constructor i hs store (Some (before ++ n :: after)) = Throw (TypeError msg) (idle i hs store)
        /\ forall v, createMetamaskConnectEVM i hs store (before ++ n :: after) (Resolves v)
                     = inl (TypeError msg))
  /\ (forall queue r, createMetamaskConnectEVM i hs store queue (Rejects r) = inl (Rejection r)).
Proof.
  split; [reflexivity|]. split; [|split].
  - intros queue Hq.
    assert (Hc : constructor i hs store (Some queue) = Ok tt (idle i hs store)).
    { unfold constructor, attemptSessionRecovery, addEventListener, core_on. step_m.
      rewrite (some_sessionChanged_none queue Hq). reflexivity. }
    split; [exact Hc|]. intros v. unfold createMetamaskConnectEVM. rewrite Hc. reflexivity.
  - intros before n after Hb Hn.
    destruct (some_sessionChanged_nullish before after n Hb Hn) as [msg Hs]. exists msg.
    assert (Hc : constructor i hs store (Some (before ++ n :: after)) =
                 Throw (TypeError msg) (idle i hs store)).
    { unfold constructor, attemptSessionRecovery, addEventListener, core_on. step_m.
      rewrite Hs. reflexivity. }
    split; [exact Hc|]. intros v. unfold createMetamaskConnectEVM. rewrite Hc. reflexivity.
  - reflexivity.
Qed.

End Construction.

(* ================================================================== *)
(** ** Scenarios in the concrete environment *)
(* ================================================================== *)

Section Scenarios.

#[local] Existing Instance spec_externals.

(** C1, evaluated.  [connect()] and then [disconnect()]: the accounts are
    empty, but the selected chain is still "0x1", because the setter ignores
    the [undefined] that [#clearConnectionState] assigns; the window
    listener is gone, but the bound session listener and the notification
    callback installed by [connect] are still registered, so that a later
    [wallet_sessionChanged] and a later [metamask_accountsChanged]
    notification still change the state. *)
Theorem disconnect_leaves_chain_and_listeners (i : provider_impl) :
  disconnect (no_events JUndefined) (connected i) = Ok JUndefined (disconnected i)
  /\ p_accounts (disconnected i) = JArr []
  /\ p_selectedChainId (connected i) = JStr "0x1"
  /\ p_selectedChainId (disconnected i) = JStr "0x1"
  /\ get_selectedChainId (disconnected i) <> JUndefined
  /\ window_listeners (disconnected i) = []
  /\ session_listeners (disconnected i) = [BoundSessionChangedHandler]
  /\ notification_callbacks (disconnected i) = 1
  /\ sessionScopes (disconnected i) = JObj []
  /\ sessionScopes (final (deliver (SessionChanged session_137) (disconnected i)))
       = JObj [("eip155:137", JObj [])]
  /\ p_accounts (final (deliver (TransportNotification accountsChanged_a) (disconnected i)))
       = JArr [account_a].
Proof. destruct i; vm_compute; repeat split; discriminate. Qed.

(** C4, evaluated with the provider of [packages/connect-evm/src/provider.ts].
    The wallet has announced chain "0x89", which is the selected chain.
    [switchChain({ chainId: 137, chainConfiguration })] does not return
    early, because the getter's promise is compared with the string "0x89":
    it overwrites the pending chain configuration and sends
    [wallet_switchEthereumChain] to the wallet.  With the in-memory provider
    the same call returns at once and changes nothing. *)
Theorem switchChain_same_chain_storage_backed :
  p_selectedChainId (on_polygon StorageBacked) = JStr "0x89"
  /\ storage (on_polygon StorageBacked) !! "selectedChainId" = Some (JStr "0x89")
  /\ get_selectedChainId (on_polygon StorageBacked) = JPromise (JStr "0x89")
  /\ to_hexChainId (JNum (Num 137)) = inr "0x89"
  /\ switchChain (JNum (Num 137)) polygon (on_polygon StorageBacked) =
       Ok tt (with_trace
                (trace (on_polygon StorageBacked)
                   ++ [SendEip1193Message "wallet_switchEthereumChain"
                         [JObj [("chainId", JStr "0x89")]]])
                (with_latestChainConfiguration polygon (on_polygon StorageBacked)))
  /\ latestChainConfiguration (on_polygon StorageBacked) = JUndefined
  /\ switchChain (JNum (Num 137)) polygon (on_polygon StorageBacked)
       <> Ok tt (on_polygon StorageBacked)
  /\ switchChain (JNum (Num 137)) polygon (on_polygon InMemory) = Ok tt (on_polygon InMemory).
Proof.
  assert (Hrun : switchChain (JNum (Num 137)) polygon (on_polygon StorageBacked) =
                 Ok tt (with_trace
                          (trace (on_polygon StorageBacked)
                             ++ [SendEip1193Message "wallet_switchEthereumChain"
                                   [JObj [("chainId", JStr "0x89")]]])
                          (with_latestChainConfiguration polygon (on_polygon StorageBacked))))
    by (apply switchChain_wallet; reflexivity).
  split; [reflexivity|]. split; [reflexivity|]. split; [reflexivity|].
  split; [reflexivity|]. split; [exact Hrun|]. split; [reflexivity|]. split.
  - rewrite Hrun. intros Heq.
    apply (f_equal (fun o => latestChainConfiguration (final o))) in Heq. discriminate Heq.
  - apply switchChain_selected_in_memory with (h := "0x89"); reflexivity.
Qed.

(** C2 as the specification words it: with a chain selected, every request
    that is not intercepted would reach [invokeMethod].  The session
    permits the chain [2^53] and the dapp switches to it: the chain is
    selected, and a request then fails with the assertion of [hexToNumber];
    the SDK is not called.  The same after the dapp assigned that chain to
    the provider that [getProvider] hands out. *)
Lemma request_beyond_safe_chain :
  p_selectedChainId (beyond_safe InMemory) = JStr "0x20000000000000"
  /\ p_selectedChainId (beyond_safe StorageBacked) = JStr "0x20000000000000"
  /\ includes INTERCEPTABLE_METHODS (method eth_chainId_request) = false
  /\ request eth_chainId_request (no_events JUndefined) (beyond_safe InMemory) =
       Throw (AssertionError "Value is not a safe integer. Use `hexToBigInt` instead.")
             (beyond_safe InMemory)
  /\ request eth_chainId_request (no_events JUndefined) (beyond_safe StorageBacked) =
       Throw (AssertionError "Value is not a safe integer. Use `hexToBigInt` instead.")
             (beyond_safe StorageBacked)
  /\ invocations (beyond_safe InMemory) = []
  /\ invocations (beyond_safe StorageBacked) = []
  /\ (let s := final (set_selectedChainId (JStr "0x20000000000000") (connected InMemory)) in
      request eth_chainId_request (no_events JUndefined) s =
        Throw (AssertionError "Value is not a safe integer. Use `hexToBigInt` instead.") s).
Proof. vm_compute. repeat split. Qed.

(** C5 as the specification words it: the configuration would be cleared
    once the add-chain flow has used it.  A switch to a chain the wallet
    does not know, then the wallet's error 4902: the add-chain request is
    sent with the configuration, and the configuration is still pending. *)
Lemma configuration_not_cleared :
  let s := run_all [Connect None (no_events JUndefined);
                    SwitchChain (JStr "0x89") polygon;
                    Inbound (WindowMessage (provider_message unrecognized_chain))]
                   (constructed InMemory) in
  last (trace s) = Some (SendEip1193Message "wallet_addEthereumChain" [polygon])
  /\ latestChainConfiguration s = polygon
  /\ latestChainConfiguration s <> JUndefined.
Proof. vm_compute. repeat split; discriminate. Qed.

End Scenarios.

(* ================================================================== *)
(** ** The theorems at concrete inputs *)
(* ================================================================== *)

Section Witnesses.

#[local] Existing Instance spec_externals.

Lemma request_dispatch_witness :
  (request eth_accounts_request (no_events JUndefined) (connected InMemory) =
     requestInterceptor eth_accounts_request (no_events JUndefined) (connected InMemory)
   /\ invocations (final (request eth_accounts_request (no_events JUndefined) (connected InMemory)))
      = invocations (connected InMemory))
  /\ request eth_chainId_request (no_events JUndefined) (constructed InMemory) =
       Throw (Error "No chain ID selected") (constructed InMemory)
  /\ (numeral "137" 137
      /\ request eth_chainId_request (no_events (JStr "0x89")) (on_polygon InMemory) =
           Ok (JStr "0x89")
              (with_trace (trace (on_polygon InMemory)
                             ++ [InvokeMethod "eip155:137" "eth_chainId" (JArr [])])
                          (on_polygon InMemory))
      /\ trace (final (request eth_chainId_request (no_events (JStr "0x89")) (on_polygon InMemory)))
           !! length (trace (on_polygon InMemory)) =
         Some (InvokeMethod "eip155:137" "eth_chainId" (JArr [])))
  /\ (request eth_chainId_request (no_events JUndefined) (beyond_safe InMemory) =
        Throw (AssertionError "Value is not a safe integer. Use `hexToBigInt` instead.")
              (beyond_safe InMemory)
      /\ AssertionError "Value is not a safe integer. Use `hexToBigInt` instead."
         = AssertionError "Value is not a safe integer. Use `hexToBigInt` instead.").
Proof.
  split; [|split; [|split]].
  - exact (proj1 (request_dispatch (H := spec_externals) eth_accounts_request (no_events JUndefined)
                    (connected InMemory)) eq_refl).
  - exact (proj1 (proj2 (request_dispatch (H := spec_externals) eth_chainId_request (no_events JUndefined)
                           (constructed InMemory))) eq_refl eq_refl).
  - pose proof (proj1 (proj2 (proj2 (request_dispatch (H := spec_externals) eth_chainId_request
                                       (no_events (JStr "0x89")) (on_polygon InMemory))))
                  eq_refl 137%Z ltac:(vm_compute; reflexivity)) as (Hd & Hr & Ht).
    split; [exact Hd|]. split.
    + etransitivity; [exact Hr | vm_compute; reflexivity].
    + etransitivity; [exact Ht | vm_compute; reflexivity].
  - pose proof (proj2 (proj2 (proj2 (request_dispatch (H := spec_externals) eth_chainId_request
                                       (no_events JUndefined) (beyond_safe InMemory))))
                  eq_refl ltac:(vm_compute; reflexivity)
                  (AssertionError "Value is not a safe integer. Use `hexToBigInt` instead.")
                  ltac:(vm_compute; reflexivity)) as (Hr & He).
    split; [exact Hr | exact (He ltac:(vm_compute; reflexivity))].
Defined.

Lemma handler_order_witness :
  (exists s', onChainChanged (JNum (Num 137)) (fresh InMemory (Some all_handlers) ∅) = Ok tt s'
     /\ trace s' = [SetSelectedChainId (JNum (Num 137));
                    Callback (chainChanged_event "0x89");
                    Emit (chainChanged_event "0x89")])
  /\ (exists s', onConnect (JStr "0x1") (fresh InMemory (Some all_handlers) ∅) = Ok tt s'
     /\ trace s' = [Emit (connect_event "0x1");
                    Callback (connect_event "0x1");
                    SetSelectedChainId (JStr "0x1");
                    Callback (chainChanged_event "0x1");
                    Emit (chainChanged_event "0x1")]).
Proof.
  split.
  - destruct (proj1 (proj2 handler_order) (JNum (Num 137)) "0x89" eq_refl
                (fresh InMemory (Some all_handlers) ∅)) as (s' & Hrun & Htr & _).
    exists s'. split; [exact Hrun | exact Htr].
  - destruct (proj1 (proj2 (proj2 handler_order)) (JStr "0x1") "0x1" eq_refl
                (fresh InMemory (Some all_handlers) ∅)) as (s' & Hrun & Htr & _).
    exists s'. split; [exact Hrun | exact Htr].
Defined.

Lemma pending_chain_configuration_witness :
  (switchChain (JStr "0x89") polygon (connected InMemory) =
     Ok tt (with_trace
              (trace (connected InMemory)
                 ++ [SendEip1193Message "wallet_switchEthereumChain"
                       [JObj [("chainId", JStr "0x89")]]])
              (with_latestChainConfiguration polygon (connected InMemory)))
   /\ latestChainConfiguration (final (switchChain (JStr "0x89") polygon (connected InMemory)))
      = polygon)
  /\ storage (run_all [SwitchChain (JStr "0x89") polygon] (connected StorageBacked))
       !! "latestChainConfiguration" =
     storage (connected StorageBacked) !! "latestChainConfiguration".
Proof.
  split.
  - exact (proj1 (pending_chain_configuration (H := spec_externals)) (connected InMemory) (JStr "0x89") polygon "0x89"
             eq_refl eq_refl eq_refl).
  - exact (proj1 (proj2 (proj2 (pending_chain_configuration (H := spec_externals))))
             [SwitchChain (JStr "0x89") polygon] (connected StorageBacked)
             "latestChainConfiguration" ltac:(discriminate) ltac:(discriminate)).
Defined.

Lemma chain_not_configured_witness :
  (exists s1,
     latestChainConfiguration s1 = polygon
     /\ metamaskProviderHandler (provider_message unrecognized_chain) switching =
          Ok tt (with_trace
                   (trace s1 ++ [SendEip1193Message "wallet_addEthereumChain" [polygon]]) s1))
  /\ (exists s1,
       metamaskProviderHandler (provider_message unrecognized_chain) (connected InMemory) =
         Throw (Error "No chain configuration found.") s1).
Proof.
  split.
  - destruct (chain_not_configured (H := spec_externals)
                (provider_message unrecognized_chain) switching
                ltac:(vm_compute; reflexivity) ltac:(vm_compute; reflexivity)
                ltac:(vm_compute; reflexivity))
      as (s1 & _ & Hlatest & Hsend & _).
    exists s1. split; [exact Hlatest|]. apply Hsend. vm_compute. reflexivity.
  - destruct (chain_not_configured (H := spec_externals)
                (provider_message unrecognized_chain) (connected InMemory)
                ltac:(vm_compute; reflexivity) ltac:(vm_compute; reflexivity)
                ltac:(vm_compute; reflexivity))
      as (s1 & _ & _ & _ & Hthrow & _).
    exists s1. apply Hthrow. vm_compute. reflexivity.
Defined.

Lemma selectedChainId_setter_witness :
  (exists s', set_selectedChainId JUndefined (connected InMemory) = Ok tt s'
     /\ p_selectedChainId s' = JStr "0x1")
  /\ (exists s', set_selectedChainId (JNum (Num 137)) (connected InMemory) = Ok tt s'
     /\ p_selectedChainId s' = JStr "0x89").
Proof.
  split.
  - destruct (proj1 (selectedChainId_setter (connected InMemory)) JUndefined eq_refl)
      as (s' & Hrun & Hp & _).
    exists s'. split; [exact Hrun | exact Hp].
  - destruct (proj2 (selectedChainId_setter (connected InMemory)) 137%Z
                ltac:(split; [reflexivity | discriminate]))
      as (s' & Hrun & _ & Hp & _).
    exists s'. split; [exact Hrun | exact Hp].
Defined.

Lemma chainChanged_0x89_message_witness :
  exists s',
    deliver (WindowMessage (provider_message chainChanged_0x89)) (connected InMemory) = Ok tt s'
    /\ p_selectedChainId s' = JStr "0x89"
    /\ trace s' = trace (connected InMemory)
                  ++ [SetSelectedChainId (JNum (Num 137)); Emit (chainChanged_event "0x89")].
Proof.
  destruct (chainChanged_0x89_message (H := spec_externals) (connected InMemory))
    as (_ & _ & s' & _ & Hp & _ & Htr & Hdeliver).
  exists s'. split; [exact (Hdeliver (or_introl eq_refl))|]. split; [exact Hp | exact Htr].
Defined.

Lemma session_recovery_witness :
  exists s0,
    constructor InMemory None ∅ (Some [sessionChanged_record]) = Ok tt s0
    /\ trace s0 = [SendEip1193Message "eth_accounts" []]
    /\ accounts_emissions (final (deliver_all (map WindowMessage result_messages) s0)) =
         [Emit (accountsChanged_event (JArr [account_a; account_b]))]
    /\ window_listeners (final (deliver_all (map WindowMessage result_messages) s0)) =
         [MetamaskProviderHandler].
Proof.
  destruct (session_recovery (H := spec_externals) InMemory None ∅ [] [] sessionChanged_record
              ltac:(constructor) eq_refl)
    as (s0 & Hrun & Htr & _ & Hstream).
  exists s0. split; [exact Hrun|]. split; [exact Htr|].
  destruct (Hstream result_messages) as (_ & Hwl & Hem).
  split; [exact (Hem ltac:(repeat constructor)) | exact Hwl].
Defined.

Lemma connect_returns_cached_accounts_witness :
  exists s2,
    connect (Some (JNum (Num 137), JUndefined)) (no_events (JArr [account_a]))
            (constructed InMemory) =
      Ok (JObj [("accounts", p_accounts s2); ("chainId", JNum (Num 137))]) s2
    /\ (accounts_assignments s2 = [] -> p_accounts s2 = JArr []).
Proof.
  exact (proj1 (proj2 (connect_returns_cached_accounts (H := spec_externals)))
           None ∅ None (constructed InMemory) [] 137%Z JUndefined
           (no_events (JArr [account_a])) (JArr [account_a])
           eq_refl ltac:(split; discriminate) eq_refl).
Defined.

End Witnesses.

(* ================================================================== *)
(** ** The further theorems at concrete inputs *)
(* ================================================================== *)

(** A closed side condition, by evaluation. *)
Ltac evaluated := vm_compute; repeat split; first [reflexivity | discriminate].

Section Instances.

#[local] Existing Instance spec_externals.

Lemma foreign_messages_ignored_witness :
  deliver_all (map WindowMessage [foreign_message; misnamed_message]) (connected InMemory)
  = Ok tt (connected InMemory).
Proof.
  apply (foreign_messages_ignored (H := spec_externals)).
  constructor; [left; cbn; discriminate|].
  constructor; [right; cbn; discriminate | constructor].
Defined.

Lemma accountsChanged_notification_witness :
  metamaskProviderHandler (provider_message accountsChanged_a) (constructed InMemory) =
    Ok tt (with_trace
             [SetAccounts (JArr [account_a]); Emit (accountsChanged_event (JArr [account_a]))]
             (with_accounts (JArr [account_a]) (constructed InMemory))).
Proof.
  etransitivity.
  - apply (accountsChanged_notification (H := spec_externals)); evaluated.
  - evaluated.
Defined.

Lemma chainChanged_notification_witness :
  metamaskProviderHandler (provider_message (chainChanged_to (JStr "137"))) (constructed InMemory) =
    Ok tt (with_trace
             [SetSelectedChainId (JNum (Num 137)); Emit (chainChanged_event "0x89")]
             (with_selectedChainId (JStr "0x89") (constructed InMemory)))
  /\ metamaskProviderHandler (provider_message (chainChanged_to (JNum (Num 0)))) (connected InMemory) =
       Ok tt (with_trace
                (trace (connected InMemory)
                   ++ [SetSelectedChainId (JNum (Num 0)); Emit (chainChanged_event "0x0")])
                (connected InMemory))
  /\ metamaskProviderHandler (provider_message (chainChanged_to (JStr "polygon"))) (connected InMemory) =
       Throw (AssertionError "Value must be a non-negative number.") (connected InMemory)
  /\ metamaskProviderHandler (provider_message (chainChanged_to (JStr "1e3"))) (constructed InMemory) =
       Ok tt (with_trace
                [SetSelectedChainId (JNum (Num 1000)); Emit (chainChanged_event "0x3e8")]
                (with_selectedChainId (JStr "0x3e8") (constructed InMemory)))
  /\ metamaskProviderHandler (provider_message (chainChanged_to (JStr "1.5"))) (connected InMemory) =
       Throw (AssertionError "Value is not a safe integer. Use `bigIntToHex` instead.")
             (connected InMemory).
Proof.
  split; [|split; [|split; [|split]]].
  - etransitivity.
    + apply (proj1 (chainChanged_notification (H := spec_externals)
                      (provider_message (chainChanged_to (JStr "137"))) (JStr "137")
                      (constructed InMemory)
                      ltac:(evaluated) ltac:(evaluated) ltac:(evaluated) ltac:(evaluated))
               137%Z); evaluated.
    + evaluated.
  - etransitivity.
    + apply (proj1 (proj2 (chainChanged_notification (H := spec_externals)
                             (provider_message (chainChanged_to (JNum (Num 0)))) (JNum (Num 0))
                             (connected InMemory)
                             ltac:(evaluated) ltac:(evaluated) ltac:(evaluated) ltac:(evaluated))));
        evaluated.
    + evaluated.
  - apply (proj2 (proj2 (chainChanged_notification (H := spec_externals)
                           (provider_message (chainChanged_to (JStr "polygon"))) (JStr "polygon")
                           (connected InMemory)
                           ltac:(evaluated) ltac:(evaluated) ltac:(evaluated) ltac:(evaluated))));
      evaluated.
  - etransitivity.
    + apply (proj1 (chainChanged_notification (H := spec_externals)
                      (provider_message (chainChanged_to (JStr "1e3"))) (JStr "1e3")
                      (constructed InMemory)
                      ltac:(evaluated) ltac:(evaluated) ltac:(evaluated) ltac:(evaluated))
               1000%Z); evaluated.
    + evaluated.
  - apply (proj2 (proj2 (chainChanged_notification (H := spec_externals)
                           (provider_message (chainChanged_to (JStr "1.5"))) (JStr "1.5")
                           (connected InMemory)
                           ltac:(evaluated) ltac:(evaluated) ltac:(evaluated) ltac:(evaluated))));
      evaluated.
Defined.

Lemma notification_paths_agree_witness :
  metamaskProviderHandler (provider_message accountsChanged_a) (connected InMemory)
  = notificationCallback accountsChanged_a (connected InMemory)
  /\ metamaskProviderHandler (provider_message chainChanged_0x89) (connected InMemory)
     = notificationCallback chainChanged_0x89 (connected InMemory).
Proof.
  split.
  - apply (notification_paths_agree (H := spec_externals) accountsChanged_a (connected InMemory));
      [evaluated | discriminate].
  - apply (notification_paths_agree (H := spec_externals) chainChanged_0x89 (connected InMemory));
      [evaluated | reflexivity].
Defined.

Lemma sessionChanged_replaces_scopes_witness :
  deliver (SessionChanged session_137) (constructed InMemory) =
    Ok tt (with_sessionScopes (JObj [("eip155:137", JObj [])]) (constructed InMemory))
  /\ deliver (SessionChanged JUndefined) permitting_polygon =
       Ok tt (with_sessionScopes (JObj []) permitting_polygon).
Proof.
  split.
  - apply (sessionChanged_replaces_scopes (H := spec_externals) session_137 (constructed InMemory)).
    evaluated.
  - apply (sessionChanged_replaces_scopes (H := spec_externals) JUndefined permitting_polygon).
    evaluated.
Defined.

Lemma selectedAccount_after_accountsChanged_witness :
  get_selectedAccount (final (onAccountsChanged (JArr [account_a; account_b]) (constructed InMemory)))
  = inr account_a
  /\ get_selectedAccount (final (onAccountsChanged (JArr []) (with_account_a InMemory)))
     = inr JUndefined
  /\ (exists msg,
        get_selectedAccount (final (onAccountsChanged JUndefined (with_account_a InMemory)))
        = inl (TypeError msg))
  /\ get_selectedAccount
       (final (onAccountsChanged (JArr [account_a; account_b]) (constructed StorageBacked)))
     = inr (JPromise account_a)
  /\ get_selectedAccount (final (onAccountsChanged JUndefined (with_account_a StorageBacked)))
     = inr (JPromise JUndefined).
Proof.
  split; [|split; [|split; [|split]]].
  - apply (proj1 (proj2 (proj2 (proj1 (selectedAccount_after_accountsChanged
                                         (JArr [account_a; account_b]) (constructed InMemory))
                                      ltac:(evaluated))))
             account_a [account_b] eq_refl).
  - apply (proj1 (proj2 (proj2 (proj2 (proj1 (selectedAccount_after_accountsChanged
                                                (JArr []) (with_account_a InMemory))
                                             ltac:(evaluated)))))
             eq_refl).
  - apply (proj2 (proj2 (proj2 (proj2 (proj1 (selectedAccount_after_accountsChanged
                                                JUndefined (with_account_a InMemory))
                                             ltac:(evaluated)))))
             eq_refl).
  - apply (proj1 (proj2 (proj2 (proj2 (selectedAccount_after_accountsChanged
                                         (JArr [account_a; account_b]) (constructed StorageBacked))
                                      ltac:(evaluated) ltac:(evaluated))))
             account_a [account_b] eq_refl).
  - apply (proj2 (proj2 (proj2 (proj2 (selectedAccount_after_accountsChanged
                                         JUndefined (with_account_a StorageBacked))
                                      ltac:(evaluated) ltac:(evaluated))))
             eq_refl).
Defined.

Lemma requests_follow_the_announced_chain_witness :
  numeral "137" 137
  /\ request eth_chainId_request (no_events (JStr "0x89"))
             (final (onChainChanged (JNum (Num 137)) (constructed InMemory)))
     = Ok (JStr "0x89")
          (with_trace
             [SetSelectedChainId (JNum (Num 137)); Emit (chainChanged_event "0x89");
              InvokeMethod "eip155:137" "eth_chainId" (JArr [])]
             (with_selectedChainId (JStr "0x89") (constructed InMemory))).
Proof.
  destruct (requests_follow_the_announced_chain (H := spec_externals) 137%Z eth_chainId_request
              (no_events (JStr "0x89")) (constructed InMemory)
              ltac:(evaluated) ltac:(evaluated)) as [Hd Hr].
  split; [exact Hd|]. etransitivity; [exact Hr | evaluated].
Defined.

Lemma selected_chain_is_hex_witness :
  undefined_or_hex
    (p_selectedChainId
       (run_all [Connect None (no_events JUndefined);
                 SwitchChain (JStr "not a chain") JUndefined;
                 Inbound (WindowMessage (provider_message (chainChanged_to (JStr "137"))));
                 Disconnect (no_events JUndefined)]
                (constructed InMemory))) = true.
Proof.
  apply (proj2 (selected_chain_is_hex (H := spec_externals))).
  apply (proj1 (selected_chain_is_hex (H := spec_externals))).
Defined.

Lemma storage_backed_chain_in_sync_witness :
  storage (run_all [Inbound (WindowMessage (provider_message chainChanged_0x89))]
                   (constructed StorageBacked)) !! "selectedChainId"
  = Some (p_selectedChainId
            (run_all [Inbound (WindowMessage (provider_message chainChanged_0x89))]
                     (constructed StorageBacked)))
  /\ get_selectedChainId (run_all [Inbound (WindowMessage (provider_message chainChanged_0x89))]
                                  (constructed StorageBacked))
     = JPromise (p_selectedChainId
                   (run_all [Inbound (WindowMessage (provider_message chainChanged_0x89))]
                            (constructed StorageBacked))).
Proof.
  apply (storage_backed_chain_in_sync (H := spec_externals) None ∅ None
           [Inbound (WindowMessage (provider_message chainChanged_0x89))]).
  evaluated.
Defined.

Lemma storage_backed_accounts_in_sync_witness :
  storage (run_all [Inbound (WindowMessage (provider_message accountsChanged_a))]
                   (constructed StorageBacked)) !! "accounts"
  = Some (p_accounts
            (run_all [Inbound (WindowMessage (provider_message accountsChanged_a))]
                     (constructed StorageBacked)))
  /\ get_accounts (run_all [Inbound (WindowMessage (provider_message accountsChanged_a))]
                           (constructed StorageBacked))
     = JPromise (p_accounts
                   (run_all [Inbound (WindowMessage (provider_message accountsChanged_a))]
                            (constructed StorageBacked))).
Proof.
  apply (storage_backed_accounts_in_sync (H := spec_externals) None ∅ None
           [Inbound (WindowMessage (provider_message accountsChanged_a))]); evaluated.
Defined.

Lemma persisted_chain_is_not_selected_witness :
  get_selectedChainId
    (final (constructor StorageBacked None {["selectedChainId" := JStr "0x89"]} None))
  = JPromise (JStr "0x89")
  /\ request eth_chainId_request (no_events JUndefined)
       (final (constructor StorageBacked None {["selectedChainId" := JStr "0x89"]} None))
     = Throw (Error "No chain ID selected")
         (final (constructor StorageBacked None {["selectedChainId" := JStr "0x89"]} None)).
Proof.
  apply (persisted_chain_is_not_selected (H := spec_externals) None
           {["selectedChainId" := JStr "0x89"]} None (JStr "0x89")
           eth_chainId_request (no_events JUndefined)).
  - apply lookup_singleton_eq.
  - evaluated.
Defined.

Lemma connect_failures_witness :
  connect (Some (JUndefined, account_a)) (no_events JUndefined) (constructed InMemory)
  = Throw (AssertionError "Value must be a number.")
      (with_trace [CoreConnect [] []] (constructed InMemory))
  /\ connect (Some (JNum (Num (-1)), JUndefined)) (no_events JUndefined) (constructed InMemory)
     = Throw (AssertionError "Value must be a non-negative number.")
         (with_trace [CoreConnect ["eip155:-1"] []] (constructed InMemory))
  /\ connect (Some (JNum (Num 1), JUndefined)) (rejected (JStr "denied")) (constructed InMemory)
     = Throw (Rejection (JStr "denied"))
         (with_trace [CoreConnect ["eip155:1"] []] (constructed InMemory))
  /\ connect (Some (JNum (Num (10 ^ 21)), account_a)) (no_events JUndefined) (constructed InMemory)
     = Throw (AssertionError "Value is not a safe integer. Use `bigIntToHex` instead.")
         (with_trace
            [CoreConnect ["eip155:1e+21"]
                         ["eip155:1e+21:0x00000000000000000000000000000000000000aa"]]
            (constructed InMemory))
  /\ connect (Some (JNum (Frac 3 1), JUndefined)) (no_events JUndefined) (constructed InMemory)
     = Throw (AssertionError "Value is not a safe integer. Use `bigIntToHex` instead.")
         (with_trace [CoreConnect ["eip155:1.5"] []] (constructed InMemory)).
Proof.
  split; [|split; [|split; [|split]]].
  - etransitivity.
    + apply (proj2 (proj2 (proj2 (proj2
               (connect_failures (H := spec_externals) JUndefined account_a (no_events JUndefined)
                  (constructed InMemory))))) JUndefined); evaluated.
    + evaluated.
  - etransitivity.
    + apply (proj1 (proj2 (proj2 (proj2
               (connect_failures (H := spec_externals) (JNum (Num (-1))) JUndefined
                  (no_events JUndefined) (constructed InMemory))))) JUndefined); evaluated.
    + evaluated.
  - etransitivity.
    + apply (proj1 (proj2 (proj2
               (connect_failures (H := spec_externals) (JNum (Num 1)) JUndefined
                  (rejected (JStr "denied")) (constructed InMemory)))) (JStr "denied")); evaluated.
    + evaluated.
  - etransitivity.
    + apply (proj1 (proj2 (proj2 (proj2
               (connect_failures (H := spec_externals) (JNum (Num (10 ^ 21))) account_a
                  (no_events JUndefined) (constructed InMemory))))) JUndefined); evaluated.
    + evaluated.
  - etransitivity.
    + apply (proj1 (proj2 (proj2 (proj2
               (connect_failures (H := spec_externals) (JNum (Frac 3 1)) JUndefined
                  (no_events JUndefined) (constructed InMemory))))) JUndefined); evaluated.
    + evaluated.
Defined.

Lemma connect_effects_witness :
  connect (Some (JNum (Num 137), JUndefined)) (no_events JUndefined) (constructed InMemory)
  = Ok (JObj [("accounts", JArr []); ("chainId", JNum (Num 137))])
       (with_trace
          [CoreConnect ["eip155:137"] [];
           SetSelectedChainId (JStr "0x89"); Emit (connect_event "0x89");
           SetSelectedChainId (JStr "0x89"); Emit (chainChanged_event "0x89")]
          (with_notification_callbacks 1
             (with_selectedChainId (JStr "0x89") (constructed InMemory)))).
Proof.
  etransitivity.
  - apply (connect_effects (H := spec_externals) 137%Z JUndefined (no_events JUndefined)
             JUndefined (constructed InMemory)); evaluated.
  - evaluated.
Defined.

Lemma connect_storage_backed_rejects_witness :
  exists s',
    connect (Some (JNum (Num 1), JUndefined)) (no_events JUndefined) (constructed StorageBacked)
    = Throw (AssertionError "Value must be a number.") s'
    /\ p_selectedChainId s' = JStr "0x1"
    /\ notification_callbacks s' = 1.
Proof.
  destruct (proj2 (connect_storage_backed_rejects (H := spec_externals)
                     (Some (JNum (Num 1), JUndefined)) (no_events JUndefined)
                     (constructed StorageBacked) ltac:(evaluated))
              1%Z JUndefined JUndefined eq_refl ltac:(evaluated) ltac:(evaluated))
    as (s' & Hrun & _ & Hp & _ & Hn).
  exists s'. split; [exact Hrun|]. split; [exact Hp|].
  rewrite Hn. evaluated.
Defined.

Lemma disconnect_effects_witness :
  disconnect (rejected (JStr "offline")) (connected InMemory)
  = Throw (Rejection (JStr "offline"))
      (with_trace (trace (connected InMemory) ++ [CoreDisconnect]) (connected InMemory))
  /\ disconnect (no_events JUndefined) (with_account_a InMemory)
     = Ok JUndefined
         (with_window_listeners []
            (with_trace
               (trace (with_account_a InMemory)
                  ++ [CoreDisconnect; Emit disconnect_event;
                      SetAccounts (JArr []); Emit (accountsChanged_event (JArr []))]
                  ++ [SetAccounts (JArr []); SetSelectedChainId JUndefined])
               (with_accounts (JArr []) (with_account_a InMemory)))).
Proof.
  split.
  - etransitivity.
    + apply (proj1 (disconnect_effects (H := spec_externals) (rejected (JStr "offline"))
                      (connected InMemory)) (JStr "offline")); evaluated.
    + evaluated.
  - etransitivity.
    + apply (proj2 (disconnect_effects (H := spec_externals) (no_events JUndefined)
                      (with_account_a InMemory)) JUndefined); evaluated.
    + evaluated.
Defined.

Lemma switchChain_permitted_is_local_witness :
  switchChain (JNum (Num 137)) polygon permitting_polygon
  = Ok tt (with_trace
             (trace permitting_polygon
                ++ [SetSelectedChainId (JStr "0x89"); Emit (chainChanged_event "0x89")])
             (with_selectedChainId (JStr "0x89") permitting_polygon)).
Proof.
  etransitivity.
  - apply (switchChain_permitted_is_local (H := spec_externals) (JNum (Num 137)) polygon "0x89"
             permitting_polygon); evaluated.
  - evaluated.
Defined.

Lemma chain_id_validation_witness :
  (exists h, to_hexChainId (JStr "0X89") = inr h /\ isHex (JStr h) = true)
  /\ (exists e,
        switchChain (JStr "polygon") polygon (connected InMemory) = Throw e (connected InMemory)
        /\ onChainChanged (JStr "polygon") (connected InMemory) = Throw e (connected InMemory)
        /\ e = AssertionError "Value must be a number.").
Proof.
  split.
  - apply (proj1 (chain_id_validation (H := spec_externals) (JStr "0X89") (connected InMemory))).
    evaluated.
  - destruct (proj2 (chain_id_validation (H := spec_externals) (JStr "polygon") (connected InMemory))
                ltac:(evaluated)) as (e & Hs & Hc & _ & He).
    exists e. split; [exact (Hs polygon)|]. split; [exact Hc | exact (He eq_refl)].
Defined.

Lemma accounts_requests_read_the_cache_witness :
  requestInterceptor eth_coinbase_request (no_events JUndefined) (with_account_a InMemory)
  = Ok (JArr [account_a]) (with_account_a InMemory).
Proof.
  etransitivity.
  - apply (accounts_requests_read_the_cache (H := spec_externals) eth_coinbase_request
             (no_events JUndefined) (with_account_a InMemory)); evaluated.
  - evaluated.
Defined.

Lemma connect_request_defaults_witness :
  requestInterceptor requestAccounts_request (no_events JUndefined) (constructed InMemory)
  = connect None (no_events JUndefined) (constructed InMemory).
Proof.
  apply (proj2 (connect_request_defaults (H := spec_externals) requestAccounts_request
                  (no_events JUndefined) (constructed InMemory) []
                  ltac:(evaluated) ltac:(evaluated) eq_refl)).
  reflexivity.
Defined.

Lemma switch_request_round_trip_witness :
  requestInterceptor switch_to_0xa_request (no_events JUndefined) switching
  = Ok JUndefined
      (with_trace
         (trace switching ++ [SendEip1193Message "wallet_switchEthereumChain"
                                [JObj [("chainId", JStr "0xa")]]])
         (with_latestChainConfiguration JUndefined switching))
  /\ latestChainConfiguration switching = polygon.
Proof.
  split; [|evaluated].
  apply (proj2 (switch_request_round_trip (H := spec_externals) switch_to_0xa_request
                  (no_events JUndefined) switching (JObj [("chainId", JStr "0xa")]) 10%Z "0xa"
                  ltac:(evaluated) eq_refl eq_refl eq_refl ltac:(evaluated)));
    evaluated.
Defined.

Lemma add_chain_request_witness :
  requestInterceptor add_polygon_request (no_events JUndefined) (connected InMemory)
  = Ok JUndefined
      (with_trace (trace (connected InMemory)
                     ++ [SendEip1193Message "wallet_addEthereumChain" [polygon]])
         (connected InMemory))
  /\ requestInterceptor add_pending_request (no_events JUndefined) switching
     = Ok JUndefined
         (with_trace (trace switching ++ [SendEip1193Message "wallet_addEthereumChain" [polygon]])
            switching)
  /\ requestInterceptor add_pending_request (no_events JUndefined) (connected InMemory)
     = Throw (Error "No chain configuration found.") (connected InMemory)
  /\ requestInterceptor add_empty_request (no_events JUndefined) switching
     = Throw (Error "No chain configuration found.") switching.
Proof.
  split; [|split; [|split]].
  - apply (proj1 (add_chain_request (H := spec_externals) add_polygon_request
                    (no_events JUndefined) (connected InMemory) polygon
                    ltac:(evaluated) eq_refl eq_refl)).
    evaluated.
  - etransitivity.
    + apply (proj1 (proj2 (add_chain_request (H := spec_externals) add_pending_request
                             (no_events JUndefined) switching JUndefined
                             ltac:(evaluated) eq_refl eq_refl))); evaluated.
    + evaluated.
  - apply (proj1 (proj2 (proj2 (add_chain_request (H := spec_externals) add_pending_request
                                  (no_events JUndefined) (connected InMemory) JUndefined
                                  ltac:(evaluated) eq_refl eq_refl)))); evaluated.
  - apply (proj2 (proj2 (proj2 (add_chain_request (H := spec_externals) add_empty_request
                                  (no_events JUndefined) switching (JStr "")
                                  ltac:(evaluated) eq_refl eq_refl)))); evaluated.
Defined.

Lemma requests_without_parameters_witness :
  requestInterceptor (H := ignoring_externals) eth_sign_request (no_events JUndefined)
    (connected InMemory)
  = Throw (Error "Method: eth_sign is not supported by Metamask Connect/EVM") (connected InMemory)
  /\ (exists msg,
        requestInterceptor requestAccounts_without_params (no_events JUndefined)
          (constructed InMemory)
        = Throw (TypeError msg) (constructed InMemory))
  /\ (exists msg,
        requestInterceptor switch_nowhere_request (no_events JUndefined) (connected InMemory)
        = Throw (TypeError msg) (connected InMemory)).
Proof.
  split; [|split].
  - etransitivity.
    + apply (proj1 (requests_without_parameters (H := ignoring_externals) eth_sign_request
                      (no_events JUndefined) (connected InMemory))); evaluated.
    + evaluated.
  - apply (proj1 (proj2 (requests_without_parameters (H := spec_externals)
                           requestAccounts_without_params (no_events JUndefined)
                           (constructed InMemory)))); evaluated.
  - apply (proj2 (proj2 (requests_without_parameters (H := spec_externals)
                           switch_nowhere_request (no_events JUndefined) (connected InMemory))));
      evaluated.
Defined.

Lemma recovery_needs_a_sessionChanged_record_witness :
  constructor InMemory None ∅ (Some [accountsChanged_a; chainChanged_0x89])
  = Ok tt (idle InMemory None ∅)
  /\ (exists msg,
        constructor InMemory None ∅ (Some [accountsChanged_a; JNull; sessionChanged_record])
        = Throw (TypeError msg) (idle InMemory None ∅)
        /\ createMetamaskConnectEVM InMemory None ∅ [accountsChanged_a; JNull; sessionChanged_record]
             (Resolves JUndefined)
           = inl (TypeError msg)).
Proof.
  split.
  - apply (proj1 (proj2 (recovery_needs_a_sessionChanged_record InMemory None ∅))
             [accountsChanged_a; chainChanged_0x89]).
    evaluated.
  - destruct (proj1 (proj2 (proj2 (recovery_needs_a_sessionChanged_record InMemory None ∅)))
                [accountsChanged_a] JNull [sessionChanged_record]
                ltac:(evaluated) ltac:(evaluated))
      as (msg & Hc & Hf).
    exists msg. split; [exact Hc | exact (Hf JUndefined)].
Defined.

Lemma recovery_listener_survives_disconnect_witness :
  deliver (WindowMessage (provider_message accountsChanged_a)) (disconnected InMemory)
  = Ok tt (disconnected InMemory)
  /\ (exists s3,
        deliver (WindowMessage (provider_message (JObj [("result", JArr [account_a])])))
                (final (disconnect (no_events JUndefined) recovering))
        = Ok tt s3
        /\ p_accounts s3 = JArr [account_a]
        /\ window_listeners s3 = []).
Proof.
  split.
  - apply (proj1 (recovery_listener_survives_disconnect (H := spec_externals)
                    (no_events JUndefined) JUndefined (connected InMemory)
                    (provider_message accountsChanged_a) eq_refl)).
    evaluated.
  - destruct (proj2 (recovery_listener_survives_disconnect (H := spec_externals)
                       (no_events JUndefined) JUndefined recovering
                       (provider_message (JObj [("result", JArr [account_a])])) eq_refl)
                ltac:(evaluated) (JArr [account_a]) ltac:(evaluated))
      as (s3 & Hrun & Hacc & _ & Hwl).
    exists s3. split; [exact Hrun|]. split; [exact Hacc | exact Hwl].
Defined.

End Instances.
